(* ===== verification/_CoqProject ===== *)
-Q . S2P
Prelude.v
Memory.v
Resolver.v
Primitives.v
Token.v
TimeStamp.v
ListEntry.v
VadTree.v
VadInfo.v
ObjectHeader.v
HandleTable.v
KeyBody.v
PE.v
Overlay.v
Registry.v
Scanners.v
Process.v
IA32.v
