(* ===== verification/Prelude.v ===== *)
(** * A verification development of Volatility's Windows object layer

    The program is the Windows support of the Volatility memory-forensics
    framework: [src/trunk/volatility/plugins/overlays/windows/windows.py]
    (the Windows object classes, the schema overlay and the profile
    modifications) and [src/branches/Volatility-1.4_beta1/volatility/utils.py]
    ([load_as], which stacks address spaces by voting).  A forensic session
    resolves an address-space chain with [load_as], decodes structures from
    it through typed objects, and walks the kernel's linked lists, VAD
    trees, handle tables and registry keys; every walk reads an untrusted
    image, so its cycle guards and sanity bounds are what keep it safe.

    ** Files, in dependency order

    - [Prelude]: the absence value [maybe] ([obj.NoneObject]) with its
      monad notation, the scope [vol_scope] ([x &~ m] is Python's
      [x & ~m]), the hint databases [vol] and [volr], the tactics
      [inv_maybe] and [decide_vm], and the shared lemmas (the measure of
      the not-yet-visited part of a finite domain, pigeonhole, masks,
      [split_on] inverting [str_join], decimal strings without
      separators, sorted filters).
    - [Memory]: the address space and object layer of [addrspace.py] and
      [obj.py], which are not in the repository and are modelled from the
      spec: an address space is a finite map [gmap Z Z] from address to
      byte; [read_uint], [mk_object] ([obj.Object]), [deref]
      ([Pointer.dereference]), [field] ([NativeType.v]); Python 2's
      comparisons of a [NoneObject] with a number ([py_ne], [py_gt]) and
      its [str] ([py_str]); the well-formedness of an image
      ([byte_image]: every address holds a byte) with the width bounds of
      reads; the profile ([Profile]: sizes and member offsets) and the
      test profile [xp_x86].
    - [Resolver]: [utils.load_as] and [AddrSpaceError], over an abstract
      catalogue of address-space classes (Section variables).
    - [Primitives]: [_UNICODE_STRING], [WinTimeStamp],
      [ThreadCreateTimeStamp], [_EX_FAST_REF], [_TOKEN.is_valid],
      [_EPROCESS.get_token], [IpAddress].
    - [Token]: [_TOKEN.get_sids], the SID strings with the [id_auth]
      local carried across iterations and the [UnboundLocalError] that can
      stop the generator.
    - [TimeStamp]: [WinTimeStamp.__nonzero__], [__str__], [as_datetime]
      (with the range of [datetime.utcfromtimestamp]) and [__format__].
    - [ListEntry]: [_LIST_ENTRY.list_of_type], the list walk with its
      [seen] set, and [__iter__].
    - [VadTree]: [_MMVAD.__new__] (tag dispatch), [_MMVAD_SHORT.traverse]
      with its shared [visited] set, and [get_start], [get_end], [get_data].
    - [VadInfo]: [get_parent], [get_control_area], [get_file_object]
      (which raise on a short VAD) and [_MMVAD_FLAGS.__str__].
    - [ObjectHeader]: [_OBJECT_HEADER] (optional headers, [GrantedAccess],
      [dereference_as], [get_object_type], and [__init__] as the record
      [object_header] with its [HandleValue] and parent), [_FILE_OBJECT],
      and [_UNICODE_STRING.v], [__unicode__] and [__format__] over a
      UTF-16 decoder.
    - [HandleTable]: [_HANDLE_TABLE.handles] and [_make_handle_array], the
      multi-level handle table with its handle values; [get_item] builds
      the header object of [ObjectHeader] with the handle value and its
      entry as parent.
    - [KeyBody]: [_CM_KEY_BODY.full_key_name], on fuel and as a step
      relation [key_step] with [eventually].
    - [PE]: [get_nt_header], [get_sections], [sanity_check_section], with
      exceptions as values.
    - [Overlay]: [windows_overlay] as data, the schema merge of [obj.py]
      (spec-modelled), [AbstractKDBGMod]'s signature patch.
    - [Registry]: the classes of [windows.py] and their registration by
      [WindowsObjectClasses]; the profile modifications with their
      [conditions] and [before] lists (their ordering is not modelled);
      [WindowsVTypes.modification] over the five vtypes modules (Section
      variables); the [AbstractWindows] metadata.
    - [Scanners]: [VolatilityKPCR] and [VolatilityKDBG] over the scanner
      interfaces [KPCRScanner] and [KDBGScanner], and
      [VolatilityMagic.v] (spec-modelled).
    - [Process]: [_EPROCESS] ([Peb], [get_process_address_space], the
      module walks, [get_vads]) and [_ETHREAD], over the interface
      [AddressSpaceClass] for the process address space.
    - [IA32]: [VolatilityIA32ValidAS.generate_suggestions] over the
      interface [ia32_space], and a non-PAE IA32 translation
      ([ia32_vtop], spec-modelled) that instantiates it.

    State and operations: a method of a class becomes a function of the
    address space [m], the profile [p] and the object's offset; a
    generator becomes the list it yields, paired with the exception that
    stops it where it can raise; Python loops without a bound are
    [Fixpoint]s on fuel, with a theorem that the fuel is enough.

    ** What the theorems show

    - [load_as] refines the first-accepting-chain relation, fails with one
      reason per class, and terminates under a ranking of the layers.
    - The list, tree and handle walks: exact results on well-formed
      images ([list_of_type_circular], [traverse_tree],
      [handles_two_level_index]); no repetition on any image
      ([list_of_type_nodup], [traverse_nodup], [handles_nodup]);
      termination ([list_of_type_terminates], [traverse_terminates]).
    - Where the code departs from the spec: a lasso-shaped list loses an
      element, the VAD root can be yielded twice, a three-level handle
      table numbers its entries [4 * (k + count * (i + j))]
      ([handles_three_level_index]) and so repeats handle values, the
      registry-key walk diverges on a cycle, [WindowsObjectClasses]
      applies to every OS, a profile without
      [_OBJECT_HEADER_NAME_INFO] makes [file_name_with_device] raise, and
      [get_data] checks page numbers, not addresses, so it admits regions
      past the 32-bit address space ([get_data_pages]).
    - The validator accepts a self-mapping page directory and gives one
      verdict; optional headers resolve independently; a class of
      [windows.py] is found in [object_classes] under its name; the
      module and VAD walks of a process read the process address space;
      every handle's header object is the one its table entry points to,
      built with the handle value of that entry's position, in use, and
      reading [GrantedAccess] from that entry
      ([handles_header_objects]).
    - Strings and values: [get_sids] yields one string per readable SID
      (only the last byte of the authority is printed); a dotted quad
      lists the bytes of an [IpAddress] in memory order
      ([ip_address_v_bytes]); [_MMVAD_FLAGS.__str__] is the
      ["name: value"] string of exactly the non-zero flags, sorted
      ([flags_str_spec]); a [WinTimeStamp] converts to a date exactly
      below year 10000, a [ThreadCreateTimeStamp] always; after
      [AbstractKDBGMod] the KDBG scanner searches for the signature of the
      memory model ([kdbg_v_signature]).
    - Further departures: an unreadable SID is printed with the previous
      SID's authority or raises [UnboundLocalError]; an unreadable
      timestamp makes [as_datetime] raise [TypeError].

    ** Fuel and bounds

    [list_of_type] and [traverse] run on fuel [size m + 1]: every step
    moves one valid address of [m] into the visited set, so the walks stop
    by their own guards first ([Measure] below).  The liveness theorem of
    [full_key_name] uses [size m + 2] iterations, one more than a chain of
    distinct valid blocks can have.  [load_as] gets [bound + 1] rounds
    under a ranking of the layers.

    ** Not modelled

    The scanners themselves ([kpcrscan], [kdbgscan]), the vtypes
    modules and [timefmt] are outside the repository: they are
    interfaces or Section variables, as are the UTF-16 decoding of
    [obj.String] and [NoneObject.__format__].  The address-space
    classes other than the non-PAE IA32 translation (PAE, crash dumps,
    hibernation files) are outside the repository and not modelled.  The
    calendar fields of a [datetime] are not computed: a date is
    identified by its timestamp.  Field widths are those of the 32-bit
    profiles ([xp_x86]), and [utcfromtimestamp] has the range of a 64-bit
    [time_t].  The lines of the two source files no
    definition translates are imports, class and docstring lines, and the
    constructors of [WinTimeStamp] and [ThreadCreateTimeStamp], which
    only pass their keywords to [obj.NativeType] (the [thread] and
    [is_utc] arguments of [TimeStamp] stand for them). *)

From stdpp Require Export base gmap sets list strings pretty.
From Stdlib Require Export ZArith Lia.
From Stdlib Require Import Ascii.
From stdpp Require Import sorting.

(** ** Absence values

    Volatility's [obj.NoneObject] is a value that stands for a failed decode
    and carries a human-readable reason; attribute access on it yields a
    further [NoneObject] instead of raising.  [maybe] is that value: [Obj x]
    is a successfully constructed object, [NoneObject r] an absent one. *)
Inductive maybe (A : Type) : Type :=
| Obj (a : A)
| NoneObject (reason : string).
Arguments Obj {A} a.
Arguments NoneObject {A} reason.

Definition maybe_bind {A B} (f : A -> maybe B) (m : maybe A) : maybe B :=
  match m with Obj a => f a | NoneObject r => NoneObject r end.
Definition maybe_fmap {A B} (f : A -> B) (m : maybe A) : maybe B :=
  match m with Obj a => Obj (f a) | NoneObject r => NoneObject r end.

#[export] Instance maybe_eq_dec `{EqDecision A} : EqDecision (maybe A).
Proof. solve_decision. Defined.

#[export] Instance maybe_ret : MRet maybe := @Obj.
#[export] Instance maybe_mbind : MBind maybe := @maybe_bind.
#[export] Instance maybe_fmap_inst : FMap maybe := @maybe_fmap.

(** Python's truth test of an object: a [NoneObject] is false. *)
Definition is_obj {A} (m : maybe A) : bool :=
  match m with Obj _ => true | NoneObject _ => false end.

(** [of_option r o] turns a read that may fail into an object or an absence
    with reason [r]. *)
Definition of_option {A} (r : string) (o : option A) : maybe A :=
  match o with Some a => Obj a | None => NoneObject r end.

(** ** Notations of the development *)
Declare Scope vol_scope.
Delimit Scope vol_scope with vol.
Open Scope vol_scope.

(** [x &~ m] clears the bits of [m] in [x], Python's [x & ~m]. *)
Notation "x &~ m" := (Z.land x (Z.lnot m)) (at level 40, left associativity) : vol_scope.

(** ** Automation *)
Create HintDb vol discriminated.
Create Rewrite HintDb volr.

Lemma maybe_bind_obj {A B} (a : A) (f : A -> maybe B) : (Obj a ≫= f) = f a.
Proof. reflexivity. Qed.
Lemma maybe_bind_none {A B} (r : string) (f : A -> maybe B) :
  (NoneObject r ≫= f) = NoneObject r.
Proof. reflexivity. Qed.
Lemma of_option_some {A} r (a : A) : of_option r (Some a) = Obj a.
Proof. reflexivity. Qed.
Lemma of_option_none {A} r : of_option (A:=A) r None = NoneObject r.
Proof. reflexivity. Qed.

#[export] Hint Rewrite @maybe_bind_obj @maybe_bind_none
  @of_option_some @of_option_none : volr.

Lemma maybe_bind_obj_inv {A B} (m : maybe A) (f : A -> maybe B) (b : B) :
  (m ≫= f) = Obj b -> exists a, m = Obj a /\ f a = Obj b.
Proof. destruct m; simpl; [eauto | discriminate]. Qed.

(** [inv_maybe] splits every hypothesis [m ≫= f = Obj b] into its parts. *)
Ltac inv_maybe :=
  repeat match goal with
  | H : (_ ≫= _) = Obj _ |- _ =>
      let a := fresh "a" in let Ha := fresh "Ha" in
      apply maybe_bind_obj_inv in H as (a & Ha & H)
  | H : Obj _ = Obj _ |- _ => injection H as H; subst
  | H : NoneObject _ = Obj _ |- _ => discriminate H
  end.

(** ** Shared lemmas: sizes of the not-yet-visited part of a finite domain

    The cycle-safe traversals keep a set of visited offsets; they terminate
    because each step moves one valid offset from the finite domain into
    the visited set.  These two lemmas carry every such measure argument. *)
Section Measure.
Context (D : gset Z).

Lemma size_difference_mono (S1 S2 : gset Z) :
  S1 ⊆ S2 -> size (D ∖ S2) <= size (D ∖ S1).
Proof. intros H. apply subseteq_size. set_solver. Qed.

Lemma size_difference_add (S : gset Z) x :
  x ∈ D -> x ∉ S -> size (D ∖ ({[x]} ∪ S)) < size (D ∖ S).
Proof. intros H1 H2. apply subset_size. set_solver. Qed.
End Measure.

#[export] Hint Resolve size_difference_mono size_difference_add : vol.

(** Pigeonhole: a duplicate-free list of elements of [D] is no longer than
    [D] is large. *)
Lemma nodup_length_size (D : gset Z) (l : list Z) :
  NoDup l -> (forall x, x ∈ l -> x ∈ D) -> length l <= size D.
Proof.
  intros Hnd Hin. rewrite <- (size_list_to_set (C:=gset Z)) by done.
  apply subseteq_size. intros x. rewrite elem_of_list_to_set. apply Hin.
Qed.

Lemma forallb_elem {A} (g : A -> bool) (l : list A) x :
  forallb g l = true -> x ∈ l -> g x = true.
Proof.
  induction l as [|y l IH]; simpl; intros H Hx; [inversion Hx|].
  apply andb_prop in H as [H1 H2]. apply elem_of_cons in Hx as [->|Hx]; auto.
Qed.

(** Filtering keeps a list sorted by a transitive relation. *)
Lemma Sorted_filter {A} (R : relation A) `{!Transitive R} (P : A -> Prop) `{!forall x, Decision (P x)} l :
  Sorted R l -> Sorted R (filter P l).
Proof.
  intros Hs%Sorted_StronglySorted; [|apply _]. apply StronglySorted_Sorted.
  induction Hs as [|x l Hs IH Hx]; [constructor|].
  rewrite filter_cons. case_decide; [|done]. constructor; [done|].
  apply Forall_forall. intros y Hy%list_elem_of_filter.
  by apply (proj1 (Forall_forall _ _) Hx), Hy.
Qed.

(** ** Strings *)

(** Python's [sep.join(l)]. *)
Fixpoint str_join (sep : string) (l : list string) : string :=
  match l with
  | [] => EmptyString
  | [s] => s
  | s :: l' => String.append s (String.append sep (str_join sep l'))
  end.

(** Splitting at every occurrence of the character [c], Python's
    [s.split(c)]; the inverse of [str_join] on words without [c]. *)
Fixpoint split_on (c : Ascii.ascii) (s : string) : list string :=
  match s with
  | EmptyString => [EmptyString]
  | String x s' =>
      if Ascii.eqb x c then EmptyString :: split_on c s'
      else match split_on c s' with
           | [] => [String x EmptyString]
           | w :: ws => String x w :: ws
           end
  end.

(** [c] does not occur in [s]. *)
Definition char_free (c : Ascii.ascii) (s : string) : Prop :=
  c ∉ String.list_ascii_of_string s.

Lemma split_on_free c w : char_free c w -> split_on c w = [w].
Proof.
  unfold char_free. induction w as [|x w IH]; intros Hw; [done|]; simpl in *.
  apply not_elem_of_cons in Hw as [Hx Hw].
  destruct (Ascii.eqb_spec x c); [congruence|]. by rewrite IH.
Qed.

Lemma split_on_app c w s :
  char_free c w -> split_on c (String.append w (String c s)) = w :: split_on c s.
Proof.
  unfold char_free. induction w as [|x w IH]; intros Hw; simpl in *.
  - by rewrite Ascii.eqb_refl.
  - apply not_elem_of_cons in Hw as [Hx Hw].
    destruct (Ascii.eqb_spec x c); [congruence|]. by rewrite IH.
Qed.

(** Round trip: splitting a join at its one-character separator gives the
    words back. *)
Lemma split_on_join c l :
  l <> [] -> Forall (char_free c) l -> split_on c (str_join (String c EmptyString) l) = l.
Proof.
  induction l as [|w [|w' l] IH]; intros Hne Hl; [done| |].
  - inversion Hl; subst. by apply split_on_free.
  - inversion Hl; subst. change (str_join (String c EmptyString) (w :: w' :: l))
      with (String.append w (String c (str_join (String c EmptyString) (w' :: l)))).
    rewrite split_on_app by done. f_equal. by apply IH.
Qed.

Section Decimal.
Local Open Scope N_scope.

Lemma pretty_N_go_free c x s :
  (forall d, d < 10 -> pretty_N_char d <> c) -> char_free c s -> char_free c (pretty_N_go x s).
Proof.
  intros Hd. revert s. induction (N.lt_wf_0 x) as [x _ IH]; intros s Hs.
  destruct (decide (x = 0)) as [->|Hx]; [by rewrite pretty_N_go_0|].
  rewrite pretty_N_go_step by lia. apply IH; [apply N.div_lt; lia|].
  unfold char_free in *; simpl. apply not_elem_of_cons. split; [|done].
  apply not_eq_sym, Hd, N.mod_lt. lia.
Qed.
End Decimal.

(** [str(n)] of a non-negative integer has no ["-"] and no ["."]: only
    digits. *)
Lemma pretty_nonneg_free c (z : Z) :
  (0 <= z)%Z -> (forall d, (d < 10)%N -> pretty_N_char d <> c) -> char_free c (pretty z).
Proof.
  intros Hz Hd. destruct z as [|x|x]; [| |lia].
  - unfold char_free; cbn. apply not_elem_of_cons; split; [|apply not_elem_of_nil].
    apply not_eq_sym, (Hd 0%N). lia.
  - change (pretty (Zpos x)) with (pretty (Npos x)). unfold pretty, pretty_N.
    case_decide; [done|]. apply pretty_N_go_free; [done|]. apply not_elem_of_nil.
Qed.

Lemma pretty_digit_ne c : (c = "-"%char \/ c = "."%char) ->
  forall d, (d < 10)%N -> pretty_N_char d <> c.
Proof.
  intros Hc d Hd. assert (d = 0 \/ d = 1 \/ d = 2 \/ d = 3 \/ d = 4 \/ d = 5 \/ d = 6
    \/ d = 7 \/ d = 8 \/ d = 9)%N as Hds by lia.
  destruct Hc as [->| ->]; repeat destruct Hds as [->|Hds]; try subst d; discriminate.
Qed.

(** ** Shared lemmas on integers *)
Local Open Scope Z_scope.

(** Clearing the low [n] bits is rounding down to a multiple of [2^n]. *)
Lemma land_lnot_ones (x : Z) (n : Z) :
  0 <= n -> x &~ Z.ones n = (x / 2 ^ n) * 2 ^ n.
Proof.
  intros Hn. rewrite <- Z.ldiff_land, Z.ldiff_ones_r by lia.
  rewrite Z.shiftl_mul_pow2, Z.shiftr_div_pow2 by lia. reflexivity.
Qed.

Lemma land_ones_mod (x : Z) (n : Z) : 0 <= n -> Z.land x (Z.ones n) = x mod 2 ^ n.
Proof. apply Z.land_ones. Qed.

(** [decide_vm] proves a decidable proposition about closed terms by
    evaluating its decision procedure. *)
Ltac decide_vm := apply (bool_decide_unpack _); vm_compute; exact I.
