(* ===== verification/Memory.v ===== *)
(** * Memory: the address space every object is read through

    The core decodes structures from a byte-addressable address space
    (spec §3, §6 "raw byte source").  The address-space classes and the
    object constructors live in [addrspace.py] and [obj.py], which are not
    in this repository: this file models them from the spec, and everything
    under [src/] is modelled on top of it.

    - [mem] is the readable image: a finite map from address to byte.
    - [is_valid_address], [read_bytes], [read_uint], [read_int] are the
      address space's validity test and reads ([struct.unpack] of a little
      endian field).
    - [mk_object] is [obj.Object]: an object at an invalid offset is a
      [NoneObject]; [pointer_value] and [deref] are [NativeType.v] and
      [Pointer.dereference].
    - [Profile] gives the sizes and member offsets of the vtypes
      ([profile.get_obj_size], [profile.get_obj_offset]). *)

From S2P Require Import Prelude.
Local Open Scope Z_scope.

Abbreviation mem := (gmap Z Z).

(** ** Reads *)

Definition is_valid_address (m : mem) (a : Z) : bool :=
  match m !! a with Some _ => true | None => false end.

Fixpoint read_bytes (m : mem) (a : Z) (n : nat) : option (list Z) :=
  match n with
  | O => Some []
  | S n' => b ← m !! a; bs ← read_bytes m (a + 1) n'; Some (b :: bs)
  end.

(** Little-endian decoding and encoding of [n] bytes. *)
Fixpoint le_combine (bs : list Z) : Z :=
  match bs with [] => 0 | b :: bs' => b + 256 * le_combine bs' end.

Fixpoint le_split (n : nat) (w : Z) : list Z :=
  match n with O => [] | S n' => w mod 256 :: le_split n' (w / 256) end.

Definition read_uint (m : mem) (a : Z) (n : nat) : option Z :=
  le_combine <$> read_bytes m a n.

(** Two's complement reading of a [bits]-wide unsigned value. *)
Definition to_signed (bits : Z) (v : Z) : Z :=
  if v <? 2 ^ (bits - 1) then v else v - 2 ^ bits.

Definition read_int (m : mem) (a : Z) (n : nat) : option Z :=
  to_signed (8 * Z.of_nat n) <$> read_uint m a n.

(** Writing bytes, used to build images. *)
Fixpoint write_bytes (m : mem) (a : Z) (bs : list Z) : mem :=
  match bs with [] => m | b :: bs' => write_bytes (<[a:=b]> m) (a + 1) bs' end.

Definition write_uint (m : mem) (a : Z) (n : nat) (v : Z) : mem :=
  write_bytes m a (le_split n v).

(** ** Objects and pointers ([obj.Object], [NativeType.v], [Pointer]) *)

Definition mk_object (m : mem) (off : Z) : maybe Z :=
  if is_valid_address m off then Obj off
  else NoneObject "Invalid Address, instantiating object".

Definition pointer_value (m : mem) (ptr_size : nat) (loc : Z) : maybe Z :=
  of_option "Unable to read pointer" (read_uint m loc ptr_size).

Definition deref (m : mem) (ptr_size : nat) (loc : Z) : maybe Z :=
  v ← pointer_value m ptr_size loc;
  if is_valid_address m v then Obj v else NoneObject "Pointer invalid".

(** [obj.String]: the bytes of a fixed-length string, cut at the first NUL,
    as characters. *)
Fixpoint bytes_to_string (bs : list Z) : string :=
  match bs with
  | [] => EmptyString
  | b :: bs' => if decide (b = 0) then EmptyString
                else String (Ascii.ascii_of_nat (Z.to_nat b)) (bytes_to_string bs')
  end.

Definition read_string (m : mem) (a : Z) (n : nat) : option string :=
  bytes_to_string <$> read_bytes m a n.

(** The bytes of a Python byte-string literal. *)
Definition ascii_bytes (s : string) : list Z :=
  map (fun c => Z.of_nat (Ascii.nat_of_ascii c)) (String.list_ascii_of_string s).

(** [zread]: a read that fills unreadable bytes with zeros. *)
Definition zread (m : mem) (a : Z) (n : Z) : list Z :=
  map (fun i => default 0 (m !! (a + i))) (seqZ 0 n).

(** [Pointer.__nonzero__]: a pointer is true when its target is valid. *)
Definition pointer_nonzero (m : mem) (ptr_size : nat) (loc : Z) : bool :=
  is_obj (deref m ptr_size loc).

(** An unsigned field of [n] bytes at [a], [NativeType.v]. *)
Definition field (m : mem) (a : Z) (n : nat) : maybe Z :=
  of_option "Unable to read field" (read_uint m a n).

(** Python 2 comparisons on fields that may be absent: a [NoneObject] is
    unequal to every number, and in an ordering comparison it is greater
    than every number (CPython 2 orders numbers before all other objects).
    [py_ne x c] is [x != c], [py_gt x y] is [x > y]. *)
Definition py_ne (x : maybe Z) (c : Z) : bool :=
  match x with Obj v => negb (v =? c) | NoneObject _ => true end.

Definition py_gt (x y : maybe Z) : bool :=
  match x, y with
  | Obj a, Obj b => b <? a
  | NoneObject _, Obj _ => true
  | _, _ => false
  end.

(** [str()] of an integer field: its decimal digits; [str()] of a
    [NoneObject] is [""]. *)
Definition py_str (x : maybe Z) : string :=
  match x with Obj v => pretty v | NoneObject _ => "" end.

(** A well-formed image: every address holds a byte. *)
Definition byte_image (m : mem) : Prop := map_Forall (fun _ b => 0 <= b < 256) m.

#[export] Instance byte_image_dec m : Decision (byte_image m).
Proof. unfold byte_image. apply _. Defined.

(** ** Profiles *)
Record Profile := {
  ptr_size : nat;
  get_obj_size : string -> Z;
  get_obj_offset : string -> string -> Z;
  has_type : string -> bool;
  has_member : string -> string -> bool
}.

(** ** Lemmas *)

Lemma is_valid_address_spec m a : is_valid_address m a = true <-> a ∈ dom m.
Proof.
  unfold is_valid_address. rewrite elem_of_dom.
  destruct (m !! a); split; intros H; try done; by destruct H.
Qed.

Lemma mk_object_obj m off o : mk_object m off = Obj o -> o = off /\ off ∈ dom m.
Proof.
  unfold mk_object. destruct (is_valid_address m off) eqn:E; intros H; inv_maybe.
  split; [done | by apply is_valid_address_spec].
Qed.

Lemma deref_valid m ps loc v : deref m ps loc = Obj v -> v ∈ dom m.
Proof.
  unfold deref. destruct (pointer_value m ps loc) as [w|]; simpl; [|discriminate].
  destruct (is_valid_address m w) eqn:E; intros H; inv_maybe.
  by apply is_valid_address_spec.
Qed.

Lemma length_le_split n w : length (le_split n w) = n.
Proof. revert w; induction n; simpl; auto. Qed.

Lemma le_combine_split n w :
  le_combine (le_split n w) = w mod 256 ^ Z.of_nat n.
Proof.
  revert w; induction n as [|n IH]; intros w; simpl le_split; simpl le_combine.
  - rewrite Z.mod_1_r. reflexivity.
  - rewrite IH, Nat2Z.inj_succ, Z.pow_succ_r, Z.mul_comm by lia.
    rewrite Z.rem_mul_r by lia. lia.
Qed.

Lemma write_bytes_lookup_outside m a bs x :
  (x < a \/ a + Z.of_nat (length bs) <= x) -> write_bytes m a bs !! x = m !! x.
Proof.
  revert m a; induction bs as [|b bs IH]; intros m a Hx; simpl in *; [done|].
  rewrite IH by lia. rewrite lookup_insert_ne; [done | lia].
Qed.

Lemma read_write_bytes m a bs :
  read_bytes (write_bytes m a bs) a (length bs) = Some bs.
Proof.
  revert m a; induction bs as [|b bs IH]; intros m a; simpl; [done|].
  rewrite write_bytes_lookup_outside by lia. rewrite lookup_insert_eq. simpl.
  by rewrite IH.
Qed.

(** The bytes read from a well-formed image are bytes. *)
Lemma read_bytes_bytes m a n bs :
  byte_image m -> read_bytes m a n = Some bs -> Forall (fun b => 0 <= b < 256) bs.
Proof.
  intros Hm. revert a bs; induction n as [|n IH]; intros a bs Hr; simpl in Hr.
  - by injection Hr as <-.
  - destruct (m !! a) as [b|] eqn:Eb; [|discriminate]. simpl in Hr.
    destruct (read_bytes m (a + 1) n) as [bs'|] eqn:Er; [|discriminate].
    injection Hr as <-. constructor; [exact (Hm a b Eb) | exact (IH _ _ Er)].
Qed.

Lemma read_bytes_length m a n bs : read_bytes m a n = Some bs -> length bs = n.
Proof.
  revert a bs; induction n as [|n IH]; intros a bs Er; simpl in Er.
  - by injection Er as <-.
  - destruct (m !! a); [|discriminate]. simpl in Er.
    destruct (read_bytes m (a + 1) n) eqn:E'; [|discriminate].
    injection Er as <-. simpl. f_equal. eauto.
Qed.

(** Splitting the little-endian value of bytes gives the bytes back. *)
Lemma le_split_combine bs :
  Forall (fun b => 0 <= b < 256) bs -> le_split (length bs) (le_combine bs) = bs.
Proof.
  induction 1 as [|b bs Hb _ IH]; [done|]. cbn [length le_split le_combine].
  rewrite (Z.mul_comm 256), Z.mod_add, Z.div_add, Z.mod_small, Z.div_small by lia.
  by rewrite Z.add_0_l, IH.
Qed.

Lemma le_combine_bounds bs :
  Forall (fun b => 0 <= b < 256) bs -> 0 <= le_combine bs < 256 ^ Z.of_nat (length bs).
Proof.
  induction 1 as [|b bs Hb _ IH]; simpl; [lia|].
  rewrite Nat2Z.inj_succ, Z.pow_succ_r by lia. nia.
Qed.

(** A field of [n] bytes of a well-formed image is an [8n]-bit unsigned
    value; read signed, it is in the two's complement range. *)
Lemma read_uint_bounds m a n v :
  byte_image m -> read_uint m a n = Some v -> 0 <= v < 2 ^ (8 * Z.of_nat n).
Proof.
  unfold read_uint. intros Hm Hr.
  destruct (read_bytes m a n) as [bs|] eqn:Er; simpl in Hr; [|discriminate].
  injection Hr as <-. pose proof (le_combine_bounds bs (read_bytes_bytes m a n bs Hm Er)) as Hb.
  rewrite (read_bytes_length m a n bs Er) in Hb. rewrite Z.pow_mul_r by lia. exact Hb.
Qed.

Lemma read_int_bounds m a n v :
  (0 < n)%nat -> byte_image m -> read_int m a n = Some v ->
  - 2 ^ (8 * Z.of_nat n - 1) <= v < 2 ^ (8 * Z.of_nat n - 1).
Proof.
  unfold read_int. intros Hn Hm Hr.
  destruct (read_uint m a n) as [u|] eqn:Eu; simpl in Hr; [|discriminate].
  injection Hr as <-. apply read_uint_bounds in Eu; [|done].
  assert (Hp : 2 ^ (8 * Z.of_nat n) = 2 * 2 ^ (8 * Z.of_nat n - 1)).
  { rewrite <- Z.pow_succ_r by lia. f_equal. lia. }
  unfold to_signed. destruct (Z.ltb_spec u (2 ^ (8 * Z.of_nat n - 1))); lia.
Qed.

Lemma length_zread m a n : length (zread m a n) = Z.to_nat n.
Proof. unfold zread. by rewrite length_map, length_seqZ. Qed.

Lemma py_gt_field_le m (a b : Z) (n : nat) :
  py_gt (field m a n) (Obj b) = false -> exists v, read_uint m a n = Some v /\ v <= b.
Proof.
  unfold field. destruct (read_uint m a n) as [v|]; simpl; [|discriminate].
  intros H%Z.ltb_ge. eauto.
Qed.

(** ** A test profile

    A 32-bit profile for the concrete images of the development: pointers
    are 4 bytes, handle table entries 8; the list, VAD, process and object
    header offsets follow Windows XP SP2 x86, the others are chosen for the
    tests.  [_OBJECT_HEADER] has no [TypeIndex] (pre-Windows 7). *)
Definition xp_x86 : Profile := {|
  ptr_size := 4;
  get_obj_size := fun t =>
    match t with
    | "address" => 4 | "_HANDLE_TABLE_ENTRY" => 8 | "_LIST_ENTRY" => 8
    | "_IMAGE_SECTION_HEADER" => 40 | "_OBJECT_HEADER" => 24
    | "_SID_AND_ATTRIBUTES" => 8 | _ => 0
    end%string;
  get_obj_offset := fun t f =>
    match t, f with
    | "_LIST_ENTRY", "Blink" => 4
    | "_EPROCESS", "ActiveProcessLinks" => 136
    | "_MMVAD_SHORT", "LeftChild" => 12 | "_MMVAD_SHORT", "RightChild" => 16
    | "_MMVAD_SHORT", "Tag" => -4 | "_MMVAD_LONG", "Tag" => -4
    | "_MMVAD_LONG", "LeftChild" => 12 | "_MMVAD_LONG", "RightChild" => 16
    | "_MMVAD_LONG", "StartingVpn" => 0 | "_MMVAD_LONG", "EndingVpn" => 4
    | "_MMVAD_SHORT", "StartingVpn" => 0 | "_MMVAD_SHORT", "EndingVpn" => 4
    | "_OBJECT_HEADER", "Type" => 8 | "_OBJECT_HEADER", "Body" => 24
    | "_OBJECT_TYPE", "Name" => 64
    | "_UNICODE_STRING", "Buffer" => 4
    | "_EPROCESS", "UniqueProcessId" => 132 | "_EPROCESS", "ObjectTable" => 196
    | "_EPROCESS", "Token" => 200 | "_EPROCESS", "VadRoot" => 284
    | "_KPROCESS", "DirectoryTableBase" => 24
    | "_TOKEN", "SessionId" => 24 | "_TOKEN", "TokenInUse" => 32
    | "_TOKEN", "UserAndGroupCount" => 76 | "_TOKEN", "UserAndGroups" => 104
    | "_SID", "SubAuthorityCount" => 1 | "_SID", "IdentifierAuthority" => 2
    | "_SID", "SubAuthority" => 8
    | "_MMVAD_SHORT", "Parent" => 8 | "_MMVAD_LONG", "Parent" => 8
    | "_MMVAD_LONG", "ControlArea" => 24 | "_CONTROL_AREA", "FilePointer" => 36
    | "_CM_KEY_BODY", "KeyControlBlock" => 4
    | "_OBJECT_HEADER", "NameInfoOffset" => 12 | "_OBJECT_HEADER", "HandleInfoOffset" => 13
    | "_OBJECT_HEADER", "QuotaInfoOffset" => 14 | "_OBJECT_HEADER_NAME_INFO", "Name" => 4
    | "_HANDLE_TABLE_ENTRY", "GrantedAccess" => 4
    | "_FILE_OBJECT", "DeviceObject" => 4 | "_FILE_OBJECT", "FileName" => 48
    | "_FILE_OBJECT", "ReadAccess" => 38 | "_FILE_OBJECT", "WriteAccess" => 39
    | "_FILE_OBJECT", "DeleteAccess" => 40 | "_FILE_OBJECT", "SharedRead" => 41
    | "_FILE_OBJECT", "SharedWrite" => 42 | "_FILE_OBJECT", "SharedDelete" => 43
    | "_EPROCESS", "Peb" => 432 | "_PEB", "Ldr" => 12
    | "_PEB_LDR_DATA", "InLoadOrderModuleList" => 12
    | "_PEB_LDR_DATA", "InMemoryOrderModuleList" => 20
    | "_PEB_LDR_DATA", "InInitializationOrderModuleList" => 28
    | "_LDR_DATA_TABLE_ENTRY", "InMemoryOrderLinks" => 8
    | "_LDR_DATA_TABLE_ENTRY", "InInitializationOrderLinks" => 16
    | "_ETHREAD", "ThreadsProcess" => 544 | "_KTHREAD", "ApcState" => 52
    | "_KAPC_STATE", "Process" => 16
    | "_IMAGE_DOS_HEADER", "e_lfanew" => 60
    | "_IMAGE_NT_HEADERS", "FileHeader" => 4 | "_IMAGE_NT_HEADERS", "OptionalHeader" => 24
    | "_IMAGE_FILE_HEADER", "NumberOfSections" => 2
    | "_IMAGE_FILE_HEADER", "SizeOfOptionalHeader" => 16
    | "_IMAGE_OPTIONAL_HEADER", "SizeOfImage" => 56
    | "_IMAGE_SECTION_HEADER", "Misc" => 8
    | "_IMAGE_SECTION_HEADER", "VirtualAddress" => 12
    | "_IMAGE_SECTION_HEADER", "SizeOfRawData" => 16
    | "_CM_KEY_CONTROL_BLOCK", "ParentKcb" => 24
    | "_CM_KEY_CONTROL_BLOCK", "NameBlock" => 28
    | "_CM_NAME_CONTROL_BLOCK", "NameLength" => 12
    | "_CM_NAME_CONTROL_BLOCK", "Name" => 14
    | _, _ => 0
    end%string;
  has_type := fun _ => true;
  has_member := fun t f =>
    match t, f with
    | "_OBJECT_HEADER", "TypeIndex" => false | "_MMVAD_SHORT", "ControlArea" => false
    | _, _ => true
    end%string
|}.

(** [store32 m [(a, v); ...]] writes 32-bit little-endian values. *)
Definition store32 (m : mem) (ws : list (Z * Z)) : mem :=
  foldl (fun acc '(a, v) => write_uint acc a 4 v) m ws.
