(* ===== verification/Resolver.v ===== *)
(** * Resolver: [utils.load_as], the address-space voting loop

    [src/branches/Volatility-1.4_beta1/volatility/utils.py].  [load_as]
    tries every class of the catalogue [registry.AS_CLASSES.classes] in
    order, each wrapping the address space accepted so far; the first class
    whose constructor does not raise [AssertionError] wins the round and the
    next round starts from the top of the catalogue.  A round without a
    winner ends the loop.  Rejections are collected in an [AddrSpaceError],
    raised only when no layer was ever accepted.

    The catalogue is a Section context: [construct c base] is the
    constructor call [cls(base_as, **kwargs)] with the configuration fixed,
    returning [Accepted], [Rejected reason] (an [AssertionError]) or [Fault]
    (any other exception, which propagates out of [load_as]).  The loop
    runs on fuel; [load_as_terminates] gives the fuel that suffices when
    every accepted layer is higher than its base in a bounded ranking. *)

From S2P Require Import Prelude.

(** The outcome of one constructor call. *)
Inductive attempt (A : Type) : Type :=
| Accepted (a : A)
| Rejected (reason : string)
| Fault (msg : string).
Arguments Accepted {A} a.
Arguments Rejected {A} reason.
Arguments Fault {A} msg.

(** [class AddrSpaceError]: the list of (driver, reason) pairs. *)
Record AddrSpaceError := { reasons : list (string * string) }.

Definition new_AddrSpaceError : AddrSpaceError := {| reasons := [] |}.

Definition append_reason (e : AddrSpaceError) (driver reason : string) : AddrSpaceError :=
  {| reasons := reasons e ++ [(driver, reason)] |}.

Definition newline : string := String (Ascii.ascii_of_nat 10) EmptyString.

(** [AddrSpaceError.__str__]. *)
Definition AddrSpaceError_str (e : AddrSpaceError) : string :=
  "No suitable address space mapping found" +:+ newline +:+ "Tried to open image as:"
  +:+ newline
  +:+ foldl (fun acc '(k, v) => acc +:+ " " +:+ k +:+ ": " +:+ v +:+ newline) "" (reasons e).

(** What [load_as] returns or raises. *)
Inductive load_result (A : Type) : Type :=
| LoadOk (a : A)
| LoadError (e : AddrSpaceError)
| LoadFault (msg : string).
Arguments LoadOk {A} a.
Arguments LoadError {A} e.
Arguments LoadFault {A} msg.

Section LoadAs.
Context {AS C : Type}.
Context (cls_name : C -> string).
Context (construct : C -> option AS -> attempt AS).
Context (classes : list C).

Inductive round_result : Type :=
| Found (a : AS)
| NoneFound
| RoundFault (msg : string).

(** One voting round: the [for cls in ...] loop with its [break]. *)
Fixpoint voting_round (base : option AS) (cs : list C) (err : AddrSpaceError)
  : round_result * AddrSpaceError :=
  match cs with
  | [] => (NoneFound, err)
  | c :: cs' =>
      match construct c base with
      | Accepted a => (Found a, err)
      | Rejected r => voting_round base cs' (append_reason err (cls_name c) r)
      | Fault m => (RoundFault m, err)
      end
  end.

(** The [while 1] loop; [None] when the fuel runs out. *)
Fixpoint load_as_loop (fuel : nat) (base : option AS) (err : AddrSpaceError)
  : option (load_result AS) :=
  match fuel with
  | O => None
  | S fuel' =>
      match voting_round base classes err with
      | (RoundFault m, _) => Some (LoadFault m)
      | (Found a, err') => load_as_loop fuel' (Some a) err'
      | (NoneFound, err') =>
          Some (match base with None => LoadError err' | Some a => LoadOk a end)
      end
  end.

Definition load_as (fuel : nat) : option (load_result AS) :=
  load_as_loop fuel None new_AddrSpaceError.

(** ** Abstract specification: the chain of first-accepting layers *)

Definition rejects (base : option AS) (c : C) : Prop :=
  exists r, construct c base = Rejected r.

(** [selects base cs a]: [a] is built by the first class of [cs] that does
    not reject [base]. *)
Inductive selects (base : option AS) : list C -> AS -> Prop :=
| selects_here c cs a :
    construct c base = Accepted a -> selects base (c :: cs) a
| selects_next c cs a r :
    construct c base = Rejected r -> selects base cs a -> selects base (c :: cs) a.

(** [resolves base a]: stacking layers from [base] ends in [a], which
    every class rejects. *)
Inductive resolves : option AS -> AS -> Prop :=
| resolves_done a :
    Forall (rejects (Some a)) classes -> resolves (Some a) a
| resolves_step base a r :
    selects base classes a -> resolves (Some a) r -> resolves base r.

(** ** Lemmas on one round *)

Lemma voting_round_found base cs err a err' :
  voting_round base cs err = (Found a, err') -> selects base cs a.
Proof.
  revert err; induction cs as [|c cs IH]; intros err; simpl; [congruence|].
  destruct (construct c base) eqn:E; intros H; try congruence.
  - injection H as <- _. by constructor.
  - eapply selects_next; eauto.
Qed.

Lemma voting_round_none base cs err err' :
  voting_round base cs err = (NoneFound, err') ->
  Forall (rejects base) cs /\
  exists rs, reasons err' = reasons err ++ rs /\
    Forall2 (fun c '(k, v) => k = cls_name c /\ construct c base = Rejected v) cs rs.
Proof.
  revert err; induction cs as [|c cs IH]; intros err; simpl.
  - intros [= <-]. split; [constructor|]. exists []. rewrite app_nil_r. auto.
  - destruct (construct c base) eqn:E; intros H; try congruence.
    destruct (IH _ H) as (Hall & rs & Hrs & Hf). split.
    + constructor; [by eexists|done].
    + exists ((cls_name c, reason) :: rs). simpl in Hrs.
      rewrite Hrs, <- app_assoc. split; [done|]. constructor; auto.
Qed.

Lemma voting_round_selects base cs err a :
  selects base cs a -> exists err', voting_round base cs err = (Found a, err').
Proof.
  intros H; revert err; induction H as [c cs a E|c cs a r E _ IH]; intros err; simpl.
  - rewrite E. eauto.
  - rewrite E. apply IH.
Qed.

Lemma voting_round_all_reject base cs err :
  Forall (rejects base) cs -> exists err', voting_round base cs err = (NoneFound, err').
Proof.
  intros H; revert err; induction H as [|c cs [r E] _ IH]; intros err; simpl; eauto.
  rewrite E. apply IH.
Qed.

Lemma load_as_loop_mono n n' base err res :
  n <= n' -> load_as_loop n base err = Some res -> load_as_loop n' base err = Some res.
Proof.
  revert n' base err; induction n as [|n IH]; intros n' base err Hle; [done|].
  destruct n' as [|n']; [lia|]. simpl.
  destruct (voting_round base classes err) as [[a| |m] err']; auto with lia.
Qed.

Lemma load_as_loop_some_not_error n b err e :
  load_as_loop n (Some b) err <> Some (LoadError e).
Proof.
  revert b err; induction n as [|n IH]; intros b err; simpl; [done|].
  destruct (voting_round (Some b) classes err) as [[a| |m] err']; [apply IH|done|done].
Qed.

Lemma Forall2_functional {A B} (P : A -> B -> Prop) xs ys1 ys2 :
  (forall x y1 y2, P x y1 -> P x y2 -> y1 = y2) ->
  Forall2 P xs ys1 -> Forall2 P xs ys2 -> ys1 = ys2.
Proof.
  intros Hf H1; revert ys2; induction H1; intros ys2 H2; inversion H2; subst; [done|].
  f_equal; eauto.
Qed.

Lemma load_as_loop_sound n base err a :
  load_as_loop n base err = Some (LoadOk a) -> resolves base a.
Proof.
  revert base err; induction n as [|n IH]; intros base err; simpl; [done|].
  destruct (voting_round base classes err) as [[a'| |m] err'] eqn:E; intros H.
  - eapply resolves_step; [eapply voting_round_found; eauto | eauto].
  - destruct base as [b|]; [|done]. injection H as <-.
    apply voting_round_none in E as [Hall _]. by constructor.
  - done.
Qed.

Lemma load_as_loop_complete base a err :
  resolves base a -> exists n, load_as_loop n base err = Some (LoadOk a).
Proof.
  intros H; revert err; induction H as [a Hall|base a r Hsel _ IH]; intros err.
  - destruct (voting_round_all_reject _ _ err Hall) as [err' E].
    exists 1%nat. simpl. by rewrite E.
  - destruct (voting_round_selects _ _ err _ Hsel) as [err' E].
    destruct (IH err') as [n Hn]. exists (S n). simpl. by rewrite E.
Qed.

(** ** Properties of [load_as] *)

(** C1: refinement.  [load_as] returns the address space [a] (for some
    fuel) exactly when [a] is the end of the chain that stacks, from no
    base, the first accepting class of each round until every class
    rejects. *)
Theorem load_as_refines a :
  (exists n, load_as n = Some (LoadOk a)) <-> resolves None a.
Proof.
  split.
  - intros [n Hn]. by eapply load_as_loop_sound.
  - intros H. by apply load_as_loop_complete.
Qed.

(** C2: error contract.  [load_as] raises [AddrSpaceError] exactly when
    every class of the catalogue rejects an empty base, and the error then
    holds one (name, reason) pair per class, in catalogue order. *)
Theorem load_as_error n e :
  load_as (S n) = Some (LoadError e) <->
  Forall2 (fun c '(k, v) => k = cls_name c /\ construct c None = Rejected v)
    classes (reasons e).
Proof.
  unfold load_as; simpl.
  destruct (voting_round None classes new_AddrSpaceError) as [[a| |m] err'] eqn:E.
  - split; [intros H; by apply load_as_loop_some_not_error in H|].
    intros Hf. exfalso.
    apply voting_round_found in E.
    assert (Hall : Forall (rejects None) classes).
    { clear E. induction Hf as [|c [k v] cs rs [_ Hc] _ IH]; constructor; [by exists v|done]. }
    clear Hf. induction E as [c cs a' Ec|c cs a' r Ec _ IH].
    + inversion Hall as [|? ? [r Hr] _]; congruence.
    + inversion Hall; auto.
  - apply voting_round_none in E as [_ (rs & Hrs & Hf)]. simpl in Hrs.
    split.
    + intros [= <-]. by rewrite Hrs.
    + intros He. destruct err' as [r'], e as [re]. simpl in *. subst.
      assert (rs = re) as ->; [|done].
      eapply Forall2_functional; [|exact Hf|exact He].
      intros c [k1 v1] [k2 v2] [-> H1] [-> H2]. congruence.
  - split; [done|]. intros Hf. exfalso.
    revert E. generalize new_AddrSpaceError.
    induction Hf as [|c [k v] cs rs [_ Hc] _ IH]; intros err; simpl; [done|].
    rewrite Hc. apply IH.
Qed.

(** ** Termination under a ranking of the layers *)
Section Termination.
Context (height : AS -> nat) (bound : nat).
Hypothesis accept_higher : forall c base a,
  construct c base = Accepted a -> from_option height 0 base < height a <= bound.

Lemma voting_round_found_higher base cs err a err' :
  voting_round base cs err = (Found a, err') ->
  from_option height 0 base < height a <= bound.
Proof.
  intros H. apply voting_round_found in H.
  induction H; eauto.
Qed.

Lemma load_as_loop_total n base err :
  bound - from_option height 0 base < n -> load_as_loop n base err <> None.
Proof.
  revert base err; induction n as [|n IH]; intros base err Hn; simpl; [lia|].
  destruct (voting_round base classes err) as [[a| |m] err'] eqn:E; [|done|done].
  apply voting_round_found_higher in E. apply IH. simpl. lia.
Qed.

(** C38: termination.  When every accepted layer ranks strictly above
    its base and below [bound], [load_as] returns (a chain, an error or
    a fault) within [bound + 1] rounds. *)
Theorem load_as_terminates n : bound < n -> load_as n <> None.
Proof. intros Hn. apply load_as_loop_total. simpl. lia. Qed.
End Termination.
End LoadAs.

(** ** A concrete catalogue

    The layering of a raw x86 image without PAE: the crash-dump and PAE
    layers reject every base, the file layer accepts only an empty base and
    the IA32 paged layer accepts only a file base.  A layer is the list of
    class names of its chain, innermost last. *)
Module Catalogue.
Inductive cls := WindowsCrashDumpSpace32 | IA32PagedMemoryPae | IA32PagedMemory | FileAddressSpace.

Definition name (c : cls) : string :=
  match c with
  | WindowsCrashDumpSpace32 => "WindowsCrashDumpSpace32"
  | IA32PagedMemoryPae => "IA32PagedMemoryPae"
  | IA32PagedMemory => "IA32PagedMemory"
  | FileAddressSpace => "FileAddressSpace"
  end.

Definition construct (c : cls) (base : option (list string)) : attempt (list string) :=
  match c, base with
  | WindowsCrashDumpSpace32, None => Rejected "No base Address Space"
  | WindowsCrashDumpSpace32, Some _ => Rejected "Header signature invalid"
  | IA32PagedMemoryPae, _ => Rejected "No valid DTB found"
  | IA32PagedMemory, None => Rejected "No base Address Space"
  | IA32PagedMemory, Some l =>
      if decide (l = ["FileAddressSpace"]) then Accepted ("IA32PagedMemory" :: l)
      else Rejected "Incompatible base address space"
  | FileAddressSpace, None => Accepted ["FileAddressSpace"]
  | FileAddressSpace, Some _ => Rejected "Must be first Address Space"
  end.

Definition classes : list cls :=
  [WindowsCrashDumpSpace32; IA32PagedMemoryPae; IA32PagedMemory; FileAddressSpace].

Lemma construct_higher c base a :
  construct c base = Accepted a -> from_option length 0 base < length a <= 2.
Proof.
  destruct c, base as [l|]; simpl; try discriminate; try case_decide;
    intros Hc; simplify_eq; simpl; lia.
Qed.
End Catalogue.

Example load_as_catalogue :
  load_as Catalogue.name Catalogue.construct Catalogue.classes 4
  = Some (LoadOk ["IA32PagedMemory"; "FileAddressSpace"]).
Proof. vm_compute. reflexivity. Qed.

Lemma load_as_terminates_witness :
  (forall c base a, Catalogue.construct c base = Accepted a ->
     from_option length 0 base < length a <= 2) /\ 2 < 3 /\
  load_as Catalogue.name Catalogue.construct Catalogue.classes 3 <> None.
Proof.
  split; [exact Catalogue.construct_higher|]. split; [lia|].
  apply (load_as_terminates Catalogue.name Catalogue.construct Catalogue.classes
           length 2 Catalogue.construct_higher 3). lia.
Defined.
