(* ===== verification/Primitives.v ===== *)
(** * Primitives: strings, timestamps, fast references and tokens

    [src/trunk/volatility/plugins/overlays/windows/windows.py]:
    - [_UNICODE_STRING] (lines 150-190): [dereference] builds the UTF-16
      buffer only for a claimed length in [1, 1024]; [__nonzero__] tests the
      same bound and the buffer pointer;
    - [WinTimeStamp] (236-292) and [ThreadCreateTimeStamp] (684-690):
      64-bit Windows times, in 100ns units from 1601, to Unix seconds;
    - [_EX_FAST_REF] (676-682): a pointer whose low 3 bits hold a count;
    - [_TOKEN.is_valid] (369-375) and [_EPROCESS.get_token] (355-367).

    The theorems: the two [_UNICODE_STRING] code paths agree; the time
    conversion is a clamped floor division, never negative, bounded on
    64-bit input, and inverts the Unix-to-Windows encoding; a fast
    reference recovers its pointer whatever the count bits; an
    [IpAddress] string determines the address it was printed from. *)

From Stdlib Require Import Ascii.
From stdpp Require Import pretty.
From S2P Require Import Prelude Memory.
Local Open Scope Z_scope.

(** ** Time conversion (pure) *)

(** [WinTimeStamp.windows_to_unix_time] (Python 2 [/] on ints is floor
    division, [Z.div]). *)
Definition windows_to_unix_time (windows_time : Z) : Z :=
  let unix_time :=
    if windows_time =? 0 then 0 else windows_time / 10000000 - 11644473600 in
  if unix_time <? 0 then 0 else unix_time.

(** [_EX_FAST_REF.MAX_FAST_REF]. *)
Definition MAX_FAST_REF : Z := 7.

Section Primitives.
Context (m : mem) (p : Profile).

Definition member (t f : string) (base : Z) : Z := base + get_obj_offset p t f.

(** ** [_UNICODE_STRING] *)

Definition us_length (us : Z) : maybe Z :=
  of_option "Unable to read Length" (read_uint m (member "_UNICODE_STRING" "Length" us) 2).

(** [dereference]: the [String] object at the buffer, with its length. *)
Definition unicode_dereference (us : Z) : maybe (Z * Z) :=
  length ← us_length us;
  if (0 <? length) && (length <=? 1024) then
    buf ← pointer_value m (ptr_size p) (member "_UNICODE_STRING" "Buffer" us);
    o ← mk_object m buf;
    Obj (o, length)
  else NoneObject "Buffer length for _UNICODE_STRING not within bounds".

(** [__nonzero__]: [bool(self.Buffer and 0 < Length <= 1024)]. *)
Definition unicode_nonzero (us : Z) : bool :=
  pointer_nonzero m (ptr_size p) (member "_UNICODE_STRING" "Buffer" us)
  && match us_length us with
     | Obj length => (0 <? length) && (length <=? 1024)
     | NoneObject _ => false
     end.

(** ** [WinTimeStamp] and [ThreadCreateTimeStamp] *)

(** [as_windows_timestamp]: the signed 64-bit value (format ["q"]); a
    thread creation time is stored shifted left by 3. *)
Definition as_windows_timestamp (thread : bool) (loc : Z) : maybe Z :=
  t ← of_option "Unable to read timestamp" (read_int m loc 8);
  Obj (if thread then Z.shiftr t 3 else t).

(** [WinTimeStamp.v]. *)
Definition timestamp_v (thread : bool) (loc : Z) : maybe Z :=
  windows_to_unix_time <$> as_windows_timestamp thread loc.

(** ** [_EX_FAST_REF.dereference_as] *)

Definition fast_ref_dereference_as (loc : Z) : maybe Z :=
  v ← pointer_value m (ptr_size p) (member "_EX_FAST_REF" "Object" loc);
  mk_object m (v &~ MAX_FAST_REF).

(** ** [_TOKEN.is_valid] and [_EPROCESS.get_token] *)

Definition token_is_valid (tok : Z) : bool :=
  is_valid_address m tok
  && match read_uint m (member "_TOKEN" "TokenInUse" tok) 1 with
     | Some v => (v =? 0) || (v =? 1)
     | None => false
     end
  && match read_uint m (member "_TOKEN" "SessionId" tok) 4 with
     | Some v => v <? 10
     | None => false
     end.

Definition get_token (eproc : Z) : maybe Z :=
  tok ← fast_ref_dereference_as (member "_EPROCESS" "Token" eproc);
  if token_is_valid tok then Obj tok else NoneObject "Cannot get process Token".
(** ** [IpAddress.v]: [socket.inet_ntoa(struct.pack("<I", value))], the
    four bytes of the [unsigned long] in memory order, in decimal. *)
Definition ip_address_v (loc : Z) : maybe string :=
  v ← field m loc 4;
  Obj (str_join "." (map pretty (le_split 4 v))).
End Primitives.

(** ** Lemmas *)

Lemma fast_ref_mask_pack (q tag : Z) : 0 <= tag < 8 -> (8 * q + tag) &~ MAX_FAST_REF = 8 * q.
Proof.
  intros Ht. unfold MAX_FAST_REF. change 7 with (Z.ones 3).
  rewrite land_lnot_ones by lia. change (2 ^ 3) with 8.
  rewrite (Z.mul_comm 8 q), Z.div_add_l by lia. rewrite Z.div_small by lia. lia.
Qed.

Lemma windows_to_unix_time_max w :
  windows_to_unix_time w = Z.max 0 (w / 10000000 - 11644473600).
Proof.
  unfold windows_to_unix_time.
  destruct (Z.eqb_spec w 0) as [->|Hw]; simpl; [reflexivity|].
  destruct (Z.ltb_spec (w / 10000000 - 11644473600) 0); lia.
Qed.

(** ** Properties *)

(** the two code paths of [_UNICODE_STRING] agree: the string is true
    ([__nonzero__]) exactly when [dereference] builds its buffer. *)
Theorem unicode_nonzero_dereference m p us :
  unicode_nonzero m p us = is_obj (unicode_dereference m p us).
Proof.
  unfold unicode_nonzero, unicode_dereference, pointer_nonzero, deref.
  destruct (us_length m p us) as [len|]; simpl; [|by rewrite andb_false_r].
  destruct ((0 <? len) && (len <=? 1024)); simpl; [|by rewrite andb_false_r].
  rewrite andb_true_r.
  destruct (pointer_value m (ptr_size p) _) as [buf|]; simpl; [|done].
  unfold mk_object. by destruct (is_valid_address m buf).
Qed.

(** C28: [_UNICODE_STRING.dereference] on every branch: it returns the buffer
    [b] with length [len] exactly when the claimed length reads as [len],
    lies in [1, 1024], and the buffer pointer reads as a valid [b]. *)
Theorem unicode_dereference_spec m p us b len :
  unicode_dereference m p us = Obj (b, len) <->
  read_uint m (member p "_UNICODE_STRING" "Length" us) 2 = Some len /\ 0 < len <= 1024 /\
  pointer_value m (ptr_size p) (member p "_UNICODE_STRING" "Buffer" us) = Obj b /\
  is_valid_address m b = true.
Proof.
  unfold unicode_dereference, us_length.
  destruct (read_uint m _ 2) as [l|]; simpl; [|split; [discriminate|intros [? _]; discriminate]].
  destruct (Z.ltb_spec 0 l), (Z.leb_spec l 1024); simpl;
    try (split; [discriminate|intros (? & ? & _); simplify_eq; lia]).
  destruct (pointer_value m _ _) as [buf|]; simpl;
    [|split; [discriminate|intros (_ & _ & ? & _); discriminate]].
  unfold mk_object. destruct (is_valid_address m buf) eqn:E; simpl.
  - split; [intros [= -> ->]; auto|intros (? & _ & ? & _); simplify_eq; done].
  - split; [discriminate|intros (_ & _ & ? & ?); simplify_eq; congruence].
Qed.

(** [windows_to_unix_time] is the clamped floor division
    [max 0 (w / 10^7 - 11644473600)]: its special case for [0] is the
    general formula's value there. *)
Theorem windows_to_unix_time_spec w :
  windows_to_unix_time w = Z.max 0 (w / 10000000 - 11644473600).
Proof. apply windows_to_unix_time_max. Qed.

(** on every signed 64-bit Windows time the Unix time is between 0 and
    [(2^63 - 1) / 10^7 - 11644473600]. *)
Theorem windows_to_unix_time_bounds w :
  - 2 ^ 63 <= w < 2 ^ 63 -> 0 <= windows_to_unix_time w <= 910692730085.
Proof.
  intros Hw. rewrite windows_to_unix_time_max.
  assert (w / 10000000 < 922337203686) by (apply Z.div_lt_upper_bound; lia). lia.
Qed.

(** round trip.  A Unix time [u >= 0] encoded as a Windows time, with
    any sub-second remainder [r], converts back to [u]. *)
Theorem windows_to_unix_time_roundtrip u r :
  0 <= u -> 0 <= r < 10000000 ->
  windows_to_unix_time ((u + 11644473600) * 10000000 + r) = u.
Proof.
  intros Hu Hr. rewrite windows_to_unix_time_max, Z.div_add_l by lia.
  rewrite Z.div_small by lia. lia.
Qed.

(** C9: a fast reference packing the 8-aligned pointer [8 * q] with any
    count [tag] in [0, 7] dereferences to the object at [8 * q]. *)
Theorem fast_ref_dereference_tag m p loc q tag :
  0 <= tag < 8 ->
  pointer_value m (ptr_size p) (member p "_EX_FAST_REF" "Object" loc) = Obj (8 * q + tag) ->
  fast_ref_dereference_as m p loc = mk_object m (8 * q).
Proof.
  intros Ht Hv. unfold fast_ref_dereference_as. rewrite Hv. simpl.
  by rewrite fast_ref_mask_pack.
Qed.

(** [get_token] returns only a token that passes [_TOKEN.is_valid]
    and is 8-aligned (its fast-reference count is masked off). *)
Theorem get_token_valid m p eproc tok :
  get_token m p eproc = Obj tok -> token_is_valid m p tok = true /\ tok mod 8 = 0.
Proof.
  unfold get_token, fast_ref_dereference_as.
  destruct (pointer_value _ _ _) as [v|]; simpl; [|discriminate].
  destruct (mk_object m (v &~ MAX_FAST_REF)) as [t|] eqn:Eo; simpl; [|discriminate].
  destruct (token_is_valid m p t) eqn:Ev; [|discriminate]. intros [= <-]. split; [done|].
  apply mk_object_obj in Eo as [-> _]. unfold MAX_FAST_REF.
  change 7 with (Z.ones 3). rewrite land_lnot_ones by lia. apply Z.mod_mul. lia.
Qed.

(** C21: round trip of [IpAddress.v].  On a well-formed image,
    [socket.inet_ntoa(struct.pack("<I", v))] prints the four bytes of the
    field in memory order: splitting the string at ["."] gives back the
    decimal strings of the bytes at [loc], [loc + 1], [loc + 2],
    [loc + 3]. *)
Theorem ip_address_v_bytes m loc bs :
  byte_image m -> read_bytes m loc 4 = Some bs ->
  exists s, ip_address_v m loc = Obj s /\ split_on "."%char s = map pretty bs.
Proof.
  intros Hm Hr. unfold ip_address_v, field, read_uint. rewrite Hr.
  eexists. split; [reflexivity|].
  pose proof (read_bytes_bytes m loc 4 bs Hm Hr) as Hb.
  rewrite <- (read_bytes_length m loc 4 bs Hr) at 1. rewrite le_split_combine by done.
  apply split_on_join.
  - apply read_bytes_length in Hr. destruct bs; [discriminate|done].
  - apply Forall_map, (Forall_impl _ _ _ Hb). intros b Hb'.
    apply pretty_nonneg_free; [lia|apply pretty_digit_ne; by right].
Qed.

(** ** Concrete images *)

(** A process at [0x1000] whose [Token] fast reference holds [0x2003]: the
    token at [0x2000] is in use with session 0.  A [_UNICODE_STRING] at
    [0x3000] of length 8 whose buffer is at [0x3100]. *)
Definition token_image : mem :=
  store32 ∅ [(0x1000, 0); (0x10c8, 0x2003); (0x2000, 0); (0x2018, 0); (0x2020, 1);
             (0x3000, 8); (0x3004, 0x3100); (0x3100, 0x00410041)].

Lemma windows_to_unix_time_bounds_witness :
  0 <= windows_to_unix_time 129000000000000000 <= 910692730085.
Proof. apply windows_to_unix_time_bounds. lia. Defined.

Lemma windows_to_unix_time_roundtrip_witness :
  windows_to_unix_time ((1300000000 + 11644473600) * 10000000 + 4321) = 1300000000.
Proof. apply windows_to_unix_time_roundtrip; lia. Defined.

Lemma fast_ref_dereference_tag_witness :
  fast_ref_dereference_as token_image xp_x86 0x10c8 = mk_object token_image (8 * 0x400).
Proof. apply (fast_ref_dereference_tag _ _ _ 0x400 3); [lia|vm_compute; reflexivity]. Defined.

Lemma get_token_valid_witness :
  token_is_valid token_image xp_x86 0x2000 = true /\ 0x2000 mod 8 = 0.
Proof. apply (get_token_valid token_image xp_x86 0x1000). vm_compute. reflexivity. Defined.

Example unicode_dereference_example :
  unicode_dereference token_image xp_x86 0x3000 = Obj (0x3100, 8).
Proof. vm_compute. reflexivity. Qed.

Example ip_address_v_example :
  ip_address_v (store32 ∅ [(0x100, 0x0100a8c0)]) 0x100 = Obj "192.168.0.1".
Proof. vm_compute. reflexivity. Qed.

Lemma ip_address_v_bytes_witness :
  exists s, ip_address_v (store32 ∅ [(0x100, 0x0100a8c0)]) 0x100 = Obj s /\
    split_on "."%char s = map pretty [0xc0; 0xa8; 0; 1].
Proof. apply ip_address_v_bytes; [decide_vm | vm_compute; reflexivity]. Defined.
