(* ===== verification/Token.v ===== *)
(** * Token: [_TOKEN.get_sids], the SID strings of a process token

    [src/trunk/volatility/plugins/overlays/windows/windows.py], lines
    377-385.  When [UserAndGroupCount < 0xFFFF], the generator iterates
    over the [_SID_AND_ATTRIBUTES] array that [UserAndGroups] points to
    (its count is [UserAndGroupCount], [windows_overlay] line 124), builds
    the [_SID] each entry's [Sid] names, keeps the last byte of its
    [IdentifierAuthority.Value] in [id_auth], and yields
    ["S-" + "-".join(...)] of the revision, [id_auth] and the
    sub-authorities.

    [id_auth] is a local of the generator, assigned only inside the inner
    [for]: an absent [_SID] (a [NoneObject], which iterates as empty and
    prints as [""]) leaves it as the previous entry set it, or unbound,
    and then the generator raises [UnboundLocalError].  The generator is
    the list it yields with the exception that stops it.

    Only the last byte of the six-byte [IdentifierAuthority] reaches the
    string.  The theorems: on a token whose SIDs are readable the
    generator yields exactly one string per entry and raises nothing; an
    unreadable SID is printed with the authority of the SID before it, or
    stops the generator with [UnboundLocalError]. *)

From Stdlib Require Import Ascii.
From S2P Require Import Prelude Memory Primitives.
Local Open Scope Z_scope.

(** The exception that stops [get_sids]. *)
Inductive sids_exn := UnboundLocalError.

(** ["S-" + "-".join(str(i) for i in (sid.Revision, id_auth) +
    tuple(sid.SubAuthority))]. *)
Definition sid_string (rev auth : maybe Z) (subs : list (maybe Z)) : string :=
  String.append "S-" (str_join "-" (map py_str (rev :: auth :: subs))).

(** The elements of an [obj.Array] of [count] elements of [size] bytes at
    [base]. *)
Definition array_elems (base count size : Z) : list Z :=
  map (fun i => base + i * size) (seqZ 0 count).

Section Token.
Context (m : mem) (p : Profile).

Definition user_and_group_count (tok : Z) : maybe Z :=
  field m (member p "_TOKEN" "UserAndGroupCount" tok) 4.

(** [self.UserAndGroups.dereference()]: the array the pointer names, of
    [UserAndGroupCount] entries, each an object (absent at an invalid
    address); an invalid pointer dereferences to a [NoneObject], which
    iterates as empty. *)
Definition user_and_groups (tok : Z) : list (maybe Z) :=
  match deref m (ptr_size p) (member p "_TOKEN" "UserAndGroups" tok), user_and_group_count tok with
  | Obj base, Obj n => map (mk_object m) (array_elems base n (get_obj_size p "_SID_AND_ATTRIBUTES"))
  | _, _ => []
  end.

(** [sa.Sid.dereference_as('_SID')]: [obj.Object('_SID', sa.Sid.v())]. *)
Definition sid_of (sa : maybe Z) : maybe Z :=
  s ← sa;
  v ← pointer_value m (ptr_size p) (member p "_SID_AND_ATTRIBUTES" "Sid" s);
  mk_object m v.

(** The value [for i in sid.IdentifierAuthority.Value: id_auth = i] leaves:
    the last of the six [unsigned char]s. *)
Definition authority_last (sid : Z) : maybe Z :=
  field m (member p "_SID_IDENTIFIER_AUTHORITY" "Value" (member p "_SID" "IdentifierAuthority" sid) + 5) 1.

Definition revision (sid : Z) : maybe Z := field m (member p "_SID" "Revision" sid) 1.

(** [tuple(sid.SubAuthority)]: [SubAuthorityCount] [unsigned long]s. *)
Definition sub_authorities (sid : Z) : list (maybe Z) :=
  match field m (member p "_SID" "SubAuthorityCount" sid) 1 with
  | Obj n => map (fun a => field m a 4) (array_elems (member p "_SID" "SubAuthority" sid) n 4)
  | NoneObject _ => []
  end.

(** The string of a readable [_SID]. *)
Definition sid_text (sid : Z) : string :=
  sid_string (revision sid) (authority_last sid) (sub_authorities sid).

(** The loop over the entries; [id_auth] is the local as the previous
    iterations left it, [None] while unbound. *)
Fixpoint sids_loop (sas : list (maybe Z)) (id_auth : option (maybe Z))
    : list string * option sids_exn :=
  match sas with
  | [] => ([], None)
  | sa :: rest =>
      match sid_of sa with
      | Obj s =>
          let '(out, e) := sids_loop rest (Some (authority_last s)) in (sid_text s :: out, e)
      | NoneObject r =>
          match id_auth with
          | None => ([], Some UnboundLocalError)
          | Some a => let '(out, e) := sids_loop rest id_auth in (sid_string (NoneObject r) a [] :: out, e)
          end
      end
  end.

(** [_TOKEN.get_sids]. *)
Definition get_sids (tok : Z) : list string * option sids_exn :=
  if py_gt (Obj 0xFFFF) (user_and_group_count tok) then sids_loop (user_and_groups tok) None
  else ([], None).

(** The authority [id_auth] holds after the entries [sas]. *)
Definition auth_after (sas : list (maybe Z)) (id_auth : option (maybe Z)) : option (maybe Z) :=
  foldl (fun a sa => match sid_of sa with Obj s => Some (authority_last s) | NoneObject _ => a end)
    id_auth sas.
End Token.

(** ** Lemmas *)

Lemma array_elems_length base count size :
  length (array_elems base count size) = Z.to_nat count.
Proof. unfold array_elems. by rewrite length_map, length_seqZ. Qed.

(** The loop on entries whose SIDs are all readable. *)
Lemma sids_loop_readable m p sas sids a0 :
  map (sid_of m p) sas = map Obj sids -> sids_loop m p sas a0 = (map (sid_text m p) sids, None).
Proof.
  revert sids a0. induction sas as [|sa sas IH]; intros [|s sids] a0 Hs; try discriminate; [done|].
  injection Hs as Hsa Hs. cbn [sids_loop]. rewrite Hsa, (IH _ _ Hs). reflexivity.
Qed.

Section Props.
Context (m : mem) (p : Profile).

(** The loop on [pre ++ rest] when [pre] does not raise: [pre]'s strings,
    then [rest]'s from the authority [pre] left. *)
Lemma sids_loop_app pre rest a0 :
  snd (sids_loop m p pre a0) = None ->
  sids_loop m p (pre ++ rest) a0 =
  (fst (sids_loop m p pre a0) ++ fst (sids_loop m p rest (auth_after m p pre a0)),
   snd (sids_loop m p rest (auth_after m p pre a0))).
Proof.
  revert a0. induction pre as [|sa pre IH]; intros a0 Hpre; cbn [sids_loop app] in *.
  - unfold auth_after; simpl. destruct (sids_loop m p rest a0); reflexivity.
  - destruct (sid_of m p sa) as [s|r] eqn:Es.
    + destruct (sids_loop m p pre _) as [o e] eqn:Ep. simpl in Hpre |- *.
      specialize (IH (Some (authority_last m p s))). rewrite Ep in IH.
      rewrite IH by done. unfold auth_after; simpl; rewrite Es. reflexivity.
    + destruct a0 as [a|]; [|discriminate].
      destruct (sids_loop m p pre _) as [o e] eqn:Ep. simpl in Hpre |- *.
      specialize (IH (Some a)). rewrite Ep in IH.
      rewrite IH by done. unfold auth_after; simpl; rewrite Es. reflexivity.
Qed.

(** A prefix that does not raise and leaves [id_auth] unbound is empty. *)
Lemma auth_after_none pre a0 :
  snd (sids_loop m p pre a0) = None -> auth_after m p pre a0 = None -> pre = [] /\ a0 = None.
Proof.
  revert a0. induction pre as [|sa pre IH]; intros a0 Hpre Ha; [done|].
  simpl in Hpre. unfold auth_after in Ha; simpl in Ha.
  destruct (sid_of m p sa) as [s|r] eqn:Es.
  - destruct (sids_loop m p pre _) eqn:Ep. simpl in Hpre.
    destruct (IH (Some (authority_last m p s))) as [_ [=]]; by rewrite ?Ep.
  - destruct a0 as [a|]; [|discriminate].
    destruct (sids_loop m p pre _) eqn:Ep. simpl in Hpre.
    destruct (IH (Some a)) as [_ [=]]; by rewrite ?Ep.
Qed.
End Props.

(** ** Properties *)

(** C14: [get_sids] on a token whose [UserAndGroupCount] [n] is below
    [0xFFFF], whose [UserAndGroups] pointer is valid and whose SIDs are all
    readable yields exactly [n] strings, the string of each entry's own
    SID in array order, and raises nothing. *)
Theorem get_sids_readable m p tok n sids :
  user_and_group_count m p tok = Obj n -> n < 0xFFFF ->
  is_obj (deref m (ptr_size p) (member p "_TOKEN" "UserAndGroups" tok)) = true ->
  map (sid_of m p) (user_and_groups m p tok) = map Obj sids ->
  get_sids m p tok = (map (sid_text m p) sids, None) /\ length sids = Z.to_nat n.
Proof.
  intros Hn Hlt Hptr Hs. split.
  - unfold get_sids. rewrite Hn. cbn [py_gt]. rewrite (proj2 (Z.ltb_lt _ _) Hlt).
    by apply sids_loop_readable.
  - apply (f_equal length) in Hs. rewrite !length_map in Hs. rewrite <- Hs.
    unfold user_and_groups. rewrite Hn.
    destruct (deref _ _ _); [|discriminate]. by rewrite length_map, array_elems_length.
Qed.

(** C15: the authority of an unreadable SID.  When the entry [sa] after a
    prefix [pre] that raises nothing has no readable [_SID], [get_sids]
    prints it as ["S--"] followed by the authority of the last readable
    SID before it (the stale [id_auth]), and goes on; when no SID before it
    was readable, it stops with [UnboundLocalError]. *)
Theorem sids_loop_stale_authority m p pre sa post a0 r :
  sid_of m p sa = NoneObject r -> snd (sids_loop m p pre a0) = None ->
  sids_loop m p (pre ++ sa :: post) a0 =
  match auth_after m p pre a0 with
  | None => ([], Some UnboundLocalError)
  | Some a => (fst (sids_loop m p pre a0) ++ String.append "S--" (py_str a)
                 :: fst (sids_loop m p post (Some a)), snd (sids_loop m p post (Some a)))
  end.
Proof.
  intros Hsa Hpre. rewrite sids_loop_app by done. cbn [sids_loop]. rewrite Hsa.
  destruct (auth_after m p pre a0) as [a|] eqn:Ha.
  - by destruct (sids_loop m p post (Some a)).
  - by destruct (auth_after_none m p pre a0 Hpre Ha) as [-> ->].
Qed.

(** ** A token with two SIDs

    The token at [0x5000] has two [_SID_AND_ATTRIBUTES] at [0x6000]: the
    first names the SID [S-1-5-18] at [0x7000], the second an unmapped
    address.  The token at [0x5100] has only the second, the token at
    [0x5200] only the first. *)
Definition sid_image : mem :=
  write_bytes
    (store32 ∅ [(0x504c, 2); (0x5068, 0x6000); (0x514c, 1); (0x5168, 0x6008);
                (0x524c, 1); (0x5268, 0x6000);
                (0x6000, 0x7000); (0x6004, 7); (0x6008, 0x9000); (0x600c, 0);
                (0x7008, 18)])
    0x7000 [1; 1; 0; 0; 0; 0; 0; 5].

Example get_sids_sid_image :
  get_sids sid_image xp_x86 0x5000 = (["S-1-5-18"; "S--5"], None).
Proof. vm_compute. reflexivity. Qed.

Example get_sids_unbound :
  get_sids sid_image xp_x86 0x5100 = ([], Some UnboundLocalError).
Proof. vm_compute. reflexivity. Qed.

Lemma get_sids_readable_witness :
  get_sids sid_image xp_x86 0x5200 = (map (sid_text sid_image xp_x86) [0x7000], None) /\
  length [0x7000] = Z.to_nat 1.
Proof.
  apply (get_sids_readable _ _ _ 1); [vm_compute; reflexivity | lia | vm_compute; reflexivity..].
Defined.

Lemma sids_loop_stale_authority_witness :
  fst (sids_loop sid_image xp_x86 [Obj 0x6000; Obj 0x6008] None) = ["S-1-5-18"; "S--5"].
Proof.
  change [Obj 0x6000; Obj 0x6008] with ([Obj 0x6000] ++ Obj 0x6008 :: []).
  rewrite (sids_loop_stale_authority sid_image xp_x86 [Obj 0x6000] (Obj 0x6008) [] None
             "Invalid Address, instantiating object"); vm_compute; reflexivity.
Defined.
