(* ===== verification/TimeStamp.v ===== *)
(** * TimeStamp: [WinTimeStamp] as a truth value and as a date

    [src/trunk/volatility/plugins/overlays/windows/windows.py]:
    - [WinTimeStamp.__nonzero__] (lines 271-272): [self.v() != 0];
    - [WinTimeStamp.as_datetime] (277-285):
      [datetime.datetime.utcfromtimestamp(self.v())], with the UTC time
      zone attached when the field is [is_utc]; a [ValueError] of the
      conversion becomes a [NoneObject];
    - [WinTimeStamp.__format__] (287-292): the display string of the date,
      or ["-"] when [as_datetime] gave a [NoneObject] (which compares equal
      to [None]);
    - [ThreadCreateTimeStamp] (684-690) reads the value shifted right by 3
      ([as_windows_timestamp] of [Primitives]).

    [utcfromtimestamp] belongs to Python's [datetime]: it accepts the
    seconds from year 1 to year 9999 and raises [ValueError] outside them,
    and [TypeError] on an argument that is not a number (a [NoneObject]).
    A date is identified by its timestamp (one second, one date, in that
    range) and its time zone flag; [timefmt.display_datetime], outside the
    repository, is the parameter [display_datetime].

    The theorems: a [WinTimeStamp] fails to convert exactly when its
    64-bit value is at least [2650467744000000000] (year 10000), which a
    signed 64-bit field can hold; a [ThreadCreateTimeStamp] of a
    well-formed image always converts, its shift keeps it below that
    bound. *)

From S2P Require Import Prelude Memory Primitives.
Local Open Scope Z_scope.

(** The seconds of [0001-01-01 00:00:00] and [9999-12-31 23:59:59]: the
    range of [datetime.utcfromtimestamp] on a platform with a 64-bit
    [time_t].  A 32-bit platform raises earlier (at [time_t]'s bounds);
    that platform is not modelled. *)
Definition MIN_TIMESTAMP : Z := -62135596800.
Definition MAX_TIMESTAMP : Z := 253402300799.

Record datetime := mk_datetime { dt_timestamp : Z; dt_utc : bool }.

(** The outcome of [as_datetime]: a date, the [NoneObject] of the caught
    [ValueError], or the [TypeError] that escapes. *)
Inductive dt_result :=
| DTOk (d : datetime)
| DTNone (reason : string)
| DTTypeError.

Definition utcfromtimestamp (t : Z) : option datetime :=
  if (MIN_TIMESTAMP <=? t) && (t <=? MAX_TIMESTAMP) then Some (mk_datetime t false) else None.

Section TimeStamp.
Context (m : mem).

(** [__nonzero__]; [thread] selects [ThreadCreateTimeStamp]. *)
Definition timestamp_nonzero (thread : bool) (loc : Z) : bool :=
  py_ne (timestamp_v m thread loc) 0.

(** [as_datetime]. *)
Definition as_datetime (thread is_utc : bool) (loc : Z) : dt_result :=
  match timestamp_v m thread loc with
  | Obj t =>
      match utcfromtimestamp t with
      | Some dt => DTOk (if is_utc then mk_datetime (dt_timestamp dt) true else dt)
      | None => DTNone "Datetime conversion failure: year is out of range"
      end
  | NoneObject _ => DTTypeError
  end.

Context (display_datetime : datetime -> string).

(** [__format__] with the empty format spec; [None] is the escaping
    [TypeError]. *)
Definition timestamp_format (thread is_utc : bool) (loc : Z) : option string :=
  match as_datetime thread is_utc loc with
  | DTOk dt => Some (display_datetime dt)
  | DTNone _ => Some "-"
  | DTTypeError => None
  end.

(** [__str__]: ["{0}".format(self)]. *)
Definition timestamp_str (thread is_utc : bool) (loc : Z) : option string :=
  timestamp_format thread is_utc loc.
End TimeStamp.

(** The first Windows time whose Unix time is past [MAX_TIMESTAMP]. *)
Definition WIN_YEAR_10000 : Z := (MAX_TIMESTAMP + 1 + 11644473600) * 10000000.

(** ** Lemmas *)

(** A date converts exactly when its Unix time is at most
    [MAX_TIMESTAMP]; a Windows time is converted to a non-negative one. *)
Lemma as_datetime_value m thread u loc w :
  as_windows_timestamp m thread loc = Obj w ->
  as_datetime m thread u loc =
  if windows_to_unix_time w <=? MAX_TIMESTAMP
  then DTOk (mk_datetime (windows_to_unix_time w) u)
  else DTNone "Datetime conversion failure: year is out of range".
Proof.
  intros Hw. unfold as_datetime, timestamp_v. rewrite Hw. cbn [fmap maybe_fmap_inst maybe_fmap].
  unfold utcfromtimestamp. pose proof (windows_to_unix_time_max w).
  rewrite (proj2 (Z.leb_le MIN_TIMESTAMP _)) by (unfold MIN_TIMESTAMP; lia). simpl.
  destruct (windows_to_unix_time w <=? MAX_TIMESTAMP), u; reflexivity.
Qed.

Lemma unix_time_in_range w :
  (windows_to_unix_time w <=? MAX_TIMESTAMP) = (w <? WIN_YEAR_10000).
Proof.
  rewrite windows_to_unix_time_max. unfold WIN_YEAR_10000, MAX_TIMESTAMP.
  destruct (Z.leb_spec (Z.max 0 (w / 10000000 - 11644473600)) 253402300799),
    (Z.ltb_spec w ((253402300799 + 1 + 11644473600) * 10000000)); try reflexivity.
  - assert (265046774400 <= w / 10000000) by (apply Z.div_le_lower_bound; lia). lia.
  - assert (w / 10000000 < 265046774400) by (apply Z.div_lt_upper_bound; lia). lia.
Qed.

(** ** Properties *)

(** C17: [WinTimeStamp.as_datetime] on every branch of a readable field:
    the value [w] converts to the date of [windows_to_unix_time w] (with
    the field's time zone flag) exactly when [w] is below the first
    Windows time of year 10000; from there on the caught [ValueError]
    gives a [NoneObject]. *)
Theorem win_timestamp_as_datetime m u loc w :
  read_int m loc 8 = Some w ->
  as_datetime m false u loc =
  if w <? WIN_YEAR_10000 then DTOk (mk_datetime (windows_to_unix_time w) u)
  else DTNone "Datetime conversion failure: year is out of range".
Proof.
  intros Hr. rewrite (as_datetime_value m false u loc w), unix_time_in_range; [done|].
  unfold as_windows_timestamp. by rewrite Hr.
Qed.

(** C18: a [ThreadCreateTimeStamp] of a well-formed image always converts:
    its signed 64-bit value shifted right by 3 is below [2^60], far from
    year 10000, so [as_datetime] never takes the [ValueError] branch. *)
Theorem thread_create_time_converts m u loc w :
  byte_image m -> read_int m loc 8 = Some w ->
  as_datetime m true u loc = DTOk (mk_datetime (windows_to_unix_time (Z.shiftr w 3)) u).
Proof.
  intros Hm Hr. pose proof (read_int_bounds m loc 8 w ltac:(lia) Hm Hr) as Hw.
  rewrite (as_datetime_value m true u loc (Z.shiftr w 3)), unix_time_in_range.
  - rewrite (proj2 (Z.ltb_lt _ _)); [done|].
    rewrite Z.shiftr_div_pow2 by lia. unfold WIN_YEAR_10000, MAX_TIMESTAMP.
    assert (w / 2 ^ 3 < 2 ^ 60) by (apply Z.div_lt_upper_bound; lia). lia.
  - unfold as_windows_timestamp. by rewrite Hr.
Qed.

(** ** The largest time

    [max_time_image] holds [2^63 - 1], the largest signed 64-bit value, at
    [0x100]. *)
Definition max_time_image : mem :=
  write_bytes ∅ 0x100 [0xff; 0xff; 0xff; 0xff; 0xff; 0xff; 0xff; 0x7f].

Example max_time_formats_dash :
  timestamp_format max_time_image (fun _ => "date") false false 0x100 = Some "-" /\
  timestamp_format max_time_image (fun _ => "date") true false 0x100 = Some "date" /\
  timestamp_format max_time_image (fun _ => "date") false false 0x200 = None.
Proof. vm_compute. auto. Qed.

Lemma win_timestamp_as_datetime_witness :
  as_datetime max_time_image false false 0x100 =
  DTNone "Datetime conversion failure: year is out of range".
Proof. rewrite (win_timestamp_as_datetime _ _ _ (2 ^ 63 - 1)); vm_compute; reflexivity. Defined.

Lemma thread_create_time_converts_witness :
  as_datetime max_time_image true true 0x100 =
  DTOk (mk_datetime (windows_to_unix_time (Z.shiftr (2 ^ 63 - 1) 3)) true).
Proof.
  apply thread_create_time_converts; [decide_vm | vm_compute; reflexivity].
Defined.
