(* ===== verification/ListEntry.v ===== *)
(** * ListEntry: [_LIST_ENTRY.list_of_type], the cycle-safe list walk

    [src/trunk/volatility/plugins/overlays/windows/windows.py], class
    [_LIST_ENTRY] (lines 192-234).  A [_LIST_ENTRY] embedded at offset
    [off] of an element type links the elements of a doubly linked list.
    [list_of_type] follows [Flink] (or [Blink]) from the head, computes
    each element as [link - off], and stops when the next link is invalid
    or was seen before; [seen] starts with the first link.  [__iter__]
    walks forwards with the names of the embedding structure.

    [list_walk] is the [while 1] loop with the set [seen], on fuel;
    [list_of_type] runs it with the fuel [size m + 1], which
    [list_of_type_terminates] shows is never exhausted.  The theorems: no
    element is yielded twice; a well-formed circular list is yielded
    exactly, in order; and a chain that closes on itself away from the head
    loses its last element (a divergence from spec §8). *)

From S2P Require Import Prelude Memory.
Local Open Scope Z_scope.

Section ListEntry.
Context (m : mem) (p : Profile).

(** [self.Flink.dereference()] / [self.Blink.dereference()] of the
    [_LIST_ENTRY] at [le]. *)
Definition next_link (forward : bool) (le : Z) : maybe Z :=
  deref m (ptr_size p)
    (le + get_obj_offset p "_LIST_ENTRY" (if forward then "Flink" else "Blink")).

(** The [while 1] loop of [list_of_type]: [lst] is the current link. *)
Fixpoint list_walk (fuel : nat) (forward : bool) (off lst : Z) (seen : gset Z) : list Z :=
  match fuel with
  | O => []
  | S fuel' =>
      match mk_object m (lst - off) with
      | NoneObject _ => []
      | Obj item =>
          match next_link forward (item + off) with
          | NoneObject _ => []
          | Obj nxt =>
              if decide (nxt ∈ seen) then []
              else item :: list_walk fuel' forward off nxt ({[nxt]} ∪ seen)
          end
      end
  end.

(** [_LIST_ENTRY.list_of_type(type, member, forward)] on the list head
    at [head]. *)
Definition list_of_type (head : Z) (type member : string) (forward : bool) : list Z :=
  if is_valid_address m head then
    match next_link forward head with
    | NoneObject _ => []
    | Obj lst => list_walk (S (size m)) forward (get_obj_offset p type member) lst {[lst]}
    end
  else [].

(** [_LIST_ENTRY.__nonzero__]: valid when either link is valid. *)
Definition list_entry_nonzero (le : Z) : bool :=
  is_obj (next_link true le) || is_obj (next_link false le).

(** [_LIST_ENTRY.__iter__]: the list of the structure [parent_name] that
    embeds this entry as its member [obj_name], walked forwards. *)
Definition list_entry_iter (le : Z) (parent_name obj_name : string) : list Z :=
  list_of_type le parent_name obj_name true.

(** [linked forward off cs last]: the links [cs] follow each other, the
    last one points to [last], and each element [c - off] is valid. *)
Fixpoint linked (forward : bool) (off : Z) (cs : list Z) (last : Z) : bool :=
  match cs with
  | [] => true
  | c :: cs' =>
      is_valid_address m (c - off)
      && bool_decide (next_link forward c = Obj (default last (head cs')))
      && linked forward off cs' last
  end.

(** ** Lemmas *)

Lemma next_link_valid fwd le x : next_link fwd le = Obj x -> x ∈ dom m.
Proof. apply deref_valid. Qed.

Lemma list_walk_fuel f1 f2 fwd off lst seen :
  (size (dom m ∖ seen) < f1)%nat -> (size (dom m ∖ seen) < f2)%nat ->
  list_walk f1 fwd off lst seen = list_walk f2 fwd off lst seen.
Proof.
  revert f2 lst seen; induction f1 as [|f1 IH]; intros f2 lst seen H1 H2; [lia|].
  destruct f2 as [|f2]; [lia|]. simpl.
  destruct (mk_object m (lst - off)) as [item|]; [|done].
  destruct (next_link fwd (item + off)) as [nxt|] eqn:En; [|done].
  case_decide as Hs; [done|]. f_equal.
  pose proof (size_difference_add (dom m) seen nxt (next_link_valid _ _ _ En) Hs).
  apply IH; lia.
Qed.

Lemma list_walk_items f fwd off lst seen y :
  y ∈ list_walk f fwd off lst seen -> y + off = lst \/ y + off ∉ seen.
Proof.
  revert lst seen; induction f as [|f IH]; intros lst seen; simpl; [set_solver|].
  destruct (mk_object m (lst - off)) as [item|] eqn:Ei; [|set_solver].
  apply mk_object_obj in Ei as [-> _].
  destruct (next_link fwd (lst - off + off)) as [nxt|]; [|set_solver].
  case_decide; [set_solver|].
  rewrite elem_of_cons. intros [->|Hy]; [left; lia|].
  destruct (IH _ _ Hy); right; set_solver.
Qed.

(** Every element the walk yields is a valid address. *)
Lemma list_walk_valid f fwd off lst seen y :
  y ∈ list_walk f fwd off lst seen -> y ∈ dom m.
Proof.
  revert lst seen; induction f as [|f IH]; intros lst seen; simpl; [inversion 1|].
  destruct (mk_object m (lst - off)) as [item|] eqn:Ei; [|inversion 1].
  apply mk_object_obj in Ei as [-> Hd].
  destruct (next_link fwd (lst - off + off)) as [nxt|]; [|inversion 1].
  case_decide; [inversion 1|].
  rewrite elem_of_cons. intros [->|Hy]; [done|]. by eapply IH.
Qed.

Lemma list_walk_nodup f fwd off lst seen :
  lst ∈ seen -> NoDup (list_walk f fwd off lst seen).
Proof.
  revert lst seen; induction f as [|f IH]; intros lst seen Hin; simpl; [constructor|].
  destruct (mk_object m (lst - off)) as [item|] eqn:Ei; [|constructor].
  apply mk_object_obj in Ei as [-> _].
  destruct (next_link fwd (lst - off + off)) as [nxt|]; [|constructor].
  case_decide as Hs; [constructor|]. constructor.
  - intros Hy. apply list_walk_items in Hy.
    replace (lst - off + off) with lst in Hy by lia. set_solver.
  - apply IH. set_solver.
Qed.

Lemma list_walk_stop_invalid f fwd off lst seen :
  is_valid_address m (lst - off) = false -> list_walk f fwd off lst seen = [].
Proof. destruct f; simpl; [done|]. unfold mk_object. by intros ->. Qed.

Lemma list_walk_stop_seen f fwd off lst seen n :
  next_link fwd lst = Obj n -> n ∈ seen -> list_walk f fwd off lst seen = [].
Proof.
  destruct f; simpl; [done|]. unfold mk_object.
  destruct (is_valid_address m (lst - off)); [|done].
  replace (lst - off + off) with lst by lia. intros -> Hn. by rewrite decide_True.
Qed.

(** Walking a linked chain [c :: cs] that continues to a fresh [nxt]
    yields every element of the chain, then goes on from [nxt]. *)
Lemma list_walk_prefix f fwd off c cs nxt seen :
  (length cs < f)%nat ->
  NoDup (c :: cs) -> linked fwd off (c :: cs) nxt = true ->
  c ∈ seen -> (forall x, x ∈ cs -> x ∉ seen) -> nxt ∉ seen -> nxt ∉ cs ->
  exists seen', (forall x, x ∈ seen' <-> x = nxt \/ x ∈ cs \/ x ∈ seen) /\
    list_walk f fwd off c seen
    = map (fun x => x - off) (c :: cs) ++ list_walk (f - S (length cs)) fwd off nxt seen'.
Proof.
  revert f c seen; induction cs as [|c' cs IH];
    intros f c seen Hf Hnd Hl Hc Hcs Hn1 Hn2; destruct f as [|f]; simpl in *; try lia;
    apply andb_prop in Hl as [[Hv Hn]%andb_prop Hl];
    apply bool_decide_eq_true in Hn; unfold mk_object; rewrite Hv;
    replace (c - off + off) with c by lia; rewrite Hn.
  - rewrite decide_False by done. exists ({[nxt]} ∪ seen).
    rewrite Nat.sub_0_r. split; [set_solver|done].
  - rewrite decide_False by (apply Hcs; apply list_elem_of_here).
    apply NoDup_cons in Hnd as [Hnd1 Hnd2]. apply NoDup_cons in Hnd2 as [Hnd3 Hnd4].
    assert (Hc' : c' ∉ seen) by (apply Hcs; apply list_elem_of_here).
    destruct (IH f c' ({[c']} ∪ seen)) as (seen' & Hs' & ->).
    + lia.
    + by constructor.
    + exact Hl.
    + apply elem_of_union_l, elem_of_singleton. reflexivity.
    + intros x Hx. rewrite elem_of_union, elem_of_singleton.
      intros [->|Hx']; [contradiction|]. exact (Hcs x (list_elem_of_further _ _ _ Hx) Hx').
    + rewrite elem_of_union, elem_of_singleton. intros [->|Hx']; [apply Hn2; apply list_elem_of_here|contradiction].
    + intros Hx. apply Hn2. by apply list_elem_of_further.
    + exists seen'. split; [|done]. intros x. rewrite Hs', elem_of_union, elem_of_singleton.
      rewrite elem_of_cons. tauto.
Qed.
End ListEntry.

Section ListEntryTheorems.
Context (m : mem) (p : Profile).

Lemma list_of_type_walk lh type member fwd lst f :
  is_valid_address m lh = true -> next_link m p fwd lh = Obj lst -> (size m < f)%nat ->
  list_of_type m p lh type member fwd
  = list_walk m p f fwd (get_obj_offset p type member) lst {[lst]}.
Proof.
  intros Hv Hn Hf. unfold list_of_type. rewrite Hv, Hn.
  pose proof (subseteq_size (dom m ∖ {[lst]}) (dom m) ltac:(set_solver)).
  rewrite size_dom in *. apply list_walk_fuel; lia.
Qed.

Lemma list_walk_closed f fwd off lst seen n :
  next_link m p fwd lst = Obj n -> n ∈ seen -> list_walk m p f fwd off lst seen = [].
Proof.
  intros Hn Hs. destruct (is_valid_address m (lst - off)) eqn:E.
  - by eapply list_walk_stop_seen.
  - by apply list_walk_stop_invalid.
Qed.

Lemma map_sub_add (off : Z) (l : list Z) :
  map (fun x => x - off) (map (fun e => e + off) l) = l.
Proof. rewrite map_map. erewrite map_ext; [apply map_id|]. intros; simpl; lia. Qed.

(** The elements [list_of_type] yields are distinct valid addresses. *)
Lemma list_of_type_walk_nodup lh type member fwd :
  NoDup (list_of_type m p lh type member fwd).
Proof.
  unfold list_of_type. destruct (is_valid_address m lh); [|constructor].
  destruct (next_link m p fwd lh) as [lst|]; [|constructor].
  apply list_walk_nodup. set_solver.
Qed.

Lemma list_of_type_valid lh type member fwd x :
  x ∈ list_of_type m p lh type member fwd -> x ∈ dom m.
Proof.
  unfold list_of_type. destruct (is_valid_address m lh); [|inversion 1].
  destruct (next_link m p fwd lh); [|inversion 1].
  apply list_walk_valid.
Qed.

(** C40: termination.  The walk of [list_of_type] is never cut by its fuel:
    with any fuel above the size of the image, the [while 1] loop gives
    the same list, so the loop ends on its own guards. *)
Theorem list_of_type_terminates lh type member fwd lst f :
  is_valid_address m lh = true -> next_link m p fwd lh = Obj lst -> (size m < f)%nat ->
  list_walk m p f fwd (get_obj_offset p type member) lst {[lst]}
  = list_of_type m p lh type member fwd.
Proof. intros. symmetry. by apply list_of_type_walk. Qed.

(** C4: cycle safety.  [list_of_type] never yields the same element twice,
    whatever the links in the image. *)
Theorem list_of_type_nodup lh type member fwd :
  NoDup (list_of_type m p lh type member fwd).
Proof. apply list_of_type_walk_nodup. Qed.

(** C3: functional correctness on a circular list.  When the head's link
    leads through the links of [elems] (each element valid) and the last
    one leads back to the head, [list_of_type] yields exactly [elems], in
    order and without the head. *)
Theorem list_of_type_circular lh type member fwd (elems : list Z) :
  let off := get_obj_offset p type member in
  is_valid_address m lh = true ->
  NoDup (lh :: map (fun e => e + off) elems) ->
  next_link m p fwd lh = Obj (default lh (head (map (fun e => e + off) elems))) ->
  linked m p fwd off (map (fun e => e + off) elems) lh = true ->
  list_of_type m p lh type member fwd = elems.
Proof.
  intros off Hv Hnd Hn Hl. destruct elems as [|e es]; simpl in Hn.
  - unfold list_of_type. rewrite Hv, Hn. eapply list_walk_closed; [exact Hn|set_solver].
  - rewrite (list_of_type_walk _ _ _ _ _ (S (size m + length es))) by (done || lia).
    fold off. apply NoDup_cons in Hnd as [Hh Hnd]. simpl in Hh, Hnd.
    destruct (list_walk_prefix m p (S (size m + length es)) fwd off (e + off)
                (map (fun e => e + off) es) lh {[e + off]}) as (seen' & Hs & ->).
    + rewrite length_map. lia.
    + exact Hnd.
    + exact Hl.
    + by apply elem_of_singleton.
    + intros x Hx ->%elem_of_singleton. by apply NoDup_cons in Hnd as [? _].
    + intros ->%elem_of_singleton. apply Hh, list_elem_of_here.
    + intros Hx. by apply Hh, list_elem_of_further.
    + erewrite list_walk_closed; [|exact Hn|apply Hs; right; right; by apply elem_of_singleton].
      rewrite app_nil_r. apply (map_sub_add off (e :: es)).
Qed.

(** C22: a chain closing on itself away from the head (spec §8: element
    [N]'s link points back to element [K <= N]).  [list_of_type] then
    yields the elements before the last one and never yields the last,
    valid and linked, element [e_last]. *)
Theorem list_of_type_lasso lh type member fwd (elems : list Z) (e_last k : Z) :
  let off := get_obj_offset p type member in
  is_valid_address m lh = true ->
  NoDup (lh :: map (fun e => e + off) (elems ++ [e_last])) ->
  next_link m p fwd lh = Obj (default (e_last + off) (head (map (fun e => e + off) elems))) ->
  linked m p fwd off (map (fun e => e + off) elems) (e_last + off) = true ->
  is_valid_address m e_last = true ->
  next_link m p fwd (e_last + off) = Obj (k + off) -> k ∈ elems ++ [e_last] ->
  list_of_type m p lh type member fwd = elems.
Proof.
  intros off Hv Hnd Hn Hl He Hk Hkin. rewrite map_app in Hnd. simpl in Hnd.
  apply NoDup_cons in Hnd as [_ Hnd].
  destruct elems as [|e es]; simpl in Hn.
  - unfold list_of_type. rewrite Hv, Hn. eapply list_walk_closed; [exact Hk|set_solver].
  - rewrite (list_of_type_walk _ _ _ _ _ (S (size m + length es))) by (done || lia).
    fold off. simpl in Hnd. apply NoDup_cons in Hnd as [Hh Hnd].
    apply NoDup_app in Hnd as (Hnd1 & Hdisj & _).
    destruct (list_walk_prefix m p (S (size m + length es)) fwd off (e + off)
                (map (fun e => e + off) es) (e_last + off) {[e + off]}) as (seen' & Hs & ->).
    + rewrite length_map. lia.
    + constructor; [|exact Hnd1]. intros Hx. apply Hh, elem_of_app. by left.
    + exact Hl.
    + by apply elem_of_singleton.
    + intros x Hx ->%elem_of_singleton. apply Hh, elem_of_app. by left.
    + intros Hx%elem_of_singleton. rewrite <- Hx in Hh.
      apply Hh, elem_of_app. right. apply list_elem_of_here.
    + intros Hx. exact (Hdisj _ Hx (list_elem_of_here _ _)).
    + erewrite list_walk_closed; [|exact Hk|].
      * rewrite app_nil_r. apply (map_sub_add off (e :: es)).
      * apply Hs. apply elem_of_app in Hkin as [Hkin|Hkin].
        -- apply elem_of_cons in Hkin as [->|Hkin]; [right; right; by apply elem_of_singleton|].
           right; left. apply list_elem_of_fmap. eauto.
        -- left. apply list_elem_of_singleton in Hkin. by subst.
Qed.
End ListEntryTheorems.

(** ** Concrete images

    [proc_list]: the head at [0x100] and three [_EPROCESS] at [0x1000],
    [0x2000], [0x3000] linked through [ActiveProcessLinks] (offset [0x88]),
    forward and backward.  [lasso_list]: the third element's [Flink] points
    back to the second. *)
Definition proc_list : mem :=
  store32 ∅ [(0x100, 0x1088); (0x104, 0x3088);
             (0x1000, 0); (0x1088, 0x2088); (0x108c, 0x100);
             (0x2000, 0); (0x2088, 0x3088); (0x208c, 0x1088);
             (0x3000, 0); (0x3088, 0x100); (0x308c, 0x2088)].

Definition lasso_list : mem :=
  store32 ∅ [(0x100, 0x1088); (0x1000, 0); (0x1088, 0x2088);
             (0x2000, 0); (0x2088, 0x3088); (0x3000, 0); (0x3088, 0x2088)].

Example list_of_type_backward :
  list_of_type proc_list xp_x86 0x100 "_EPROCESS" "ActiveProcessLinks" false
  = [0x3000; 0x2000; 0x1000].
Proof. vm_compute. reflexivity. Qed.

Lemma list_of_type_terminates_witness :
  list_walk proc_list xp_x86 1000 true 0x88 0x1088 {[0x1088]}
  = list_of_type proc_list xp_x86 0x100 "_EPROCESS" "ActiveProcessLinks" true.
Proof.
  apply (list_of_type_terminates proc_list xp_x86 0x100 "_EPROCESS" "ActiveProcessLinks"
           true 0x1088 1000);
    [vm_compute; reflexivity|vm_compute; reflexivity|apply Nat.ltb_lt; vm_compute; reflexivity].
Defined.

Lemma list_of_type_circular_witness :
  list_of_type proc_list xp_x86 0x100 "_EPROCESS" "ActiveProcessLinks" true
  = [0x1000; 0x2000; 0x3000].
Proof.
  apply (list_of_type_circular proc_list xp_x86 0x100 "_EPROCESS" "ActiveProcessLinks"
           true [0x1000; 0x2000; 0x3000]); [vm_compute; reflexivity|decide_vm|..];
    vm_compute; reflexivity.
Defined.

Lemma list_of_type_lasso_witness :
  list_of_type lasso_list xp_x86 0x100 "_EPROCESS" "ActiveProcessLinks" true
  = [0x1000; 0x2000].
Proof.
  apply (list_of_type_lasso lasso_list xp_x86 0x100 "_EPROCESS" "ActiveProcessLinks"
           true [0x1000; 0x2000] 0x3000 0x2000);
    [vm_compute; reflexivity|decide_vm|vm_compute; reflexivity|vm_compute; reflexivity
    |vm_compute; reflexivity|vm_compute; reflexivity|decide_vm].
Defined.
