(* ===== verification/VadTree.v ===== *)
(** * VadTree: the VAD tree, [_MMVAD] tag dispatch and [traverse]

    [src/trunk/volatility/plugins/overlays/windows/windows.py], classes
    [_MMVAD] (lines 567-612), [_MMVAD_SHORT] (614-670) and [_MMVAD_LONG].
    A VAD node's concrete type is read from the four-byte pool tag stored
    just before it ([Tag] at offset -4 in [windows_overlay]): [mmvad_new]
    is [_MMVAD.__new__], which refuses offsets below 4 and unknown tags.
    [traverse] yields a node, then the left subtree, then the right one,
    sharing one [visited] set.

    The Python generators add a node to [visited] in their parent's loop,
    before the node's own children are explored; the root has no parent
    loop and is never added.  [vad_walk] models a non-root call, adding the
    node on entry; [traverse] models the root call.  The walk runs on fuel
    [size m + 1], never exhausted ([traverse_terminates]). *)

From S2P Require Import Prelude Memory Primitives.
Local Open Scope Z_scope.

(** The concrete classes a tag maps to. *)
Inductive vad_type := MMVAD_SHORT | MMVAD_LONG.

#[export] Instance vad_type_eq_dec : EqDecision vad_type.
Proof. solve_decision. Defined.

Definition vad_type_name (t : vad_type) : string :=
  match t with MMVAD_SHORT => "_MMVAD_SHORT" | MMVAD_LONG => "_MMVAD_LONG" end.

(** [_MMVAD.tag_map]. *)
Definition tag_map (tag : string) : option vad_type :=
  match tag with
  | "Vadl" => Some MMVAD_LONG
  | "VadS" => Some MMVAD_SHORT
  | "Vad " => Some MMVAD_LONG
  | "VadF" => Some MMVAD_SHORT
  | "Vadm" => Some MMVAD_LONG
  | _ => None
  end%string.

Section Vad.
Context (m : mem) (p : Profile).

(** [str(result.Tag)] of the [_MMVAD_LONG] built at [off]. *)
Definition read_tag (off : Z) : option string :=
  read_string m (off + get_obj_offset p "_MMVAD_LONG" "Tag") 4.

(** [_MMVAD.__new__(offset)]: the node and its concrete type. *)
Definition mmvad_new (off : Z) : maybe (Z * vad_type) :=
  if off <? 4 then
    NoneObject "MMVAD probably instantiated from a NULL pointer, there is no tag to read"
  else
    _ ← mk_object m off;
    match read_tag off ≫= tag_map with
    | None => NoneObject "Tag not known"
    | Some t => o ← mk_object m off; Obj (o, t)
    end.

(** [self.LeftChild] / [self.RightChild]: a pointer to [_MMVAD],
    dereferenced through [_MMVAD.__new__]. *)
Definition child (off : Z) (t : vad_type) (side : string) : maybe (Z * vad_type) :=
  deref m (ptr_size p) (off + get_obj_offset p (vad_type_name t) side) ≫= mmvad_new.

(** [traverse(visited)] called from a parent's loop on [node] (a
    [NoneObject] child yields nothing); returns the yielded offsets and
    the [visited] set afterwards. *)
Fixpoint vad_walk (fuel : nat) (node : maybe (Z * vad_type)) (visited : gset Z)
  : list Z * gset Z :=
  match fuel with
  | O => ([], visited)
  | S fuel' =>
      match node with
      | NoneObject _ => ([], visited)
      | Obj (off, t) =>
          if decide (off ∈ visited) then ([], visited)
          else
            let '(l, v2) := vad_walk fuel' (child off t "LeftChild") ({[off]} ∪ visited) in
            let '(r, v3) := vad_walk fuel' (child off t "RightChild") v2 in
            (off :: l ++ r, v3)
      end
  end.

(** [traverse()] on the root node: [visited] starts empty and the root
    itself is never added to it. *)
Definition traverse_with (fuel : nat) (root : Z * vad_type) : list Z :=
  let '(off, t) := root in
  let '(l, v1) := vad_walk fuel (child off t "LeftChild") ∅ in
  let '(r, _) := vad_walk fuel (child off t "RightChild") v1 in
  off :: l ++ r.

Definition traverse (root : Z * vad_type) : list Z := traverse_with (S (size m)) root.

(** ** The region of a node: [get_start], [get_end], [get_data]

    [StartingVpn] and [EndingVpn] are page numbers, read as the 4-byte
    [unsigned long]s of the 32-bit (x86) profiles; the 8-byte fields of
    64-bit profiles are not modelled.  Shifts of an absent field are
    absent. *)
Definition get_start (vad : Z * vad_type) : maybe Z :=
  v ← field m (member p (vad_type_name vad.2) "StartingVpn" vad.1) 4;
  Obj (Z.shiftl v 12).

Definition get_end (vad : Z * vad_type) : maybe Z :=
  v ← field m (member p (vad_type_name vad.2) "EndingVpn" vad.1) 4;
  Obj (Z.shiftl (v + 1) 12 - 1).

(** [get_data]: the empty string past the guards, else the [zread] of the
    region. *)
Definition get_data (vad : Z * vad_type) : list Z :=
  let start := get_start vad in
  let end_ := get_end vad in
  if py_gt start (Obj 0xFFFFFFFF) || py_gt end_ (Obj (Z.shiftl 0xFFFFFFFF 12)) then []
  else match start, end_ with
       | Obj s, Obj e => zread m s (e - s + 1)
       | _, _ => []
       end.

(** ** Lemmas *)

Lemma mmvad_new_obj off o t :
  mmvad_new off = Obj (o, t) ->
  o = off /\ 4 <= off /\ off ∈ dom m /\ (read_tag off ≫= tag_map) = Some t.
Proof.
  unfold mmvad_new. destruct (off <? 4) eqn:E; [discriminate|].
  destruct (mk_object m off) as [o'|] eqn:Eo; simpl; [|discriminate].
  destruct (read_tag off ≫= tag_map) as [t'|]; [|discriminate].
  simpl. intros [= <- <-].
  apply mk_object_obj in Eo as [-> Hd]. apply Z.ltb_ge in E. auto.
Qed.

Lemma child_obj off t side o t' :
  child off t side = Obj (o, t') -> mmvad_new o = Obj (o, t').
Proof.
  unfold child. intros H. inv_maybe.
  pose proof H as H'. apply mmvad_new_obj in H' as [-> _]. done.
Qed.

Lemma vad_walk_visited f node V :
  V ⊆ (vad_walk f node V).2.
Proof.
  revert node V; induction f as [|f IH]; intros node V; simpl; [done|].
  destruct node as [[off t]|]; [|done]. case_decide; [done|].
  pose proof (IH (child off t "LeftChild") ({[off]} ∪ V)).
  destruct (vad_walk f (child off t "LeftChild") ({[off]} ∪ V)) as [l v2].
  pose proof (IH (child off t "RightChild") v2).
  destruct (vad_walk f (child off t "RightChild") v2) as [r v3]. simpl in *. set_solver.
Qed.

Lemma child_valid off t side o t' :
  child off t side = Obj (o, t') -> o ∈ dom m.
Proof. intros H%child_obj. by apply mmvad_new_obj in H as (_ & _ & ? & _). Qed.

(** A node built by [mmvad_new] lies at a valid offset. *)
Definition node_valid (node : maybe (Z * vad_type)) : Prop :=
  forall o t, node = Obj (o, t) -> o ∈ dom m.

Lemma child_node_valid off t side : node_valid (child off t side).
Proof. intros o t' H. by eapply child_valid. Qed.

Lemma vad_walk_fuel f1 f2 node V :
  node_valid node ->
  (size (dom m ∖ V) < f1)%nat -> (size (dom m ∖ V) < f2)%nat ->
  vad_walk f1 node V = vad_walk f2 node V.
Proof.
  revert f2 node V; induction f1 as [|f1 IH]; intros f2 node V Hn H1 H2; [lia|].
  destruct f2 as [|f2]; [lia|]. simpl.
  destruct node as [[off t]|]; [|done]. case_decide as Hv; [done|].
  pose proof (size_difference_add (dom m) V off (Hn _ _ eq_refl) Hv).
  rewrite (IH f2 (child off t "LeftChild")) by (apply child_node_valid || lia).
  pose proof (vad_walk_visited f2 (child off t "LeftChild") ({[off]} ∪ V)).
  destruct (vad_walk f2 (child off t "LeftChild") ({[off]} ∪ V)) as [l v2].
  simpl in *.
  pose proof (size_difference_mono (dom m) ({[off]} ∪ V) v2 ltac:(done)).
  rewrite (IH f2 (child off t "RightChild")) by (apply child_node_valid || lia). done.
Qed.

Lemma vad_walk_spec f node V out V' :
  vad_walk f node V = (out, V') ->
  NoDup out /\ (forall x, x ∈ out -> x ∉ V) /\ (forall x, x ∈ V' <-> x ∈ V \/ x ∈ out).
Proof.
  revert node V out V'; induction f as [|f IH]; intros node V out V'; simpl.
  { intros [= <- <-]. split; [constructor|set_solver]. }
  destruct node as [[off t]|]; [|intros [= <- <-]; split; [constructor|set_solver]].
  case_decide as Hv; [intros [= <- <-]; split; [constructor|set_solver]|].
  destruct (vad_walk f (child off t "LeftChild") ({[off]} ∪ V)) as [l v2] eqn:El.
  destruct (vad_walk f (child off t "RightChild") v2) as [r v3] eqn:Er.
  intros [= <- <-].
  apply IH in El as (Hl1 & Hl2 & Hl3). apply IH in Er as (Hr1 & Hr2 & Hr3).
  split; [|split].
  - constructor.
    + rewrite elem_of_app. intros [H|H]; [apply Hl2 in H|apply Hr2 in H]; set_solver.
    + apply NoDup_app. split; [done|]. split; [|done].
      intros x Hx1 Hx2. apply Hr2 in Hx2. set_solver.
  - intros x. rewrite elem_of_cons, elem_of_app.
    intros [->|[H|H]]; [done|apply Hl2 in H|apply Hr2 in H]; set_solver.
  - intros x. rewrite Hr3, Hl3, elem_of_cons, elem_of_app. set_solver.
Qed.

(** A node is recognised when [mmvad_new] builds it at its own offset. *)
Definition node_recognized (node : maybe (Z * vad_type)) : Prop :=
  forall o t, node = Obj (o, t) -> mmvad_new o = Obj (o, t).

Lemma vad_walk_recognized f node V x :
  node_recognized node -> x ∈ (vad_walk f node V).1 -> exists t, mmvad_new x = Obj (x, t).
Proof.
  revert node V; induction f as [|f IH]; intros node V Hn; simpl; [set_solver|].
  destruct node as [[off t]|]; [|set_solver]. case_decide; [set_solver|].
  pose proof (IH (child off t "LeftChild") ({[off]} ∪ V)) as IHl.
  destruct (vad_walk f (child off t "LeftChild") ({[off]} ∪ V)) as [l v2].
  pose proof (IH (child off t "RightChild") v2) as IHr.
  destruct (vad_walk f (child off t "RightChild") v2) as [r v3]. simpl in *.
  rewrite elem_of_cons, elem_of_app. intros [->|[Hx|Hx]]; eauto.
  - apply IHl; [|done]. intros o t' Ho. by eapply child_obj.
  - apply IHr; [|done]. intros o t' Ho. by eapply child_obj.
Qed.

Lemma traverse_with_fuel f1 f2 root :
  (size m < f1)%nat -> (size m < f2)%nat -> traverse_with f1 root = traverse_with f2 root.
Proof.
  intros H1 H2. destruct root as [off t]. unfold traverse_with.
  pose proof (subseteq_size (dom m ∖ ∅) (dom m) ltac:(set_solver)). rewrite size_dom in *.
  rewrite (vad_walk_fuel f1 f2) by (apply child_node_valid || lia).
  pose proof (vad_walk_visited f2 (child off t "LeftChild") ∅).
  destruct (vad_walk f2 (child off t "LeftChild") ∅) as [l v1]. simpl in *.
  pose proof (subseteq_size (dom m ∖ v1) (dom m) ltac:(set_solver)).
  rewrite size_dom in *.
  rewrite (vad_walk_fuel f1 f2) by (apply child_node_valid || lia). done.
Qed.

(** ** The abstract tree a well-formed VAD image represents *)
Inductive vtree := VLeaf | VNode (off : Z) (t : vad_type) (l r : vtree).

Fixpoint preorder (t : vtree) : list Z :=
  match t with VLeaf => [] | VNode off _ l r => off :: preorder l ++ preorder r end.

Fixpoint represents (node : maybe (Z * vad_type)) (t : vtree) : Prop :=
  match t with
  | VLeaf => is_obj node = false
  | VNode off ty l r =>
      node = Obj (off, ty) /\ represents (child off ty "LeftChild") l
      /\ represents (child off ty "RightChild") r
  end.

Lemma vad_walk_tree t f node V :
  represents node t -> NoDup (preorder t) -> (forall x, x ∈ preorder t -> x ∉ V) ->
  (length (preorder t) < f)%nat ->
  (vad_walk f node V).1 = preorder t /\
  (forall x, x ∈ (vad_walk f node V).2 <-> x ∈ V \/ x ∈ preorder t).
Proof.
  revert f node V; induction t as [|off ty l IHl r IHr]; intros f node V Hr Hnd Hd Hf;
    destruct f as [|f]; simpl in *; try lia.
  - destruct node; [done|]. set_solver.
  - destruct Hr as (-> & Hrl & Hrr). rewrite decide_False by set_solver.
    apply NoDup_cons in Hnd as [Hoff Hnd]. apply NoDup_app in Hnd as (Hndl & Hdisj & Hndr).
    rewrite length_app in Hf.
    destruct (IHl f _ ({[off]} ∪ V) Hrl Hndl) as [Hl1 Hl2]; [set_solver|lia|].
    destruct (vad_walk f (child off ty "LeftChild") ({[off]} ∪ V)) as [l' v2]. simpl in *.
    subst l'.
    destruct (IHr f _ v2 Hrr Hndr) as [Hr1 Hr2]; [|lia|].
    { intros x Hx. rewrite Hl2. specialize (Hdisj x). set_solver. }
    destruct (vad_walk f (child off ty "RightChild") v2) as [r' v3]. simpl in *.
    subst r'. split; [done|]. intros x. rewrite Hr2, Hl2. set_solver.
Qed.
End Vad.

Lemma vad_walk_fresh m p f off t V :
  off ∉ V -> exists rest V', vad_walk m p (S f) (Obj (off, t)) V = (off :: rest, V').
Proof.
  intros Hv. cbn [vad_walk]. rewrite decide_False by done.
  destruct (vad_walk m p f (child m p off t "LeftChild") ({[off]} ∪ V)) as [l v2].
  destruct (vad_walk m p f (child m p off t "RightChild") v2) as [r v3]. eauto.
Qed.

(** Every node of a walk from a recognized root is recognized. *)
Lemma traverse_nodes_recognized m p off t x :
  mmvad_new m p off = Obj (off, t) -> x ∈ traverse m p (off, t) ->
  exists t', mmvad_new m p x = Obj (x, t').
Proof.
  intros Hroot. unfold traverse, traverse_with.
  pose proof (vad_walk_recognized m p (S (size m)) (child m p off t "LeftChild") ∅ x) as Hl.
  destruct (vad_walk m p _ (child m p off t "LeftChild") ∅) as [l v1].
  pose proof (vad_walk_recognized m p (S (size m)) (child m p off t "RightChild") v1 x) as Hr.
  destruct (vad_walk m p _ (child m p off t "RightChild") v1) as [r v3]. simpl in *.
  rewrite elem_of_cons, elem_of_app. intros [->|[Hx|Hx]]; eauto.
  - apply Hl; [|done]. intros o t' Ho. by eapply child_obj.
  - apply Hr; [|done]. intros o t' Ho. by eapply child_obj.
Qed.

(** Below the root, a walk never repeats a node. *)
Lemma traverse_tail_nodup m p root : NoDup (tail (traverse m p root)).
Proof.
  destruct root as [off t]. unfold traverse, traverse_with.
  destruct (vad_walk m p _ (child m p off t "LeftChild") ∅) as [l v1] eqn:E1.
  destruct (vad_walk m p _ (child m p off t "RightChild") v1) as [r v3] eqn:E2. simpl.
  apply vad_walk_spec in E1 as (Hl & _ & Hv1). apply vad_walk_spec in E2 as (Hr & Hd & _).
  apply NoDup_app. split; [done|]. split; [|done].
  intros x Hx1 Hx2. apply Hd in Hx2. apply Hx2, Hv1. by right.
Qed.

(** ** Properties of the VAD tree walk *)

(** C26: tag dispatch.  [_MMVAD.__new__] builds a node exactly when the
    offset is at least 4, is valid, and the tag before it is one of the
    five known tags; the node's type is the tag's. *)
Theorem mmvad_new_spec m p off o t :
  mmvad_new m p off = Obj (o, t) <->
  o = off /\ 4 <= off /\ is_valid_address m off = true /\ (read_tag m p off ≫= tag_map) = Some t.
Proof.
  split.
  - intros H. apply mmvad_new_obj in H as (-> & H4 & Hd & Ht).
    apply is_valid_address_spec in Hd. auto.
  - intros (-> & H4 & Hv & Ht). unfold mmvad_new, mk_object.
    rewrite Hv. destruct (off <? 4) eqn:E; [lia|]. simpl. by rewrite Ht.
Qed.

(** C39: termination.  [traverse] is not cut by its fuel: any fuel above the
    size of the image gives the same walk. *)
Theorem traverse_terminates m p root f :
  (size m < f)%nat -> traverse_with m p f root = traverse m p root.
Proof. intros Hf. apply traverse_with_fuel; lia. Qed.

(** C6: cycle safety below the root.  Whatever the child pointers, no node
    other than the root is yielded twice. *)
Theorem traverse_nodup m p root : NoDup (tail (traverse m p root)).
Proof. apply traverse_tail_nodup. Qed.

(** C23: the root is not protected (divergence from spec §8, "each node at
    most once").  [traverse] never adds the root to [visited], so a child
    pointer back to the root yields the root a second time. *)
Theorem traverse_root_twice m p off t :
  child m p off t "LeftChild" = Obj (off, t) ->
  exists rest, traverse m p (off, t) = off :: off :: rest.
Proof.
  intros H. unfold traverse, traverse_with. rewrite H.
  destruct (vad_walk_fresh m p (size m) off t ∅) as (rest & V' & ->); [set_solver|].
  destruct (vad_walk m p (S (size m)) (child m p off t "RightChild") V') as [r v4].
  by eexists.
Qed.

(** C5: refinement.  On an image that represents a tree with distinct node
    offsets, [traverse] yields the tree's preorder: node, left subtree,
    right subtree. *)
Theorem traverse_tree m p root t :
  represents m p (Obj root) t -> NoDup (preorder t) -> traverse m p root = preorder t.
Proof.
  intros Hr Hnd. destruct t as [|off ty l r]; [done|]. destruct Hr as ([= ->] & Hl & Hr).
  pose (f := S (size m + length (preorder l) + length (preorder r))).
  assert (Hf : (size m < f /\ length (preorder l) < f /\ length (preorder r) < f)%nat) by lia.
  clearbody f. rewrite <- (traverse_terminates m p _ f) by lia. unfold traverse_with.
  simpl in Hnd. apply NoDup_cons in Hnd as [Hoff Hnd].
  apply NoDup_app in Hnd as (Hndl & Hdisj & Hndr).
  destruct (vad_walk_tree m p l f _ ∅ Hl Hndl) as [Hl1 Hl2]; [set_solver|lia|].
  destruct (vad_walk m p f (child m p off ty "LeftChild") ∅) as [l' v1]. simpl in *. subst l'.
  destruct (vad_walk_tree m p r f _ v1 Hr Hndr) as [Hr1 _]; [|lia|].
  { intros x Hx. rewrite Hl2. specialize (Hdisj x). set_solver. }
  destruct (vad_walk m p f (child m p off ty "RightChild") v1) as [r' v2]. simpl in *.
  by subst r'.
Qed.

(** safety.  Starting from a node built by [_MMVAD.__new__], every node
    [traverse] yields is itself a valid node with a known tag: a node with
    an unknown tag or an invalid pointer is never yielded. *)
Theorem traverse_recognized m p off t x :
  mmvad_new m p off = Obj (off, t) -> x ∈ traverse m p (off, t) ->
  exists t', mmvad_new m p x = Obj (x, t').
Proof. apply traverse_nodes_recognized. Qed.

(** the guards of [get_data].  Either it returns the empty string, or
    both ends of the region are present, the start is at most
    [0xFFFFFFFF], the end at most [0xFFFFFFFF << 12], and it returns the
    [zread] of the [end - start + 1] bytes of the region. *)
Theorem get_data_bounds m p vad :
  get_data m p vad = [] \/
  exists s e, get_start m p vad = Obj s /\ get_end m p vad = Obj e /\
    s <= 0xFFFFFFFF /\ e <= Z.shiftl 0xFFFFFFFF 12 /\
    get_data m p vad = zread m s (e - s + 1) /\ length (get_data m p vad) = Z.to_nat (e - s + 1).
Proof.
  unfold get_data. destruct (get_start m p vad) as [s|], (get_end m p vad) as [e|];
    simpl; rewrite ?orb_true_r; try by left.
  destruct (Z.ltb_spec 0xFFFFFFFF s), (Z.ltb_spec (Z.shiftl 0xFFFFFFFF 12) e); simpl; try by left.
  right. exists s, e. repeat split; try done. apply length_zread.
Qed.

(** ** Concrete images

    Tags are stored as little-endian words: ["VadS"] is [0x53646156],
    ["Vadl"] [0x6c646156], ["VadF"] [0x46646156], and ["Vadx"]
    ([0x78646156]) is unknown.  [vad_tree]: a root [0x1000] with children
    [0x2000] and [0x3000]; the right child of [0x2000] is [0x4000], whose
    tag is unknown.  [vad_loop]: the root's left child is the root. *)
Definition vad_tree : mem :=
  store32 ∅ [(0xffc, 0x53646156); (0x1000, 0x10); (0x1004, 0x1f);
             (0x100c, 0x2000); (0x1010, 0x3000);
             (0x1ffc, 0x6c646156); (0x2000, 0x20); (0x2004, 0x2f);
             (0x200c, 0); (0x2010, 0x4000);
             (0x2ffc, 0x46646156); (0x3000, 0x30); (0x3004, 0x3f);
             (0x300c, 0); (0x3010, 0);
             (0x3ffc, 0x78646156); (0x4000, 0x40); (0x400c, 0x1000); (0x4010, 0)].

Definition vad_loop : mem :=
  store32 ∅ [(0xffc, 0x53646156); (0x1000, 0); (0x100c, 0x1000); (0x1010, 0)].

Definition vad_tree_shape : vtree :=
  VNode 0x1000 MMVAD_SHORT (VNode 0x2000 MMVAD_LONG VLeaf VLeaf)
        (VNode 0x3000 MMVAD_SHORT VLeaf VLeaf).

Example mmvad_new_unknown_tag :
  mmvad_new vad_tree xp_x86 0x4000 = NoneObject "Tag not known".
Proof. vm_compute. reflexivity. Qed.

Lemma traverse_terminates_witness :
  traverse_with vad_tree xp_x86 100 (0x1000, MMVAD_SHORT)
  = traverse vad_tree xp_x86 (0x1000, MMVAD_SHORT).
Proof. apply traverse_terminates. vm_compute. lia. Defined.

Lemma traverse_root_twice_witness :
  exists rest, traverse vad_loop xp_x86 (0x1000, MMVAD_SHORT) = 0x1000 :: 0x1000 :: rest.
Proof. apply traverse_root_twice. vm_compute. reflexivity. Defined.

Lemma traverse_tree_witness :
  traverse vad_tree xp_x86 (0x1000, MMVAD_SHORT) = [0x1000; 0x2000; 0x3000].
Proof.
  apply (traverse_tree vad_tree xp_x86 (0x1000, MMVAD_SHORT) vad_tree_shape);
    [cbn [represents vad_tree_shape]; repeat split; vm_compute; reflexivity | decide_vm].
Defined.

Lemma traverse_recognized_witness :
  exists t', mmvad_new vad_tree xp_x86 0x3000 = Obj (0x3000, t').
Proof.
  apply (traverse_recognized vad_tree xp_x86 0x1000 MMVAD_SHORT 0x3000);
    [vm_compute; reflexivity | decide_vm].
Defined.

(** [big_vad]: a node at [0x1000] whose region runs from page [0] to page
    [0xFFFFFFFE]. *)
Definition big_vad : mem :=
  store32 ∅ [(0xffc, 0x53646156); (0x1000, 0); (0x1004, 0xFFFFFFFE)].

(** C37: the guards of [get_data] on page numbers.  For a node whose
    [StartingVpn] [s] is a page below [2^20] (so the start address passes
    the first guard) and whose [EndingVpn] is [e], [get_data] reads the
    [(e + 1 - s) * 4096] bytes of the region exactly when [e <= 0xFFFFFFFE]:
    the end guard compares the end address with [0xFFFFFFFF << 12], so a
    region may run far past the 32-bit address space (code bug). *)
Theorem get_data_pages m p vad s e :
  field m (member p (vad_type_name vad.2) "StartingVpn" vad.1) 4 = Obj s ->
  field m (member p (vad_type_name vad.2) "EndingVpn" vad.1) 4 = Obj e ->
  0 <= s <= 0xFFFFF -> 0 <= e ->
  get_data m p vad = if e <=? 0xFFFFFFFE then zread m (s * 4096) ((e + 1 - s) * 4096) else [].
Proof.
  intros Hs He Hsb Heb. unfold get_data, get_start, get_end. rewrite Hs, He.
  autorewrite with volr. rewrite !Z.shiftl_mul_pow2 by lia. cbn [py_gt].
  change (2 ^ 12) with 4096.
  rewrite (proj2 (Z.ltb_ge _ _)) by lia. cbn [orb].
  destruct (Z.leb_spec e 0xFFFFFFFE).
  - rewrite (proj2 (Z.ltb_ge _ _)) by lia. f_equal. lia.
  - rewrite (proj2 (Z.ltb_lt _ _)) by lia. reflexivity.
Qed.

Lemma get_data_pages_witness :
  get_data big_vad xp_x86 (0x1000, MMVAD_SHORT)
  = zread big_vad (0 * 4096) ((0xFFFFFFFE + 1 - 0) * 4096).
Proof.
  rewrite (get_data_pages big_vad xp_x86 (0x1000, MMVAD_SHORT) 0 0xFFFFFFFE);
    [reflexivity | vm_compute; reflexivity | vm_compute; reflexivity | lia | lia].
Defined.

