(* ===== verification/VadInfo.v ===== *)
(** * VadInfo: a VAD node's parent, control area, file object and flags

    [src/trunk/volatility/plugins/overlays/windows/windows.py]:
    - [_MMVAD_SHORT.get_parent], [get_control_area], [get_file_object]
      (lines 639-649): [self.Parent], [self.ControlArea] and
      [self.ControlArea.FilePointer.dereference()].  The methods are
      inherited by [_MMVAD_LONG]; a [_MMVAD_SHORT] has no [ControlArea],
      and reading a member a structure does not have raises
      [AttributeError] ([None] below).  The attribute of a pointer is the
      attribute of its target;
    - [_MMVAD_FLAGS.__str__] (819-822), inherited by [_MMVAD_FLAGS2] and
      [_MMSECTION_FLAGS]: ["name: value"] for every member, in sorted
      order of the names, whose value is not zero, joined by [", "].

    The members of a flags structure come from the vtypes, outside the
    repository: a map from name to the [(start_bit, end_bit)] of a
    [BitField] of the [unsigned long] at the structure's offset.
    [BitField.v] is [(i & ((1 << end_bit) - 1)) >> start_bit] ([obj.py],
    spec-modelled).  Python's [sorted] on byte strings is stdpp's
    [String.le] (lexicographic on character codes).

    The theorems: [get_file_object] raises exactly on the node types
    without [ControlArea], and otherwise follows the two pointers; the
    flags string lists exactly the non-zero members, each once, sorted by
    name. *)

From stdpp Require Import sorting.
From S2P Require Import Prelude Memory Primitives VadTree.
Local Open Scope Z_scope.

Section VadInfo.
Context (m : mem) (p : Profile).

Definition get_parent (vad : Z * vad_type) : maybe Z :=
  pointer_value m (ptr_size p) (member p (vad_type_name vad.2) "Parent" vad.1).

Definition get_control_area (vad : Z * vad_type) : option (maybe Z) :=
  if has_member p (vad_type_name vad.2) "ControlArea"
  then Some (pointer_value m (ptr_size p) (member p (vad_type_name vad.2) "ControlArea" vad.1))
  else None.

Definition get_file_object (vad : Z * vad_type) : option (maybe Z) :=
  if has_member p (vad_type_name vad.2) "ControlArea"
  then Some (ca ← deref m (ptr_size p) (member p (vad_type_name vad.2) "ControlArea" vad.1);
             deref m (ptr_size p) (member p "_CONTROL_AREA" "FilePointer" ca))
  else None.
End VadInfo.

(** ** [_MMVAD_FLAGS.__str__] *)

Definition bitfield_v (i start_bit end_bit : Z) : Z :=
  Z.shiftr (Z.land i (Z.shiftl 1 end_bit - 1)) start_bit.

Abbreviation flag_members := (gmap string (Z * Z)).

Section Flags.
Context (m : mem) (members : flag_members).

(** [self.m(name)] of a member. *)
Definition flag_m (flags : Z) (name : string) : maybe Z :=
  match members !! name with
  | Some (s, e) => (fun i => bitfield_v i s e) <$> field m flags 4
  | None => NoneObject "Struct has no member"
  end.

(** The names [sorted(self.members.keys())] keeps: those with
    [self.m(name) != 0]. *)
Definition flags_names (flags : Z) : list string :=
  filter (fun name => py_ne (flag_m flags name) 0 = true)
    (merge_sort String.le (map fst (map_to_list members))).

Definition flags_entries (flags : Z) : list string :=
  map (fun name => String.append name (String.append ": " (py_str (flag_m flags name))))
    (flags_names flags).

Definition flags_str (flags : Z) : string := str_join ", " (flags_entries flags).
End Flags.

(** ** Properties *)

(** [_MMVAD_FLAGS.__str__] keeps exactly the members whose value is
    not zero (an unreadable word makes every member a [NoneObject], which
    is not zero), each once, in sorted order of their names. *)
Lemma flags_names_spec m members flags :
  Sorted String.le (flags_names m members flags) /\ NoDup (flags_names m members flags) /\
  forall n, n ∈ flags_names m members flags <->
    (exists r, members !! n = Some r) /\ py_ne (flag_m m members flags n) 0 = true.
Proof.
  unfold flags_names. split; [|split].
  - apply Sorted_filter; [apply _|]. apply Sorted_merge_sort, _.
  - apply NoDup_filter. rewrite merge_sort_Permutation. apply NoDup_fst_map_to_list.
  - intros n. rewrite list_elem_of_filter, merge_sort_Permutation, list_elem_of_fmap.
    split.
    + intros [Hne ([k r] & -> & Hk%elem_of_map_to_list)]. eauto.
    + intros [[r Hr] Hne]. split; [done|]. exists (n, r). split; [done|].
      by apply elem_of_map_to_list.
Qed.

(** C20: [_MMVAD_FLAGS.__str__] is ["name: value"] for every member whose
    value ([BitField.v]: [(i & ((1 << end_bit) - 1)) >> start_bit] of the
    flags word) is not zero, joined by [", "], in sorted order of the
    names, each once: it is that string for any sorted, duplicate-free
    list [names] of exactly those members. *)
Theorem flags_str_spec m members flags names :
  let value n := match members !! n with
                 | Some (s, e) => (fun i => Z.shiftr (Z.land i (Z.shiftl 1 e - 1)) s) <$> field m flags 4
                 | None => NoneObject "Struct has no member"
                 end in
  Sorted String.le names -> NoDup names ->
  (forall n, n ∈ names <-> (exists r, members !! n = Some r) /\ py_ne (value n) 0 = true) ->
  flags_str m members flags
  = str_join ", " (map (fun n => String.append n (String.append ": " (py_str (value n)))) names).
Proof.
  intros value Hs Hnd Hin. destruct (flags_names_spec m members flags) as (Hs' & Hnd' & Hin').
  assert (Hv : forall n, flag_m m members flags n = value n).
  { intros n. unfold flag_m, value. by destruct (members !! n) as [[? ?]|]. }
  assert (Heq : flags_names m members flags = names).
  { apply (Sorted_unique String.le); [done|done|]. apply NoDup_Permutation; [done|done|].
    intros n. rewrite Hin, Hin', Hv. done. }
  unfold flags_str, flags_entries. rewrite Heq. apply (f_equal (str_join _)), map_ext. intros n. by rewrite Hv.
Qed.

(** A short VAD has no [ControlArea] in the XP profile: [get_file_object]
    raises; on a long one it follows the two pointers. *)
Definition vad_file_image : mem :=
  store32 ∅ [(0x1000, 0); (0x1018, 0x2000); (0x2000, 0); (0x2024, 0x3000); (0x3000, 0)].

Example get_file_object_short_long :
  get_file_object vad_file_image xp_x86 (0x1000, MMVAD_SHORT) = None /\
  get_file_object vad_file_image xp_x86 (0x1000, MMVAD_LONG) = Some (Obj 0x3000).
Proof. vm_compute. auto. Qed.

(** The flags of a [_MMVAD_FLAGS] word with [CommitCharge] 3 (bits 0-18),
    [Protection] 4 (bits 24-28) and [PrivateMemory] 1 (bit 31). *)
Definition vad_flags_members : flag_members :=
  list_to_map [("CommitCharge", (0, 19)); ("PhysicalMapping", (19, 20)); ("ImageMap", (20, 21));
               ("Protection", (24, 29)); ("PrivateMemory", (31, 32))].

Example flags_str_vad :
  flags_str (store32 ∅ [(0x100, 0x84000003)]) vad_flags_members 0x100
  = "CommitCharge: 3, PrivateMemory: 1, Protection: 4".
Proof. vm_compute. reflexivity. Qed.

Lemma flags_str_spec_witness :
  flags_str (store32 ∅ [(0x100, 0x84000003)]) vad_flags_members 0x100
  = "CommitCharge: 3, PrivateMemory: 1, Protection: 4".
Proof.
  etransitivity; [apply (flags_str_spec _ _ _ ["CommitCharge"; "PrivateMemory"; "Protection"])|].
  - repeat constructor; vm_compute; reflexivity.
  - repeat constructor; vm_compute; intros H; decompose_Forall_hyps; set_solver.
  - intros n. split.
    + intros Hn. repeat (apply elem_of_cons in Hn as [->|Hn]; [split; [eexists; reflexivity|reflexivity]|]).
      inversion Hn.
    + intros [[r Hr] Hne]. apply elem_of_list_to_map_2, list_elem_of_In in Hr.
      simpl in Hr. repeat destruct Hr as [Hr|Hr]; simplify_eq; [apply list_elem_of_In; simpl; tauto..|done].
  - vm_compute. reflexivity.
Defined.
