(* ===== verification/ObjectHeader.v ===== *)
(** * ObjectHeader: [_OBJECT_HEADER] and [_FILE_OBJECT]

    [src/trunk/volatility/plugins/overlays/windows/windows.py], lines
    491-565:
    - [_OBJECT_HEADER.find_optional_headers] (run by [__init__]) sets, for
      each optional header whose type the profile has, an attribute: the
      sub-record [offset - header_offset] when its offset byte is nonzero,
      else [NoneObject("Header not set")] (spec §4.5);
    - [__init__] (501-507) records the [handle_value] keyword (default
      [0]) as [HandleValue] and runs [find_optional_headers]: the record
      [object_header] is the object it leaves, with its parent;
    - [GrantedAccess] is the parent handle-table entry's;
      [dereference_as] builds the object at [Body]; [get_object_type]
      reads the name of the [_OBJECT_TYPE] that [Type] points to;
    - [_FILE_OBJECT.file_name_with_device] prefixes the file name with
      [\Device\] and the name of the device object's header;
      [access_string] renders the six access flags.

    Attributes are an association list: an attribute that
    [find_optional_headers] did not set is absent, and reading it raises
    [AttributeError] ([None] below).  [str()] of a UTF-16 [String] object
    belongs to [obj.String], outside the repository: it is the parameter
    [utf16_str], [None] when [str] raises; [str(NoneObject)] is [""].
    [_UNICODE_STRING.v] and [__unicode__] (lines 158-166, 189-190) are
    here for the same reason, with [__format__] (183-184) over
    [NoneObject.__format__] as a parameter; [__unicode__] agrees with
    [__str__]. *)

From S2P Require Import Prelude Memory Primitives.
Local Open Scope Z_scope.

(** [_OBJECT_HEADER.optional_headers]. *)
Definition optional_headers : list (string * string) :=
  [("NameInfo", "_OBJECT_HEADER_NAME_INFO");
   ("HandleInfo", "_OBJECT_HEADER_HANDLE_INFO");
   ("QuotaInfo", "_OBJECT_HEADER_QUOTA_INFO")].

Section ObjectHeader.
Context (m : mem) (p : Profile).

(** The header [name] at [offset - header_offset] when the one-byte
    [<name>Offset] is true. *)
Definition optional_header_at (hdr : Z) (name : string) : maybe Z :=
  match field m (member p "_OBJECT_HEADER" (String.append name "Offset") hdr) 1 with
  | Obj ho => if ho =? 0 then NoneObject "Header not set" else mk_object m (hdr - ho)
  | NoneObject _ => NoneObject "Header not set"
  end.

(** The attributes [find_optional_headers] sets, in order. *)
Definition find_optional_headers (hdr : Z) : list (string * maybe Z) :=
  omap (fun nt : string * string =>
          if has_type p nt.2 then Some (nt.1, optional_header_at hdr nt.1) else None)
    optional_headers.

(** Reading attribute [name] of an attribute list: [None] is
    [AttributeError]. *)
Definition attr_lookup (attrs : list (string * maybe Z)) (name : string) : option (maybe Z) :=
  snd <$> list_find (fun a => a.1 = name) attrs ≫= fun ia => Some ia.2.

Definition optional_header (hdr : Z) (name : string) : option (maybe Z) :=
  attr_lookup (find_optional_headers hdr) name.

(** An [_OBJECT_HEADER] object as [__init__] leaves it: its offset, the
    [HandleValue] it was given (keyword [handle_value], [0] by default),
    its parent object, and the attributes [find_optional_headers] set. *)
Record object_header := mk_object_header {
  oh_offset : Z;
  HandleValue : Z;
  oh_parent : option Z;
  oh_attrs : list (string * maybe Z)
}.

(** [_OBJECT_HEADER.__init__]. *)
Definition object_header_new (hdr : Z) (handle_value : option Z) (parent : option Z) : object_header :=
  mk_object_header hdr (default 0 handle_value) parent (find_optional_headers hdr).

Definition header_attr (o : object_header) (name : string) : option (maybe Z) :=
  attr_lookup (oh_attrs o) name.

(** [GrantedAccess]: [parent] is the [_HANDLE_TABLE_ENTRY] the header was
    built from, if any; a [CType] parent is true when valid. *)
Definition granted_access (parent : option Z) : maybe Z :=
  match parent with
  | Some e =>
      if is_valid_address m e then field m (member p "_HANDLE_TABLE_ENTRY" "GrantedAccess" e) 4
      else NoneObject "No parent known"
  | None => NoneObject "No parent known"
  end.

(** [GrantedAccess] of a header object. *)
Definition header_granted_access (o : object_header) : maybe Z := granted_access (oh_parent o).

Definition header_dereference_as (hdr : Z) : maybe Z :=
  mk_object m (member p "_OBJECT_HEADER" "Body" hdr).

(** [get_object_type]: [obj.Object("_OBJECT_TYPE", self.Type)] then
    [Name.v()]. *)
Definition get_object_type (hdr : Z) : maybe (Z * Z) :=
  t ← pointer_value m (ptr_size p) (member p "_OBJECT_HEADER" "Type" hdr);
  o ← mk_object m t;
  unicode_dereference m p (member p "_OBJECT_TYPE" "Name" o).

(** ** [_FILE_OBJECT] *)

Context (utf16_str : Z -> Z -> option string).

(** [str()] of the [_UNICODE_STRING] at [us]: [str(self.dereference())]. *)
Definition unicode_str (us : Z) : option string :=
  match unicode_dereference m p us with
  | Obj (buf, len) => utf16_str buf len
  | NoneObject _ => Some ""
  end.

(** [v()]: [unicode(data)] of the dereferenced [String] when it is true,
    else [data] itself: the absent value, or the empty string. *)
Definition unicode_v (us : Z) : option (maybe string) :=
  match unicode_dereference m p us with
  | Obj (buf, len) => s ← utf16_str buf len; Some (Obj s)
  | NoneObject r => Some (NoneObject r)
  end.

(** [__unicode__]: [unicode(self.dereference())]; [proxied] is
    [str(self)], [unicode_str]. *)
Definition unicode_unicode (us : Z) : option string :=
  match unicode_v us with
  | Some (Obj s) => Some s
  | Some (NoneObject _) => Some ""
  | None => None
  end.

(** [__format__] with the empty format spec: [format(self.v(), "")], the
    text of the string, or what [NoneObject.__format__] ([obj.py],
    outside the repository: the parameter [none_format]) gives for an
    absent one. *)
Definition unicode_format (none_format : string -> string) (us : Z) : option string :=
  match unicode_v us with
  | Some (Obj s) => Some s
  | Some (NoneObject r) => Some (none_format r)
  | None => None
  end.

(** The device part: ["\\Device\\{0}".format(str(object_hdr.NameInfo.Name))]. *)
Definition device_name (fobj : Z) : option string :=
  let dev := member p "_FILE_OBJECT" "DeviceObject" fobj in
  if pointer_nonzero m (ptr_size p) dev then
    match (d ← pointer_value m (ptr_size p) dev;
           mk_object m (d - get_obj_offset p "_OBJECT_HEADER" "Body")) with
    | Obj hdr =>
        match optional_header hdr "NameInfo" with
        | None => None
        | Some (Obj ni) =>
            s ← unicode_str (member p "_OBJECT_HEADER_NAME_INFO" "Name" ni);
            Some (String.append "\Device\" s)
        | Some (NoneObject _) => Some "\Device\"
        end
    | NoneObject _ => Some ""
    end
  else Some "".

Definition file_name_with_device (fobj : Z) : option string :=
  name ← device_name fobj;
  let fname := member p "_FILE_OBJECT" "FileName" fobj in
  if unicode_nonzero m p fname then s ← unicode_str fname; Some (String.append name s)
  else Some name.

(** [(self.<flag> > 0 and "<c>") or '-']. *)
Definition access_char (fobj : Z) (flag c : string) : string :=
  if py_gt (field m (member p "_FILE_OBJECT" flag fobj) 1) (Obj 0) then c else "-".

Definition access_string (fobj : Z) : string :=
  String.concat EmptyString
    [access_char fobj "ReadAccess" "R"; access_char fobj "WriteAccess" "W";
     access_char fobj "DeleteAccess" "D"; access_char fobj "SharedRead" "r";
     access_char fobj "SharedWrite" "w"; access_char fobj "SharedDelete" "d"].
End ObjectHeader.

(** ** Lemmas *)

(** [__unicode__] and [__str__] of a [_UNICODE_STRING] give the same
    text, on every branch. *)
Lemma unicode_unicode_str m p utf16_str us :
  unicode_unicode m p utf16_str us = unicode_str m p utf16_str us.
Proof.
  unfold unicode_unicode, unicode_v, unicode_str.
  destruct (unicode_dereference m p us) as [[buf len]|]; [|done].
  by destruct (utf16_str buf len).
Qed.

(** Each optional header is resolved on its own: its attribute exists
    exactly when the profile has its type, and is then read from its own
    offset byte. *)
Lemma optional_header_eq m p hdr name objtype :
  (name, objtype) ∈ optional_headers ->
  optional_header m p hdr name =
  if has_type p objtype then Some (optional_header_at m p hdr name) else None.
Proof.
  intros Hn. unfold optional_header, find_optional_headers, optional_headers in *.
  destruct (has_type p "_OBJECT_HEADER_NAME_INFO") eqn:E1,
           (has_type p "_OBJECT_HEADER_HANDLE_INFO") eqn:E2,
           (has_type p "_OBJECT_HEADER_QUOTA_INFO") eqn:E3;
  repeat (apply elem_of_cons in Hn as [[= -> ->]|Hn]); try (by apply not_elem_of_nil in Hn);
  simpl; rewrite ?E1, ?E2, ?E3; reflexivity.
Qed.

Lemma optional_header_at_obj m p hdr name o :
  optional_header_at m p hdr name = Obj o <->
  exists ho, read_uint m (member p "_OBJECT_HEADER" (String.append name "Offset") hdr) 1 = Some ho /\
    ho <> 0 /\ o = hdr - ho /\ is_valid_address m o = true.
Proof.
  unfold optional_header_at, field, mk_object.
  destruct (read_uint m _ 1) as [ho|]; simpl; [|split; [discriminate|intros (? & ? & _); discriminate]].
  destruct (Z.eqb_spec ho 0) as [->|Hho].
  - split; [discriminate|]. intros (? & [= <-] & ? & _). done.
  - destruct (is_valid_address m (hdr - ho)) eqn:Ev.
    + split; [intros [= <-]; eauto|]. intros (? & [= <-] & _ & -> & _). done.
    + split; [discriminate|]. intros (? & [= <-] & _ & -> & Hv). congruence.
Qed.

(** ** Properties *)

(** C11: optional sub-record resolution (spec §4.5, §8).  For each of the
    three optional headers: on a profile without its type the attribute is
    never set, whatever the header; otherwise the header resolves to the
    sub-record at [hdr - ho] exactly when its offset byte reads a nonzero
    [ho] and that address is valid, and a zero offset gives an absent
    header, independently of the other two. *)
Theorem optional_header_resolution m p hdr name objtype o :
  (name, objtype) ∈ optional_headers ->
  (has_type p objtype = false -> optional_header m p hdr name = None) /\
  (has_type p objtype = true ->
     (optional_header m p hdr name = Some (Obj o) <->
      exists ho, read_uint m (member p "_OBJECT_HEADER" (String.append name "Offset") hdr) 1
                 = Some ho /\ ho <> 0 /\ o = hdr - ho /\ is_valid_address m o = true) /\
     (read_uint m (member p "_OBJECT_HEADER" (String.append name "Offset") hdr) 1 = Some 0 ->
      optional_header m p hdr name = Some (NoneObject "Header not set"))).
Proof.
  intros Hn. rewrite (optional_header_eq _ _ _ _ _ Hn).
  split; [by intros ->|]. intros ->. split.
  - rewrite <- optional_header_at_obj. split; [by intros [= ->]|by intros ->].
  - intros Hz. unfold optional_header_at, field. by rewrite Hz.
Qed.

(** C36: a profile without [_OBJECT_HEADER_NAME_INFO] (spec §4.5 asks for
    the sub-record to be treated as absent) makes
    [file_name_with_device] raise [AttributeError] on any file whose
    device object has a valid header: [find_optional_headers] never set
    [NameInfo], and the method reads it. *)
Theorem file_name_attribute_error m p utf16_str fobj hdr :
  has_type p "_OBJECT_HEADER_NAME_INFO" = false ->
  pointer_nonzero m (ptr_size p) (member p "_FILE_OBJECT" "DeviceObject" fobj) = true ->
  (d ← pointer_value m (ptr_size p) (member p "_FILE_OBJECT" "DeviceObject" fobj);
   mk_object m (d - get_obj_offset p "_OBJECT_HEADER" "Body")) = Obj hdr ->
  file_name_with_device m p utf16_str fobj = None.
Proof.
  intros Ht Hd Hh. unfold file_name_with_device, device_name. rewrite Hd, Hh.
  rewrite (optional_header_eq m p hdr "NameInfo" "_OBJECT_HEADER_NAME_INFO"), Ht; [done|].
  by left.
Qed.

(** ** A concrete file object

    [file_image]: a [_FILE_OBJECT] at [0x5000] whose device object body is
    at [0x6018] (its header at [0x6000], with a name header [0x10] bytes
    before it naming the device [Disk]), and whose file name is [\log].
    [utf16_ascii] decodes UTF-16 text whose characters are ASCII. *)
Fixpoint evens (bs : list Z) : list Z :=
  match bs with b :: _ :: bs' => b :: evens bs' | _ => [] end.

Definition utf16_ascii (m : mem) (buf len : Z) : option string :=
  bytes_to_string ∘ evens <$> read_bytes m buf (Z.to_nat len).

Definition file_image : mem :=
  store32 ∅ [(0x5000, 0); (0x5004, 0x6018); (0x5030, 8); (0x5034, 0x7100);
             (0x5ff0, 0); (0x5ff4, 8); (0x5ff8, 0x7000);
             (0x6000, 0); (0x600c, 0x10); (0x6018, 0);
             (0x7000, 0x690044); (0x7004, 0x6b0073);
             (0x7100, 0x6c005c); (0x7104, 0x67006f)].

(** A profile of the test layout without [_OBJECT_HEADER_NAME_INFO]. *)
Definition no_name_info : Profile :=
  Build_Profile (ptr_size xp_x86) (get_obj_size xp_x86) (get_obj_offset xp_x86)
    (fun t => negb (bool_decide (t = "_OBJECT_HEADER_NAME_INFO"))) (has_member xp_x86).

Example file_name_with_device_disk :
  file_name_with_device file_image xp_x86 (utf16_ascii file_image) 0x5000
  = Some "\Device\Disk\log".
Proof. vm_compute. reflexivity. Qed.

Lemma optional_header_resolution_witness :
  (has_type xp_x86 "_OBJECT_HEADER_NAME_INFO" = false ->
   optional_header file_image xp_x86 0x6000 "NameInfo" = None) /\
  (has_type xp_x86 "_OBJECT_HEADER_NAME_INFO" = true ->
     (optional_header file_image xp_x86 0x6000 "NameInfo" = Some (Obj 0x5ff0) <->
      exists ho, read_uint file_image
                   (member xp_x86 "_OBJECT_HEADER" (String.append "NameInfo" "Offset") 0x6000) 1
                 = Some ho /\ ho <> 0 /\ 0x5ff0 = 0x6000 - ho /\
                 is_valid_address file_image 0x5ff0 = true) /\
     (read_uint file_image
        (member xp_x86 "_OBJECT_HEADER" (String.append "NameInfo" "Offset") 0x6000) 1 = Some 0 ->
      optional_header file_image xp_x86 0x6000 "NameInfo" = Some (NoneObject "Header not set"))).
Proof. apply optional_header_resolution. by left. Defined.

Lemma file_name_attribute_error_witness :
  file_name_with_device file_image no_name_info (utf16_ascii file_image) 0x5000 = None.
Proof. apply (file_name_attribute_error _ _ _ _ 0x6000); vm_compute; reflexivity. Defined.
