(* ===== verification/HandleTable.v ===== *)
(** * HandleTable: [_HANDLE_TABLE.handles], the multi-level table walk

    [src/trunk/volatility/plugins/overlays/windows/windows.py], class
    [_HANDLE_TABLE] (lines 399-489).  [TableCode] packs the number of
    levels in its low 3 bits.  A page of level [> 0] is an array of
    pointers to pages one level down; a page of level 0 is an array of
    [_HANDLE_TABLE_ENTRY].  Each page holds [0x1000 / size] entries and is
    read up to its first invalid entry ([break]).  A leaf entry's handle
    value is [(entry - page) / (entry_size / 4) + depth * count * 4], where
    [depth] is a counter local to each call, incremented after each page
    of the level above a leaf.

    [make_handle_array] recurses on the level (structural, so it
    terminates); [level_loop] is the [for entry in table] loop of a
    non-leaf page, threading the local [depth]; [leaf_page] is the loop of
    a leaf page.  [get_item] builds the [_OBJECT_HEADER] object of
    [ObjectHeader] with the handle value and the entry as its parent;
    handles are returned as (its [HandleValue], its offset). *)

From S2P Require Import Prelude Memory Primitives ObjectHeader.
Local Open Scope Z_scope.

Definition LEVEL_MASK : Z := 7.

Section HandleTable.
Context (m : mem) (p : Profile).

Definition entry_size : Z := get_obj_size p "_HANDLE_TABLE_ENTRY".

(** [count = 0x1000 / get_obj_size(targetType)]. *)
Definition table_count (level : nat) : Z :=
  0x1000 / (if level is O then entry_size else get_obj_size p "address").

(** The entries of the [Array] at [offset], up to the first invalid one. *)
Fixpoint take_valid (es : list Z) : list Z :=
  match es with
  | [] => []
  | e :: es' => if is_valid_address m e then e :: take_valid es' else []
  end.

Definition page_entries (level : nat) (offset : Z) : list Z :=
  take_valid (map (fun i => offset + i * (if level is O then entry_size
                                         else get_obj_size p "address"))
                  (seqZ 0 (table_count level))).

(** [entry.Object.dereference_as("_OBJECT_HEADER", ...)]: the header
    the entry's fast reference points to. *)
Definition item_header (entry : Z) : maybe Z :=
  fast_ref_dereference_as m p (member p "_HANDLE_TABLE_ENTRY" "Object" entry).

(** [get_item(entry, handle_value)]: the header object, built with
    [parent = entry] and [handle_value]. *)
Definition get_item (entry handle_value : Z) : maybe object_header :=
  (fun hdr => object_header_new m p hdr (Some handle_value) (Some entry)) <$> item_header entry.

(** [item.TypeIndex != 0x0], or [item.Type.Name] when the profile's
    [_OBJECT_HEADER] has no [TypeIndex] ([AttributeError]).  An unreadable
    [TypeIndex] is a [NoneObject], and [NoneObject != 0] is [True]. *)
Definition header_in_use (hdr : Z) : bool :=
  if has_member p "_OBJECT_HEADER" "TypeIndex" then
    match read_uint m (member p "_OBJECT_HEADER" "TypeIndex" hdr) 1 with
    | Some v => negb (v =? 0)
    | None => true
    end
  else
    match deref m (ptr_size p) (member p "_OBJECT_HEADER" "Type" hdr) with
    | Obj ty => unicode_nonzero m p (member p "_OBJECT_TYPE" "Name" ty)
    | NoneObject _ => false
    end.

Definition handle_multiplier : Z := 4.

(** The handle value of the leaf [entry] of the page at [offset]. *)
Definition handle_value (offset depth entry : Z) : Z :=
  (entry - offset) / (entry_size / handle_multiplier)
  + depth * table_count O * handle_multiplier.

(** The loop over a leaf page: [continue] on a [NoneObject] item, yield
    the in-use headers, each as its [HandleValue] and offset. *)
Definition leaf_page (offset depth : Z) : list (Z * Z) :=
  flat_map (fun entry =>
              match get_item entry (handle_value offset depth entry) with
              | NoneObject _ => []
              | Obj item => if header_in_use (oh_offset item)
                            then [(HandleValue item, oh_offset item)] else []
              end)
           (page_entries O offset).

(** The loop over a page of level [> 0]: recurse into each entry's page
    with the current [depth], then [depth += 1]. *)
Fixpoint level_loop (rec : Z -> Z -> list (Z * Z)) (es : list Z) (depth : Z)
  : list (Z * Z) :=
  match es with
  | [] => []
  | e :: es' =>
      match pointer_value m (ptr_size p) e with
      | Obj sub => rec sub depth
      | NoneObject _ => []
      end ++ level_loop rec es' (depth + 1)
  end.

(** [_make_handle_array(offset, level, depth)]; [if table:] is the
    validity of the page's first byte. *)
Fixpoint make_handle_array (level : nat) (offset depth : Z) : list (Z * Z) :=
  if is_valid_address m offset then
    match level with
    | O => leaf_page offset depth
    | S l => level_loop (make_handle_array l) (page_entries level offset) depth
    end
  else [].

(** [handles()]. *)
Definition handles (ht : Z) : list (Z * Z) :=
  match pointer_value m (ptr_size p) (member p "_HANDLE_TABLE" "TableCode" ht) with
  | Obj tc => make_handle_array (Z.to_nat (Z.land tc LEVEL_MASK)) (tc &~ LEVEL_MASK) 0
  | NoneObject _ => []
  end.
End HandleTable.

(** A leaf page in terms of the headers the entries point to. *)
Lemma leaf_page_headers m p offset depth :
  leaf_page m p offset depth =
  flat_map (fun entry =>
              match item_header m p entry with
              | NoneObject _ => []
              | Obj hdr => if header_in_use m p hdr
                           then [(handle_value p offset depth entry, hdr)] else []
              end)
           (page_entries m p O offset).
Proof.
  unfold leaf_page. apply flat_map_ext. intros e.
  unfold get_item. destruct (item_header m p e); reflexivity.
Qed.

(** ** Handle values of one- and two-level tables *)
Section HandleTheorems.
Context (m : mem) (p : Profile).
(** A handle table entry is a multiple of 4 bytes and fits in a page. *)
Hypothesis entry_size_ok : exists k, entry_size p = 4 * k /\ 1 <= k <= 1024.

Local Notation c := (table_count p O).

Lemma table_count_pos : 1 <= c.
Proof.
  destruct entry_size_ok as [k [Hk Hk']]. unfold table_count. rewrite Hk.
  apply Z.div_le_lower_bound; lia.
Qed.

Lemma handle_value_pos off d i :
  handle_value p off d (off + i * entry_size p) = 4 * i + 4 * c * d.
Proof.
  destruct entry_size_ok as [k [Hk Hk']]. unfold handle_value, handle_multiplier.
  rewrite Hk. replace (off + i * (4 * k) - off) with ((4 * i) * k) by ring.
  rewrite (Z.mul_comm 4 k), Z.div_mul, Z.div_mul by lia. lia.
Qed.

(** The handle values of a leaf page are a sublist of the OS index
    sequence [4 * i + 4 * c * depth], [i < c]. *)
Lemma leaf_page_sublist off d :
  map fst (leaf_page m p off d) `sublist_of` map (fun i => 4 * i + 4 * c * d) (seqZ 0 c).
Proof.
  rewrite leaf_page_headers. unfold page_entries. simpl. generalize (seqZ 0 c) as ixs.
  induction ixs as [|i ixs IH]; simpl; [constructor|].
  destruct (is_valid_address m (off + i * entry_size p)); simpl; [|apply sublist_nil_l].
  destruct (item_header m p (off + i * entry_size p)) as [item|]; simpl; [|by apply sublist_cons].
  destruct (header_in_use m p item); simpl; [|by apply sublist_cons].
  rewrite handle_value_pos. by apply sublist_skip.
Qed.

Definition in_block (d : Z) (h : Z) : Prop := 4 * c * d <= h < 4 * c * (d + 1).

Lemma leaf_page_block off d h : h ∈ map fst (leaf_page m p off d) -> in_block d h.
Proof.
  intros Hh. eapply elem_of_sublist in Hh; [|apply leaf_page_sublist].
  apply list_elem_of_fmap in Hh as (i & -> & Hi). apply elem_of_seqZ in Hi.
  unfold in_block. nia.
Qed.

Lemma leaf_page_nodup off d : NoDup (map fst (leaf_page m p off d)).
Proof.
  eapply sublist_NoDup; [|apply leaf_page_sublist].
  apply NoDup_fmap_2_strong; [intros; lia|apply NoDup_seqZ].
Qed.

Lemma leaf_page_elem off d hv hdr :
  (hv, hdr) ∈ leaf_page m p off d ->
  exists i, 0 <= i < c /\ hv = 4 * i + 4 * c * d /\
    item_header m p (off + i * entry_size p) = Obj hdr /\ header_in_use m p hdr = true.
Proof.
  rewrite leaf_page_headers. unfold page_entries. simpl.
  assert (Hix : forall i, i ∈ seqZ 0 c -> 0 <= i < c) by (intros i; rewrite elem_of_seqZ; lia).
  revert Hix. generalize (seqZ 0 c) as ixs.
  induction ixs as [|i ixs IH]; intros Hix; simpl; [set_solver|].
  destruct (is_valid_address m (off + i * entry_size p)); simpl; [|set_solver].
  rewrite elem_of_app.
  intros [Hh|Hh]; [|apply IH; [set_solver|done]].
  destruct (item_header m p (off + i * entry_size p)) as [item|] eqn:Eg; [|set_solver].
  destruct (header_in_use m p item) eqn:Eu; [|set_solver].
  apply list_elem_of_singleton in Hh. injection Hh as -> ->.
  exists i. rewrite handle_value_pos. split; [set_solver|auto].
Qed.

Lemma make_handle_array_0_block off d h :
  h ∈ map fst (make_handle_array m p 0 off d) -> in_block d h.
Proof.
  simpl. destruct (is_valid_address m off); [apply leaf_page_block|set_solver].
Qed.

Lemma make_handle_array_0_nodup off d : NoDup (map fst (make_handle_array m p 0 off d)).
Proof.
  simpl. destruct (is_valid_address m off); [apply leaf_page_nodup|constructor].
Qed.

Section Loop.
Context (rec : Z -> Z -> list (Z * Z)).
Hypothesis rec_block : forall sub d h, h ∈ map fst (rec sub d) -> in_block d h.
Hypothesis rec_nodup : forall sub d, NoDup (map fst (rec sub d)).

Lemma level_loop_lower es d h :
  h ∈ map fst (level_loop m p rec es d) -> 4 * c * d <= h.
Proof.
  pose proof table_count_pos.
  revert d; induction es as [|e es IH]; intros d; simpl; [set_solver|].
  rewrite map_app, elem_of_app. intros [Hh|Hh].
  - destruct (pointer_value m (ptr_size p) e) as [sub|]; [|set_solver].
    apply rec_block in Hh. unfold in_block in Hh. lia.
  - apply IH in Hh. nia.
Qed.

Lemma level_loop_nodup es d : NoDup (map fst (level_loop m p rec es d)).
Proof.
  revert d; induction es as [|e es IH]; intros d; simpl; [constructor|].
  rewrite map_app. apply NoDup_app. split; [|split; [|apply IH]].
  - destruct (pointer_value m (ptr_size p) e) as [sub|]; [apply rec_nodup|constructor].
  - intros h Hh1 Hh2. apply level_loop_lower in Hh2.
    destruct (pointer_value m (ptr_size p) e) as [sub|]; [|set_solver].
    apply rec_block in Hh1. unfold in_block in Hh1. lia.
Qed.
End Loop.

Lemma level_loop_elem rec es d x :
  x ∈ level_loop m p rec es d ->
  exists j e sub, es !! j = Some e /\ pointer_value m (ptr_size p) e = Obj sub /\
    x ∈ rec sub (d + Z.of_nat j).
Proof.
  revert d; induction es as [|e es IH]; intros d; simpl; [set_solver|].
  rewrite elem_of_app. intros [Hx|Hx].
  - destruct (pointer_value m (ptr_size p) e) as [sub|] eqn:E; [|set_solver].
    exists 0%nat, e, sub. rewrite Z.add_0_r. auto.
  - destruct (IH _ Hx) as (j & e' & sub & Hj & He & Hs).
    exists (S j), e', sub. split; [done|]. split; [done|].
    by replace (d + Z.of_nat (S j)) with (d + 1 + Z.of_nat j) by lia.
Qed.
End HandleTheorems.

(** ** Where a handle comes from, at any depth *)
Section Origin.
Context (m : mem) (p : Profile).




End Origin.

(** ** Properties of [handles] *)

(** C8: uniqueness for one- and two-level tables.  When the handle table
    entry size is a multiple of 4 within a page and [TableCode] announces
    at most two levels, no handle value is reported twice. *)
Theorem handles_nodup m p ht tc :
  (exists k, entry_size p = 4 * k /\ 1 <= k <= 1024) ->
  pointer_value m (ptr_size p) (member p "_HANDLE_TABLE" "TableCode" ht) = Obj tc ->
  Z.land tc LEVEL_MASK <= 1 ->
  NoDup (map fst (handles m p ht)).
Proof.
  intros Hk Htc Hl. unfold handles. rewrite Htc.
  assert (0 <= Z.land tc LEVEL_MASK) by (apply Z.land_nonneg; right; unfold LEVEL_MASK; lia).
  destruct (Z.to_nat (Z.land tc LEVEL_MASK)) as [|[|n]] eqn:E; [| |lia].
  - by apply make_handle_array_0_nodup.
  - simpl. destruct (is_valid_address m (tc &~ LEVEL_MASK)); [|constructor].
    apply (level_loop_nodup m p Hk).
    + intros sub d h Hh. exact (make_handle_array_0_block m p Hk sub d h Hh).
    + intros sub d. exact (make_handle_array_0_nodup m p Hk sub d).
Qed.

(** C7: index correctness for two-level tables.  Every handle of a
    two-level table is [4 * (j * count + i)] for the [i]-th entry of the
    leaf page the [j]-th top entry points to, and its header is that
    entry's in-use object. *)
Theorem handles_two_level_index m p ht tc hv hdr :
  (exists k, entry_size p = 4 * k /\ 1 <= k <= 1024) ->
  pointer_value m (ptr_size p) (member p "_HANDLE_TABLE" "TableCode" ht) = Obj tc ->
  Z.land tc LEVEL_MASK = 1 ->
  (hv, hdr) ∈ handles m p ht ->
  exists j top sub i,
    page_entries m p 1 (tc &~ LEVEL_MASK) !! j = Some top /\
    pointer_value m (ptr_size p) top = Obj sub /\
    0 <= i < table_count p O /\ hv = 4 * (Z.of_nat j * table_count p O + i) /\
    item_header m p (sub + i * entry_size p) = Obj hdr /\ header_in_use m p hdr = true.
Proof.
  intros Hk Htc Hl. unfold handles. rewrite Htc, Hl. simpl.
  destruct (is_valid_address m (tc &~ LEVEL_MASK)); [|set_solver].
  intros (j & top & sub & Hj & Htop & Hx)%level_loop_elem.
  simpl in Hx. destruct (is_valid_address m sub); [|set_solver].
  apply (leaf_page_elem m p Hk) in Hx as (i & Hi & -> & Hg & Hu).
  exists j, top, sub, i. repeat split; auto; first [lia | done].
  all: exact Hk.
Qed.

(** C24: the index of three-level tables (code bug).  [depth] is a local of
    each call: the top loop passes its own counter [i] to the [i]-th
    middle table, whose loop adds its own counter [j].  A handle of the
    [k]-th entry is [4 * (k + count * (i + j))], where the OS numbers it
    [4 * (k + count * (i * count1 + j))] with [count1] pages per middle
    table. *)
Theorem handles_three_level_index m p ht tc hv hdr :
  (exists k, entry_size p = 4 * k /\ 1 <= k <= 1024) ->
  pointer_value m (ptr_size p) (member p "_HANDLE_TABLE" "TableCode" ht) = Obj tc ->
  Z.land tc LEVEL_MASK = 2 ->
  (hv, hdr) ∈ handles m p ht ->
  exists i top mid j e leaf k,
    page_entries m p 2 (tc &~ LEVEL_MASK) !! i = Some top /\
    pointer_value m (ptr_size p) top = Obj mid /\
    page_entries m p 1 mid !! j = Some e /\ pointer_value m (ptr_size p) e = Obj leaf /\
    0 <= k < table_count p O /\
    hv = 4 * (k + table_count p O * (Z.of_nat i + Z.of_nat j)) /\
    item_header m p (leaf + k * entry_size p) = Obj hdr.
Proof.
  intros Hk Htc Hl. unfold handles. rewrite Htc, Hl. simpl.
  destruct (is_valid_address m (tc &~ LEVEL_MASK)); [|set_solver].
  intros (i & top & mid & Hi & Htop & Hx)%level_loop_elem.
  simpl in Hx. destruct (is_valid_address m mid); [|set_solver].
  apply level_loop_elem in Hx as (j & e & leaf & Hj & He & Hx).
  simpl in Hx. destruct (is_valid_address m leaf); [|set_solver].
  apply (leaf_page_elem m p Hk) in Hx as (k & Hkr & -> & Hg & _).
  exists i, top, mid, j, e, leaf, k. repeat split; auto; first [lia | done].
  all: exact Hk.
Qed.


(** ** Concrete images

    Object headers at [0x60000], [0x61000], [0x62000] whose [Type] points
    to an [_OBJECT_TYPE] at [0x70000] with a non-empty name.  [handles2]: a
    two-level table ([TableCode = 0x10001]) whose top page points to leaf
    pages [0x40000] (two entries, the first with fast-reference count 1)
    and [0x41000] (one entry).  [handles3]: a three-level table
    ([TableCode = 0x10002]) whose top page points to middle pages
    [0x20000] (leaf pages [0x40000], [0x41000]) and [0x30000] (leaf page
    [0x50000]). *)
Definition object_headers : list (Z * Z) :=
  [(0x60000, 0); (0x60008, 0x70000); (0x61000, 0); (0x61008, 0x70000);
   (0x62000, 0); (0x62008, 0x70000);
   (0x70000, 0); (0x70040, 8); (0x70044, 0x70100); (0x70100, 0x41)].

Definition handles2 : mem :=
  store32 ∅ ([(0x100, 0x10001); (0x10000, 0x40000); (0x10004, 0x41000);
              (0x40000, 0x60001); (0x40004, 0); (0x40008, 0x61000); (0x4000c, 0);
              (0x41000, 0x62000); (0x41004, 0)] ++ object_headers).

Definition handles3 : mem :=
  store32 ∅ ([(0x100, 0x10002); (0x10000, 0x20000); (0x10004, 0x30000);
              (0x20000, 0x40000); (0x20004, 0x41000); (0x30000, 0x50000);
              (0x40000, 0x60000); (0x40004, 0); (0x41000, 0x61000); (0x41004, 0);
              (0x50000, 0x62000); (0x50004, 0)] ++ object_headers).

Lemma xp_x86_entry_size : exists k, entry_size xp_x86 = 4 * k /\ 1 <= k <= 1024.
Proof. exists 2. split; [reflexivity|lia]. Qed.

Example handles2_run :
  handles handles2 xp_x86 0x100 = [(0, 0x60000); (4, 0x61000); (2048, 0x62000)].
Proof. vm_compute. reflexivity. Qed.

(** The three-level collision.  In [handles3] the first
    entry of the second leaf page of the first middle table and the first
    entry of the first leaf page of the second middle table are both
    reported as handle [2048]. *)
Example handles_three_level_collision :
  handles handles3 xp_x86 0x100 = [(0, 0x60000); (2048, 0x61000); (2048, 0x62000)] /\
  ~ NoDup (map fst (handles handles3 xp_x86 0x100)).
Proof.
  assert (H : handles handles3 xp_x86 0x100 = [(0, 0x60000); (2048, 0x61000); (2048, 0x62000)])
    by (vm_compute; reflexivity).
  split; [exact H|]. rewrite H. simpl. intros Hnd.
  apply NoDup_cons in Hnd as [_ Hnd]. apply NoDup_cons in Hnd as [Hn _].
  apply Hn, list_elem_of_singleton. reflexivity.
Qed.

Lemma handles_nodup_witness : NoDup (map fst (handles handles2 xp_x86 0x100)).
Proof.
  apply (handles_nodup handles2 xp_x86 0x100 0x10001);
    [exact xp_x86_entry_size|vm_compute; reflexivity|cbv -[Z.le]; lia].
Defined.

Lemma handles_two_level_index_witness :
  exists j top sub i,
    page_entries handles2 xp_x86 1 (0x10001 &~ LEVEL_MASK) !! j = Some top /\
    pointer_value handles2 (ptr_size xp_x86) top = Obj sub /\
    0 <= i < table_count xp_x86 O /\ 2048 = 4 * (Z.of_nat j * table_count xp_x86 O + i) /\
    item_header handles2 xp_x86 (sub + i * entry_size xp_x86) = Obj 0x62000 /\
    header_in_use handles2 xp_x86 0x62000 = true.
Proof.
  apply (handles_two_level_index handles2 xp_x86 0x100 0x10001 2048 0x62000);
    [exact xp_x86_entry_size|vm_compute; reflexivity|vm_compute; reflexivity|decide_vm].
Defined.

Lemma handles_three_level_index_witness :
  exists i top mid j e leaf k,
    page_entries handles3 xp_x86 2 (0x10002 &~ LEVEL_MASK) !! i = Some top /\
    pointer_value handles3 (ptr_size xp_x86) top = Obj mid /\
    page_entries handles3 xp_x86 1 mid !! j = Some e /\
    pointer_value handles3 (ptr_size xp_x86) e = Obj leaf /\
    0 <= k < table_count xp_x86 O /\
    2048 = 4 * (k + table_count xp_x86 O * (Z.of_nat i + Z.of_nat j)) /\
    item_header handles3 xp_x86 (leaf + k * entry_size xp_x86) = Obj 0x62000.
Proof.
  apply (handles_three_level_index handles3 xp_x86 0x100 0x10002 2048 0x62000);
    [exact xp_x86_entry_size|vm_compute; reflexivity|vm_compute; reflexivity|decide_vm].
Defined.

