(* ===== verification/KeyBody.v ===== *)
(** * KeyBody: the registry key path of [_CM_KEY_BODY]

    [src/trunk/volatility/plugins/overlays/windows/windows.py], lines
    806-817: [_CM_KEY_BODY.full_key_name] climbs the [ParentKcb] pointers
    of the key control blocks, collecting each block's name, and joins the
    names from the top down with a backslash.

    The loop is [while kcb.ParentKcb], with no set of visited blocks: unlike
    the list and tree walks (spec §4.6), it has no cycle guard.  The loop
    is modelled twice: [key_walk] runs it with fuel ([None] when the fuel is
    spent), and [key_step] is its small-step relation on [kstate].  The
    theorems show the loop ends when the chain of control blocks does not
    revisit a block, and that a block whose parent is itself keeps the
    loop running forever. *)

From S2P Require Import Prelude Memory Primitives.
Local Open Scope Z_scope.

Section KeyBody.
Context (m : mem) (p : Profile).

(** [kcb.ParentKcb], dereferenced; its truth is [Pointer.__nonzero__]. *)
Definition parent_kcb (kcb : Z) : maybe Z :=
  deref m (ptr_size p) (member p "_CM_KEY_CONTROL_BLOCK" "ParentKcb" kcb).

(** [kcb.NameBlock.Name]: a [String] of [NameLength] bytes (overlay line 96);
    a [NoneObject] when the name block cannot be read. *)
Definition kcb_name (kcb : Z) : maybe string :=
  nb ← deref m (ptr_size p) (member p "_CM_KEY_CONTROL_BLOCK" "NameBlock" kcb);
  len ← of_option "Unable to read NameLength"
          (read_uint m (member p "_CM_NAME_CONTROL_BLOCK" "NameLength" nb) 2);
  of_option "Unable to read Name"
    (read_string m (member p "_CM_NAME_CONTROL_BLOCK" "Name" nb) (Z.to_nat len)).

(** [return "\\".join(reversed(output))]. *)
Definition key_join (output : list string) : string := str_join "\" (rev output).

(** The [while] loop, with [fuel] iterations at most. *)
Fixpoint key_walk (fuel : nat) (kcb : Z) (output : list string) : option string :=
  match fuel with
  | O => None
  | S fuel' =>
      match parent_kcb kcb with
      | NoneObject _ => Some (key_join output)
      | Obj parent =>
          match kcb_name kcb with
          | NoneObject _ => Some (key_join output)
          | Obj name => key_walk fuel' parent (output ++ [name])
          end
      end
  end.

(** [full_key_name]: [kcb = self.KeyControlBlock], then the loop.  A
    [NoneObject] control block has a false [ParentKcb]: the result is
    the empty name. *)
Definition full_key_name (fuel : nat) (kb : Z) : option string :=
  match deref m (ptr_size p) (member p "_CM_KEY_BODY" "KeyControlBlock" kb) with
  | NoneObject _ => Some (key_join [])
  | Obj kcb => key_walk fuel kcb []
  end.

(** The control blocks the loop visits, with [fuel] iterations at most. *)
Fixpoint kcb_chain (fuel : nat) (kcb : Z) : list Z :=
  match fuel with
  | O => []
  | S fuel' =>
      kcb :: match parent_kcb kcb, kcb_name kcb with
             | Obj parent, Obj _ => kcb_chain fuel' parent
             | _, _ => []
             end
  end.

(** ** The loop as a step relation *)

Inductive kstate : Type :=
| Running (kcb : Z) (output : list string)
| Returned (name : string).

Inductive key_step : kstate -> kstate -> Prop :=
| step_append kcb output parent name :
    parent_kcb kcb = Obj parent -> kcb_name kcb = Obj name ->
    key_step (Running kcb output) (Running parent (output ++ [name]))
| step_no_parent kcb output r :
    parent_kcb kcb = NoneObject r ->
    key_step (Running kcb output) (Returned (key_join output))
| step_break kcb output parent r :
    parent_kcb kcb = Obj parent -> kcb_name kcb = NoneObject r ->
    key_step (Running kcb output) (Returned (key_join output)).

(** [eventually P s]: every run from [s] reaches a state in [P]. *)
Inductive eventually (P : kstate -> Prop) : kstate -> Prop :=
| eventually_done s : P s -> eventually P s
| eventually_step s :
    (exists s', key_step s s') -> (forall s', key_step s s' -> eventually P s') ->
    eventually P s.

Definition returned (s : kstate) : Prop := exists name, s = Returned name.

(** ** Lemmas *)

Lemma key_step_det s s1 s2 : key_step s s1 -> key_step s s2 -> s1 = s2.
Proof. intros H1 H2. destruct H1; inversion H2; congruence. Qed.

Lemma key_walk_sound f kcb output name :
  key_walk f kcb output = Some name ->
  eventually (eq (Returned name)) (Running kcb output).
Proof.
  revert kcb output; induction f as [|f IH]; intros kcb output H; simpl in H; [done|].
  destruct (parent_kcb kcb) as [parent|r] eqn:Ep;
    [destruct (kcb_name kcb) as [n|r] eqn:En|].
  - pose proof (step_append _ output _ _ Ep En) as Hs.
    apply eventually_step; [eauto|]. intros s' Hs'.
    rewrite (key_step_det _ _ _ Hs' Hs). by apply IH.
  - pose proof (step_break _ output _ _ Ep En) as Hs. injection H as <-.
    apply eventually_step; [eauto|]. intros s' Hs'.
    rewrite (key_step_det _ _ _ Hs' Hs). by apply eventually_done.
  - pose proof (step_no_parent _ output _ Ep) as Hs. injection H as <-.
    apply eventually_step; [eauto|]. intros s' Hs'.
    rewrite (key_step_det _ _ _ Hs' Hs). by apply eventually_done.
Qed.

(** When the fuel runs out, the loop has visited [fuel] blocks. *)
Lemma key_walk_out_of_fuel f kcb output :
  key_walk f kcb output = None -> length (kcb_chain f kcb) = f.
Proof.
  revert kcb output; induction f as [|f IH]; intros kcb output H; simpl in *; [done|].
  destruct (parent_kcb kcb); [|done]. destruct (kcb_name kcb); [|done].
  f_equal. by eapply IH.
Qed.

(** Every block the loop moves to is a valid address of the image. *)
Lemma kcb_chain_valid f kcb x :
  x ∈ kcb_chain f kcb -> x = kcb \/ x ∈ dom m.
Proof.
  revert kcb; induction f as [|f IH]; intros kcb Hx; simpl in Hx; [inversion Hx|].
  apply elem_of_cons in Hx as [->|Hx]; [by left|right].
  destruct (parent_kcb kcb) as [parent|] eqn:Ep; [|inversion Hx].
  destruct (kcb_name kcb); [|inversion Hx].
  destruct (IH _ Hx) as [->|]; [|done]. by eapply deref_valid.
Qed.

(** A chain of [size m + 2] blocks, all distinct, cannot exist. *)
Lemma kcb_chain_full_dup kcb :
  length (kcb_chain (S (S (size m))) kcb) = S (S (size m)) ->
  ~ NoDup (kcb_chain (S (S (size m))) kcb).
Proof.
  intros Hlen Hnd. remember (kcb_chain (S (S (size m))) kcb) as l eqn:El.
  destruct l as [|k l]; [done|]. apply NoDup_cons in Hnd as [Hk Hnd].
  assert (Hl : forall x, x ∈ l -> x ∈ dom m).
  { intros x Hx. assert (Hx' : x ∈ k :: l) by by apply elem_of_cons; right.
    rewrite El in Hx'. destruct (kcb_chain_valid _ _ _ Hx') as [->|]; [|done].
    simpl in El. injection El as -> _. contradiction. }
  pose proof (nodup_length_size _ _ Hnd Hl) as Hs. rewrite size_dom in Hs.
  simpl in Hlen. lia.
Qed.
End KeyBody.

(** ** Properties *)

(** C12: liveness.  When the control blocks the loop of [full_key_name]
    climbs through are all distinct (checked on its first [size m + 2]
    blocks, more than the image holds), the loop ends: within [size m + 2]
    iterations [key_walk] returns a name, and every run of the step
    relation from the loop's start reaches that name. *)
Theorem key_walk_terminates m p kcb output :
  NoDup (kcb_chain m p (S (S (size m))) kcb) ->
  exists name, key_walk m p (S (S (size m))) kcb output = Some name /\
    eventually m p (eq (Returned name)) (Running kcb output).
Proof.
  intros Hnd. destruct (key_walk m p (S (S (size m))) kcb output) as [name|] eqn:E.
  - exists name. split; [done|]. by eapply key_walk_sound.
  - exfalso. apply (kcb_chain_full_dup m p kcb); [|done].
    by eapply key_walk_out_of_fuel.
Qed.

(** C25: divergence.  [full_key_name] has no cycle guard: a control block
    whose [ParentKcb] points to itself, with a readable name, keeps the
    [while] loop appending that name forever.  No run of the step relation
    returns, and no fuel is enough for [key_walk]. *)
Theorem key_walk_self_loop m p kcb name output :
  parent_kcb m p kcb = Obj kcb -> kcb_name m p kcb = Obj name ->
  ~ eventually m p (returned) (Running kcb output) /\
  forall f, key_walk m p f kcb output = None.
Proof.
  intros Hp Hn. split.
  - intros Hev. remember (Running kcb output) as s eqn:Es. revert output Es.
    induction Hev as [s [name' ->]|s _ _ IH]; intros output Es; [discriminate|subst s].
    apply (IH _ (step_append m p _ output _ _ Hp Hn) (output ++ [name])). done.
  - intros f. revert output. induction f as [|f IH]; intros output; simpl; [done|].
    by rewrite Hp, Hn.
Qed.

(** ** Concrete images

    [key_image]: the key body at [0x100] points to the control block of
    [SOFTWARE] at [0x1000], whose parent is [MACHINE] at [0x2000], whose
    parent is the hive root [REGISTRY] at [0x3000] (null [ParentKcb]).
    [loop_image]: a control block at [0x1000] that is its own parent. *)
Definition store_name (m : mem) (nb : Z) (s : string) : mem :=
  write_bytes (write_uint m (nb + 12) 2 (Z.of_nat (String.length s))) (nb + 14) (ascii_bytes s).

Definition key_image : mem :=
  store_name (store_name (store_name
    (store32 ∅ [(0x104, 0x1000);
                (0x1000, 0); (0x1018, 0x2000); (0x101c, 0x5000);
                (0x2000, 0); (0x2018, 0x3000); (0x201c, 0x6000);
                (0x3000, 0); (0x3018, 0); (0x301c, 0x7000);
                (0x5000, 0); (0x6000, 0); (0x7000, 0)])
    0x5000 "SOFTWARE") 0x6000 "MACHINE") 0x7000 "REGISTRY".

Definition loop_image : mem :=
  store_name (store32 ∅ [(0x1000, 0); (0x1018, 0x1000); (0x101c, 0x5000); (0x5000, 0)]) 0x5000 "LOOP".

(** The root's own name is not part of the path: the loop stops at the
    block with no parent before appending its name. *)
Example full_key_name_machine_software :
  full_key_name key_image xp_x86 10 0x100 = Some "MACHINE\SOFTWARE".
Proof. vm_compute. reflexivity. Qed.

Lemma key_walk_terminates_witness :
  exists name, key_walk key_image xp_x86 (S (S (size key_image))) 0x1000 [] = Some name /\
    eventually key_image xp_x86 (eq (Returned name)) (Running 0x1000 []).
Proof. apply (key_walk_terminates key_image xp_x86 0x1000 []). decide_vm. Defined.

Lemma key_walk_self_loop_witness :
  ~ eventually loop_image xp_x86 returned (Running 0x1000 []) /\
  forall f, key_walk loop_image xp_x86 f 0x1000 [] = None.
Proof.
  apply (key_walk_self_loop loop_image xp_x86 0x1000 "LOOP" []);
    vm_compute; reflexivity.
Defined.
