(* ===== verification/PE.v ===== *)
(** * PE: the DOS, NT and section headers of a PE image

    [src/trunk/volatility/plugins/overlays/windows/windows.py], lines
    757-804:
    - [_IMAGE_DOS_HEADER.get_nt_header] checks the [MZ] signature, follows
      [e_lfanew] to the NT header and checks its [PE] signature, raising
      [ValueError] on either mismatch;
    - [_IMAGE_NT_HEADERS.get_sections] is a generator over the
      [NumberOfSections] section headers that follow the optional header;
      unless [unsafe], each section is checked by
      [_IMAGE_SECTION_HEADER.sanity_check_section] before it is yielded;
    - [sanity_check_section] raises [ValueError] when the section's virtual
      address, virtual size or raw size exceeds the image size.

    Exceptions are values of [pe_result].  A generator that raises after
    yielding is a pair: the list of what it yielded and the exception that
    stopped it, if any.

    Comparisons on absent fields are [Memory.py_ne] and [Memory.py_gt]. *)

From S2P Require Import Prelude Memory Primitives.
Local Open Scope Z_scope.

(** The exceptions these methods raise. *)
Inductive exn : Type :=
| ValueError (msg : string)
| TypeError (msg : string).

Inductive pe_result (A : Type) : Type :=
| PEOk (a : A)
| PERaise (e : exn).
Arguments PEOk {A} a.
Arguments PERaise {A} e.

Section PE.
Context (m : mem) (p : Profile).
Local Notation field := (field m).

(** ** [_IMAGE_DOS_HEADER.get_nt_header] *)
Definition get_nt_header (dos : Z) : pe_result Z :=
  if py_ne (field (member p "_IMAGE_DOS_HEADER" "e_magic" dos) 2) 0x5a4d then
    PERaise (ValueError "e_magic is not a valid DOS signature.")
  else
    let nt_header :=
      lfanew ← of_option "Unable to read e_lfanew"
                 (read_int m (member p "_IMAGE_DOS_HEADER" "e_lfanew" dos) 4);
      mk_object m (lfanew + dos) in
    let signature := nt ← nt_header; field (member p "_IMAGE_NT_HEADERS" "Signature" nt) 4 in
    if py_ne signature 0x4550 then
      PERaise (ValueError "NT header signature is not a valid")
    else
      match nt_header with
      | Obj nt => PEOk nt
      | NoneObject _ => PERaise (ValueError "NT header signature is not a valid")
      end.

(** ** [_IMAGE_SECTION_HEADER.sanity_check_section]

    [image_size] is [self.obj_parent.OptionalHeader.SizeOfImage], the
    parent being the NT header.  The checks run in the source's order; the
    result is the exception raised, if any. *)
Definition image_size (nt : Z) : maybe Z :=
  field (member p "_IMAGE_OPTIONAL_HEADER" "SizeOfImage"
           (member p "_IMAGE_NT_HEADERS" "OptionalHeader" nt)) 4.

(** [Misc.VirtualSize] is the first member of the [Misc] union. *)
Definition sanity_check_section (nt sect : Z) : option exn :=
  let isz := image_size nt in
  if py_gt (field (member p "_IMAGE_SECTION_HEADER" "VirtualAddress" sect) 4) isz then
    Some (ValueError "VirtualAddress is past the end of image.")
  else if py_gt (field (member p "_IMAGE_SECTION_HEADER" "Misc" sect) 4) isz then
    Some (ValueError "VirtualSize is larger than image size.")
  else if py_gt (field (member p "_IMAGE_SECTION_HEADER" "SizeOfRawData" sect) 4) isz then
    Some (ValueError "SizeOfRawData is larger than image size.")
  else None.

(** ** [_IMAGE_NT_HEADERS.get_sections] *)

Definition sect_size : Z := get_obj_size p "_IMAGE_SECTION_HEADER".

(** The [for i in range(...)] loop from index [i], [n] iterations left.
    A [NoneObject] section has no [sanity_check_section] to raise. *)
Fixpoint sections_from (unsafe : bool) (nt start_addr i : Z) (n : nat)
  : list (maybe Z) * option exn :=
  match n with
  | O => ([], None)
  | S n' =>
      let sect := mk_object m (start_addr + i * sect_size) in
      let check :=
        match sect with
        | Obj s => if unsafe then None else sanity_check_section nt s
        | NoneObject _ => None
        end in
      match check with
      | Some e => ([], Some e)
      | None => let '(l, e) := sections_from unsafe nt start_addr (i + 1) n' in (sect :: l, e)
      end
  end.

Definition start_addr (nt : Z) : maybe Z :=
  sz ← field (member p "_IMAGE_FILE_HEADER" "SizeOfOptionalHeader"
                (member p "_IMAGE_NT_HEADERS" "FileHeader" nt)) 2;
  Obj (sz + member p "_IMAGE_NT_HEADERS" "OptionalHeader" nt).

Definition number_of_sections (nt : Z) : maybe Z :=
  field (member p "_IMAGE_FILE_HEADER" "NumberOfSections"
           (member p "_IMAGE_NT_HEADERS" "FileHeader" nt)) 2.

(** An absent [NumberOfSections] or [SizeOfOptionalHeader] makes the
    arithmetic or [range] fail with a [TypeError] on the first [next].
    For an absent [SizeOfOptionalHeader] this takes the arithmetic of
    [NoneObject] (in [obj.py], outside the repository) to raise; the
    model does not follow a [NoneObject] that absorbs the addition. *)
Definition get_sections (unsafe : bool) (nt : Z) : list (maybe Z) * option exn :=
  match start_addr nt, number_of_sections nt with
  | Obj start, Obj n => sections_from unsafe nt start 0 (Z.to_nat n)
  | _, _ => ([], Some (TypeError "unsupported operand type"))
  end.

(** ** Lemmas *)

Lemma sections_from_unsafe nt start i n :
  sections_from true nt start i n
  = (map (fun j => mk_object m (start + j * sect_size)) (seqZ i (Z.of_nat n)), None).
Proof.
  revert i; induction n as [|n IH]; intros i; [done|].
  rewrite Nat2Z.inj_succ, seqZ_cons by lia. simpl.
  replace (Z.pred (Z.succ (Z.of_nat n))) with (Z.of_nat n) by lia.
  destruct (mk_object m _); rewrite IH; do 2 f_equal.
Qed.

(** A run that stops at an exception yielded a prefix of the unchecked
    run, and the section after that prefix is the one that failed. *)
Lemma sections_from_raise nt start i n l e :
  sections_from false nt start i n = (l, Some e) ->
  exists k s, (k < n)%nat /\ l = take k (fst (sections_from true nt start i n)) /\
    mk_object m (start + (i + Z.of_nat k) * sect_size) = Obj s /\
    sanity_check_section nt s = Some e.
Proof.
  revert i l; induction n as [|n IH]; intros i l H; simpl in H; [done|].
  destruct (mk_object m (start + i * sect_size)) as [s|r] eqn:Es.
  - destruct (sanity_check_section nt s) as [e'|] eqn:Ec.
    + injection H as <- <-. exists 0%nat, s. rewrite Z.add_0_r. repeat split; try done; lia.
    + destruct (sections_from false nt start (i + 1) n) as [l' e''] eqn:Er.
      injection H as <- ->. destruct (IH _ _ Er) as (k & s' & Hk & -> & Hs' & Hc).
      exists (S k), s'. rewrite Nat2Z.inj_succ, <- Z.add_1_l, Z.add_assoc.
      simpl. rewrite Es. destruct (sections_from true nt start (i + 1) n). simpl.
      split; [lia|done].
  - destruct (sections_from false nt start (i + 1) n) as [l' e''] eqn:Er.
    injection H as <- ->. destruct (IH _ _ Er) as (k & s' & Hk & -> & Hs' & Hc).
    exists (S k), s'. rewrite Nat2Z.inj_succ, <- Z.add_1_l, Z.add_assoc.
    simpl. rewrite Es. destruct (sections_from true nt start (i + 1) n). simpl.
    split; [lia|done].
Qed.

(** Every section a checked run yields passed [sanity_check_section]. *)
Lemma sections_from_checked nt start i n s :
  Obj s ∈ fst (sections_from false nt start i n) -> sanity_check_section nt s = None.
Proof.
  revert i; induction n as [|n IH]; intros i Hs; simpl in Hs; [inversion Hs|].
  destruct (mk_object m (start + i * sect_size)) as [s'|r] eqn:Es.
  - destruct (sanity_check_section nt s') as [e'|] eqn:Ec; [inversion Hs|].
    destruct (sections_from false nt start (i + 1) n) eqn:Er. simpl in Hs.
    apply elem_of_cons in Hs as [Hs|Hs]; [by injection Hs as ->|].
    apply (IH (i + 1)). by rewrite Er.
  - destruct (sections_from false nt start (i + 1) n) eqn:Er. simpl in Hs.
    apply elem_of_cons in Hs as [Hs|Hs]; [discriminate|].
    apply (IH (i + 1)). by rewrite Er.
Qed.

End PE.

Lemma seqZ_to_nat (i n : Z) : seqZ i (Z.of_nat (Z.to_nat n)) = seqZ i n.
Proof.
  destruct (Z_le_gt_dec 0 n); [by rewrite Z2Nat.id|].
  rewrite Z2Nat.nonpos, !seqZ_nil by lia. done.
Qed.

(** ** Properties *)

(** C32: [get_nt_header] on every branch: it returns the NT header [nt]
    exactly when the DOS signature reads [MZ] ([0x5a4d]), [e_lfanew] reads
    as [lf] with [nt = dos + lf] a valid address, and the NT signature
    there reads [PE\0\0] ([0x4550]); otherwise it raises [ValueError]. *)
Theorem get_nt_header_spec m p dos nt :
  (get_nt_header m p dos = PEOk nt <->
   read_uint m (member p "_IMAGE_DOS_HEADER" "e_magic" dos) 2 = Some 0x5a4d /\
   (exists lf, read_int m (member p "_IMAGE_DOS_HEADER" "e_lfanew" dos) 4 = Some lf /\
               nt = lf + dos) /\
   is_valid_address m nt = true /\
   read_uint m (member p "_IMAGE_NT_HEADERS" "Signature" nt) 4 = Some 0x4550) /\
  (forall e, get_nt_header m p dos = PERaise e -> exists msg, e = ValueError msg).
Proof.
  unfold get_nt_header, field, mk_object. split.
  - destruct (read_uint m (member p "_IMAGE_DOS_HEADER" "e_magic" dos) 2) as [mz|];
      simpl; [|split; [discriminate|intros [? _]; discriminate]].
    destruct (Z.eqb_spec mz 0x5a4d) as [->|Hmz]; simpl;
      [|split; [discriminate|intros [H _]; congruence]].
    destruct (read_int m _ 4) as [lf|]; simpl;
      [|split; [discriminate|intros (_ & (? & ? & _) & _); discriminate]].
    destruct (is_valid_address m (lf + dos)) eqn:Ev; simpl;
      [|split; [discriminate|intros (_ & (? & Hl & ->) & Hv & _); congruence]].
    destruct (read_uint m _ 4) as [sg|] eqn:Es; simpl;
      [|split; [discriminate|intros (_ & (? & Hl & ->) & _ & Hs); congruence]].
    destruct (Z.eqb_spec sg 0x4550) as [->|Hsg]; simpl.
    + split; [intros [= <-]; eauto 10|intros (_ & (? & [= <-] & ->) & _); done].
    + split; [discriminate|intros (_ & (? & [= <-] & ->) & _ & Hs); congruence].
  - intros e. repeat case_match; intros [= <-]; eauto.
Qed.

(** [get_sections] with [unsafe]: when [SizeOfOptionalHeader] and
    [NumberOfSections] read, it yields exactly [NumberOfSections] objects,
    the [i]-th at [start + i * sizeof(_IMAGE_SECTION_HEADER)], and raises
    nothing. *)
Theorem get_sections_unsafe m p nt start n :
  start_addr m p nt = Obj start -> number_of_sections m p nt = Obj n ->
  get_sections m p true nt
  = (map (fun i => mk_object m (start + i * sect_size p)) (seqZ 0 n), None).
Proof.
  intros Hs Hn. unfold get_sections. rewrite Hs, Hn, sections_from_unsafe.
  by rewrite seqZ_to_nat.
Qed.

(** C31: safety of the checked walk.  When the image size reads as [isz],
    every section [get_sections] yields without [unsafe] has a virtual
    address, a virtual size and a raw size that read and are at most
    [isz]. *)
Theorem get_sections_safe_bounds m p nt isz s :
  image_size m p nt = Obj isz -> Obj s ∈ fst (get_sections m p false nt) ->
  forall f, f ∈ ["VirtualAddress"; "Misc"; "SizeOfRawData"] ->
  exists v, read_uint m (member p "_IMAGE_SECTION_HEADER" f s) 4 = Some v /\ v <= isz.
Proof.
  intros Hi Hs f Hf. unfold get_sections in Hs.
  destruct (start_addr m p nt), (number_of_sections m p nt); simpl in Hs;
    try by inversion Hs.
  apply sections_from_checked in Hs. unfold sanity_check_section in Hs. rewrite Hi in Hs.
  repeat case_match; try discriminate.
  repeat (apply elem_of_cons in Hf as [->|Hf]); try by apply py_gt_field_le.
  by apply not_elem_of_nil in Hf.
Qed.

(** C33: the error path of the checked walk.  When [get_sections] without
    [unsafe] raises, either a header field was absent ([TypeError], nothing
    yielded), or it yielded exactly the first [k] sections of the unchecked
    walk and the [k]-th section is the one [sanity_check_section] rejected
    with that exception. *)
Theorem get_sections_raise_prefix m p nt l e :
  get_sections m p false nt = (l, Some e) ->
  (l = [] /\ exists msg, e = TypeError msg) \/
  exists k s, l = take k (fst (get_sections m p true nt)) /\
    fst (get_sections m p true nt) !! k = Some (Obj s) /\
    sanity_check_section m p nt s = Some e.
Proof.
  unfold get_sections. destruct (start_addr m p nt) as [start|], (number_of_sections m p nt) as [n|];
    try (intros [= <- <-]; left; eauto).
  intros H. right. destruct (sections_from_raise m p nt start 0 _ _ _ H) as (k & s & Hk & -> & Hs & Hc).
  exists k, s. split; [done|]. split; [|done].
  rewrite sections_from_unsafe. simpl. rewrite list_lookup_fmap, lookup_seqZ_lt by lia.
  simpl. by rewrite Hs.
Qed.

(** ** Concrete images

    [pe_image]: a DOS header at [0x400000] whose [e_lfanew] is [0x80]; the
    NT header at [0x400080] has two sections after a [0xe0]-byte optional
    header, and an image size of [0x5000].  [pe_bad]: the same image with
    the second section's virtual address past the end of the image. *)
Definition pe_headers : list (Z * Z) :=
  [(0x400000, 0x5a4d); (0x40003c, 0x80);
   (0x400080, 0x4550); (0x400084, 0x20000); (0x400094, 0xe0);
   (0x4000d0, 0x5000);
   (0x400178, 0x7865742e); (0x400180, 0x1000); (0x400184, 0x1000); (0x400188, 0x800)].

Definition pe_image : mem :=
  store32 ∅ (pe_headers ++ [(0x4001a0, 0x7461642e); (0x4001a8, 0x1000);
                            (0x4001ac, 0x2000); (0x4001b0, 0x1000)]).

Definition pe_bad : mem :=
  store32 ∅ (pe_headers ++ [(0x4001a0, 0x7461642e); (0x4001a8, 0x1000);
                            (0x4001ac, 0x9000); (0x4001b0, 0x1000)]).

Example get_nt_header_pe_image : get_nt_header pe_image xp_x86 0x400000 = PEOk 0x400080.
Proof. vm_compute. reflexivity. Qed.

Example get_sections_pe_image :
  get_sections pe_image xp_x86 false 0x400080 = ([Obj 0x400178; Obj 0x4001a0], None).
Proof. vm_compute. reflexivity. Qed.

Lemma get_sections_unsafe_witness :
  get_sections pe_bad xp_x86 true 0x400080
  = (map (fun i => mk_object pe_bad (0x400178 + i * sect_size xp_x86)) (seqZ 0 2), None).
Proof. apply get_sections_unsafe; vm_compute; reflexivity. Defined.

Lemma get_sections_safe_bounds_witness :
  exists v, read_uint pe_image (member xp_x86 "_IMAGE_SECTION_HEADER" "VirtualAddress" 0x4001a0) 4
            = Some v /\ v <= 0x5000.
Proof.
  apply (get_sections_safe_bounds pe_image xp_x86 0x400080 0x5000 0x4001a0);
    [vm_compute; reflexivity|vm_compute; by repeat constructor|by constructor].
Defined.

Lemma get_sections_raise_prefix_witness :
  ([Obj 0x400178] = [] /\ exists msg, ValueError "VirtualAddress is past the end of image."
                                        = TypeError msg) \/
  exists k s, [Obj 0x400178] = take k (fst (get_sections pe_bad xp_x86 true 0x400080)) /\
    fst (get_sections pe_bad xp_x86 true 0x400080) !! k = Some (Obj s) /\
    sanity_check_section pe_bad xp_x86 0x400080 s
    = Some (ValueError "VirtualAddress is past the end of image.").
Proof. apply get_sections_raise_prefix. vm_compute. reflexivity. Defined.
