(* ===== verification/Overlay.v ===== *)
(** * Overlay: the Windows schema overlay and the merge that applies it

    [src/trunk/volatility/plugins/overlays/windows/windows.py]:
    - [windows_overlay] (lines 33-148) fixes up the generated vtypes: magic
      values, timestamps, string lengths, the [_MMVAD] tag before the
      structure, the [_EX_FAST_REF] handle-table object pointer;
    - [WindowsOverlay.modification] (843-844) merges it into the profile;
    - [AbstractKDBGMod.modification] (893-899) merges the KDBG header
      signature into [VOLATILITY_MAGIC].

    The schema and [merge_overlay] live in [obj.py], outside the
    repository: they are modelled from spec §3 and §4.2.  A schema maps a
    structure name to its size and its fields; a field is an offset and a
    type.  Merging a patch leaves an offset or size the patch gives as
    [None] untouched and replaces everything else; a structure absent from
    the base is created from the patch.  The theorems: a merged field
    is the patch's where the patch names it ([merge_overlay_field]), the
    overlay's types reach the merged schema ([overlay_field_types]), and
    the Windows overlay and the KDBG patch both set the KDBG header, so
    the result of merging both depends on their order. *)

From S2P Require Import Prelude Memory.
Local Open Scope Z_scope.

(** ** Type expressions of the vtypes language *)

(** The length or count of a [String] or [array]: a constant, or a
    [lambda x: x.Field] ([LenField]), or [lambda x: x.Field.v() * k]. *)
Inductive length_expr : Type :=
| LenConst (n : Z)
| LenField (f : string)
| LenFieldTimes (f : string) (k : Z).

(** The [value] of a [VolatilityMagic]. *)
Inductive magic_value : Type :=
| MagicStr (s : string)
| MagicInt (n : Z)
| MagicBytes (bs : list Z).

Inductive vtype : Type :=
| VolatilityMagic (value : magic_value) (configname : option string)
| VolatilityDTB (configname : string)
| VolatilityKDBG (configname : string)
| VolatilityIA32ValidAS
| WinTimeStamp (is_utc : bool)
| ThreadCreateTimeStamp
| Native (name : string)
| VString (length : length_expr)
| VPointer (target : vtype)
| VArray (count : length_expr) (target : vtype)
| Named (name : string).

(** A field: its offset ([None], the no-op sentinel, keeps the base's) and
    its type.  A structure: its size ([None] keeps the base's) and fields. *)
Abbreviation field_def := (option Z * vtype)%type.

Record struct_def := mk_struct {
  struct_size : option Z;
  struct_fields : gmap string field_def
}.

Abbreviation schema := (gmap string struct_def).

(** A structure as written in a Python overlay, [[size, {name: [off, type]}]]. *)
Definition mk_struct_l (size : option Z) (fs : list (string * field_def)) : struct_def :=
  mk_struct size (list_to_map fs).

(** ** [windows_overlay] *)
Definition windows_overlay_l : list (string * struct_def) := [
  ("VOLATILITY_MAGIC", mk_struct_l None [
    ("DTBSignature", (Some 0, VolatilityMagic (MagicStr "Volatility DTBSignature unspecified") None));
    ("KUSER_SHARED_DATA", (Some 0, VolatilityMagic (MagicInt 0xFFDF0000) None));
    ("KDBGHeader", (Some 0, VolatilityMagic (MagicStr "Volatility KDBGHeader unspecified") None));
    ("DTB", (Some 0, VolatilityDTB "DTB"));
    ("KPCR", (Some 0, VolatilityMagic (MagicInt 0xffdff000) (Some "KPCR")));
    ("KDBG", (Some 0, VolatilityKDBG "KDBG"));
    ("IA32ValidAS", (Some 0, VolatilityIA32ValidAS));
    ("PoolAlignment", (Some 0, VolatilityMagic (MagicInt 8) None))]);
  ("_EPROCESS", mk_struct_l None [
    ("CreateTime", (None, WinTimeStamp false));
    ("ExitTime", (None, WinTimeStamp false));
    ("InheritedFromUniqueProcessId", (None, Native "unsigned int"));
    ("ImageFileName", (None, VString (LenConst 16)));
    ("UniqueProcessId", (None, Native "unsigned int"))]);
  ("_ETHREAD", mk_struct_l None [
    ("CreateTime", (None, ThreadCreateTimeStamp));
    ("ExitTime", (None, WinTimeStamp false))]);
  ("_OBJECT_SYMBOLIC_LINK", mk_struct_l None [
    ("CreationTime", (None, WinTimeStamp false))]);
  ("_KUSER_SHARED_DATA", mk_struct_l None [
    ("SystemTime", (None, WinTimeStamp true));
    ("TimeZoneBias", (None, WinTimeStamp false))]);
  ("_KPROCESS", mk_struct_l None [
    ("DirectoryTableBase", (None, Native "unsigned long"))]);
  ("_HANDLE_TABLE_ENTRY", mk_struct_l None [
    ("Object", (None, Named "_EX_FAST_REF"))]);
  ("_IMAGE_SECTION_HEADER", mk_struct_l None [
    ("Name", (Some 0, VString (LenConst 8)))]);
  ("_DBGKD_GET_VERSION64", mk_struct_l None [
    ("DebuggerDataList", (None, VPointer (Native "unsigned long")))]);
  ("_CM_KEY_NODE", mk_struct_l None [
    ("Signature", (None, VString (LenConst 2)));
    ("LastWriteTime", (None, WinTimeStamp false));
    ("Name", (None, VString (LenField "NameLength")))]);
  ("_CM_NAME_CONTROL_BLOCK", mk_struct_l None [
    ("Name", (None, VString (LenField "NameLength")))]);
  ("_CHILD_LIST", mk_struct_l None [
    ("List", (None, VPointer (VArray (LenField "Count") (VPointer (Named "_CM_KEY_VALUE")))))]);
  ("_CM_KEY_VALUE", mk_struct_l None [
    ("Signature", (None, VString (LenConst 2)));
    ("Name", (None, VString (LenField "NameLength")))]);
  ("_CM_KEY_INDEX", mk_struct_l None [
    ("Signature", (None, VString (LenConst 2)));
    ("List", (None, VArray (LenFieldTimes "Count" 2) (VPointer (Named "_CM_KEY_NODE"))))]);
  ("_IMAGE_HIBER_HEADER", mk_struct_l None [
    ("Signature", (None, VString (LenConst 4)));
    ("SystemTime", (None, WinTimeStamp false))]);
  ("_PHYSICAL_MEMORY_DESCRIPTOR", mk_struct_l None [
    ("Run", (None, VArray (LenField "NumberOfRuns") (Named "_PHYSICAL_MEMORY_RUN")))]);
  ("_TOKEN", mk_struct_l None [
    ("UserAndGroups", (None, VPointer (VArray (LenField "UserAndGroupCount")
                                              (Named "_SID_AND_ATTRIBUTES"))))]);
  ("_SID", mk_struct_l None [
    ("SubAuthority", (None, VArray (LenField "SubAuthorityCount") (Native "unsigned long")))]);
  ("_CLIENT_ID", mk_struct_l None [
    ("UniqueProcess", (None, Native "unsigned int"));
    ("UniqueThread", (None, Native "unsigned int"))]);
  ("_MMVAD_SHORT", mk_struct_l None [
    ("Tag", (Some (-4), VString (LenConst 4)))]);
  ("_MMVAD_LONG", mk_struct_l None [
    ("Tag", (Some (-4), VString (LenConst 4)))])
].

Definition windows_overlay : schema := list_to_map windows_overlay_l.

(** ** The merge ([Profile.merge_overlay], spec §4.2) *)

Definition merge_field (old : option field_def) (new : field_def) : field_def :=
  match old, new with
  | Some (off, _), (None, t) => (off, t)
  | _, _ => new
  end.

Definition merge_struct (old : option struct_def) (new : struct_def) : struct_def :=
  match old with
  | None => new
  | Some o =>
      mk_struct
        (match struct_size new with Some s => Some s | None => struct_size o end)
        (merge (fun fo fn => match fn with Some f => Some (merge_field fo f) | None => fo end)
           (struct_fields o) (struct_fields new))
  end.

Definition merge_overlay (base overlay : schema) : schema :=
  merge (fun so sn => match sn with Some s => Some (merge_struct so s) | None => so end)
    base overlay.

(** ** [AbstractKDBGMod] *)

Definition kdbgsize : Z := 0x290.

(** [signature]: eight zero bytes on a 32-bit memory model (the default
    when the profile has no [memory_model]), [00 f8 ff ff] otherwise, then
    [KDBG] and the size as a little-endian 16-bit value. *)
Definition kdbg_signature (memory_model : option string) : list Z :=
  (if bool_decide (default "32bit" memory_model = "32bit")
   then [0; 0; 0; 0; 0; 0; 0; 0] else [0; 0xf8; 0xff; 0xff])
  ++ ascii_bytes "KDBG" ++ le_split 2 kdbgsize.

Definition kdbg_overlay (memory_model : option string) : schema :=
  {[ "VOLATILITY_MAGIC" := mk_struct_l None [
       ("KDBGHeader", (None, VolatilityMagic (MagicBytes (kdbg_signature memory_model)) None))] ]}.

(** The two modifications on a profile's schema. *)
Definition windows_overlay_modification (s : schema) : schema := merge_overlay s windows_overlay.
Definition kdbg_modification (memory_model : option string) (s : schema) : schema :=
  merge_overlay s (kdbg_overlay memory_model).

(** The field [f] of structure [n] in a schema. *)
Definition field_of (s : schema) (n f : string) : option field_def :=
  s !! n ≫= fun st => struct_fields st !! f.

(** ** Lemmas on the merge *)

Lemma merge_overlay_field b o n f :
  field_of (merge_overlay b o) n f =
  match field_of o n f with
  | Some fd => Some (merge_field (field_of b n f) fd)
  | None => field_of b n f
  end.
Proof.
  unfold field_of, merge_overlay. rewrite lookup_merge.
  destruct (b !! n) as [sb|], (o !! n) as [so|]; simpl; try reflexivity.
  - rewrite lookup_merge. destruct (struct_fields sb !! f), (struct_fields so !! f); reflexivity.
  - by destruct (struct_fields so !! f).
Qed.

(** Every offset the overlay fixes agrees with profile [p]. *)
Definition offsets_agree (p : Profile) (s : schema) : Prop :=
  map_Forall (fun n st =>
    map_Forall (fun f fd => match fst fd with
                            | Some o => get_obj_offset p n f = o
                            | None => True
                            end) (struct_fields st)) s.

#[export] Instance offsets_agree_dec p s : Decision (offsets_agree p s).
Proof.
  apply map_Forall_dec. intros n st. apply map_Forall_dec. intros f [[o|] t]; simpl; apply _.
Defined.

Lemma offsets_agree_field p s n f o t :
  offsets_agree p s -> field_of s n f = Some (Some o, t) -> get_obj_offset p n f = o.
Proof.
  unfold field_of. intros Hs Hf. destruct (s !! n) as [st|] eqn:En; [|discriminate].
  exact (Hs n st En f (Some o, t) Hf).
Qed.

Lemma windows_overlay_kdbg_header :
  field_of windows_overlay "VOLATILITY_MAGIC" "KDBGHeader"
  = Some (Some 0, VolatilityMagic (MagicStr "Volatility KDBGHeader unspecified") None).
Proof. vm_compute. reflexivity. Qed.

Lemma kdbg_overlay_header mm :
  field_of (kdbg_overlay mm) "VOLATILITY_MAGIC" "KDBGHeader"
  = Some (None, VolatilityMagic (MagicBytes (kdbg_signature mm)) None).
Proof. reflexivity. Qed.

(** ** Properties *)

(** the merged schema types every field the overlay names with the
    overlay's type, at the overlay's offset, or at the base's offset when
    the overlay gives [None] (a field new to the base then has no offset). *)
Theorem overlay_field_types b n f off t :
  field_of windows_overlay n f = Some (off, t) ->
  exists off', field_of (windows_overlay_modification b) n f = Some (off', t) /\
    (off' = off \/ (off = None /\ exists t0, field_of b n f = Some (off', t0))).
Proof.
  intros Hf. unfold windows_overlay_modification. rewrite merge_overlay_field, Hf.
  destruct (field_of b n f) as [[o0 t0]|] eqn:Eb, off as [o|]; simpl; eauto 10.
Qed.

(** The concrete profile of the development places every member the
    overlay fixes (the [_MMVAD] tags at [-4], [VOLATILITY_MAGIC] and the
    section [Name] at [0]) where the overlay puts it. *)
Lemma xp_x86_offsets_agree : offsets_agree xp_x86 windows_overlay.
Proof. decide_vm. Qed.

Lemma xp_x86_overlay_offset n f o t :
  field_of windows_overlay n f = Some (Some o, t) -> get_obj_offset xp_x86 n f = o.
Proof. apply offsets_agree_field, xp_x86_offsets_agree. Qed.

(** [AbstractKDBGMod] declares no [before], yet its patch and
    [windows_overlay] both set [VOLATILITY_MAGIC.KDBGHeader]: merged after
    the Windows overlay the header is the KDBG signature (at the overlay's
    offset [0]), merged before it the header is the overlay's placeholder
    string.  The result depends on an order no declaration fixes. *)
Theorem kdbg_windows_conflict b mm :
  field_of (kdbg_modification mm (windows_overlay_modification b)) "VOLATILITY_MAGIC" "KDBGHeader"
  = Some (Some 0, VolatilityMagic (MagicBytes (kdbg_signature mm)) None) /\
  field_of (windows_overlay_modification (kdbg_modification mm b)) "VOLATILITY_MAGIC" "KDBGHeader"
  = Some (Some 0, VolatilityMagic (MagicStr "Volatility KDBGHeader unspecified") None).
Proof.
  unfold kdbg_modification, windows_overlay_modification.
  rewrite !merge_overlay_field, windows_overlay_kdbg_header, kdbg_overlay_header.
  destruct (field_of b "VOLATILITY_MAGIC" "KDBGHeader") as [[? ?]|]; split; reflexivity.
Qed.

(** ** Witnesses *)

Lemma overlay_field_types_witness :
  exists off', field_of (windows_overlay_modification ∅) "_MMVAD_SHORT" "Tag"
               = Some (off', VString (LenConst 4)) /\
    (off' = Some (-4) \/ (Some (-4) = None /\
       exists t0, field_of ∅ "_MMVAD_SHORT" "Tag" = Some (off', t0))).
Proof. apply overlay_field_types. vm_compute. reflexivity. Defined.

(** A patch adding [_EPROCESS.Peb], which the overlay does not touch. *)
Definition peb_patch : schema :=
  {[ "_EPROCESS" := mk_struct_l None [("Peb", (Some 0x1b0, VPointer (Named "_PEB")))] ]}.

