(* ===== verification/Registry.v ===== *)
(** * Registry: the object classes and the profile modifications

    [src/trunk/volatility/plugins/overlays/windows/windows.py]:
    - the classes of the file, as the inductive [Classes.obj_class] with
      their [__name__], [class_name];
    - [WindowsObjectClasses.modification] (857-888) registers them by name
      in [profile.object_classes], modelled by [object_classes];
    - [WindowsOverlay], [WindowsVTypes], [WindowsObjectClasses] and
      [AbstractKDBGMod] (839-891) are profile modifications with
      [conditions] and [before] lists;
    - [WindowsVTypes.modification] (850-855) updates [profile.vtypes]
      with five vtypes modules outside the repository (Section variables);
    - the deprecated [AbstractWindows] profile (906-908) has the metadata
      [os = windows].

    [obj.ProfileModification] is outside the repository.  From spec §4.2:
    a modification applies to a profile when each of its [conditions]
    holds of the profile's metadata ([check_conditions]).  The order in
    which the framework applies the modifications (a sort of the [before]
    lists) is outside the repository too and is not modelled: the [before]
    lists are kept as data only.

    [WindowsObjectClasses] spells its conditions [constratints] (line 858):
    the attribute [conditions] it inherits is the empty default, and the
    theorems show it applies to every profile, Windows or not. *)

From S2P Require Import Prelude Memory Overlay.
Local Open Scope Z_scope.

Module Classes.

(** The classes [windows.py] defines. *)
Inductive obj_class : Type :=
| _UNICODE_STRING | _LIST_ENTRY | WinTimeStamp | _EPROCESS | _TOKEN | _ETHREAD
| _HANDLE_TABLE | _OBJECT_HEADER | _FILE_OBJECT | _MMVAD | _MMVAD_SHORT | _MMVAD_LONG
| _EX_FAST_REF | ThreadCreateTimeStamp | IpAddress | VolatilityKPCR | VolatilityKDBG
| VolatilityIA32ValidAS | _IMAGE_DOS_HEADER | _IMAGE_NT_HEADERS | _IMAGE_SECTION_HEADER
| _CM_KEY_BODY | _MMVAD_FLAGS | _MMVAD_FLAGS2 | _MMSECTION_FLAGS.

#[export] Instance obj_class_eq_dec : EqDecision obj_class.
Proof. solve_decision. Defined.

(** The class's [__name__]. *)
Definition class_name (c : obj_class) : string :=
  match c with
  | _UNICODE_STRING => "_UNICODE_STRING" | _LIST_ENTRY => "_LIST_ENTRY"
  | WinTimeStamp => "WinTimeStamp" | _EPROCESS => "_EPROCESS" | _TOKEN => "_TOKEN"
  | _ETHREAD => "_ETHREAD" | _HANDLE_TABLE => "_HANDLE_TABLE"
  | _OBJECT_HEADER => "_OBJECT_HEADER" | _FILE_OBJECT => "_FILE_OBJECT"
  | _MMVAD => "_MMVAD" | _MMVAD_SHORT => "_MMVAD_SHORT" | _MMVAD_LONG => "_MMVAD_LONG"
  | _EX_FAST_REF => "_EX_FAST_REF" | ThreadCreateTimeStamp => "ThreadCreateTimeStamp"
  | IpAddress => "IpAddress" | VolatilityKPCR => "VolatilityKPCR"
  | VolatilityKDBG => "VolatilityKDBG" | VolatilityIA32ValidAS => "VolatilityIA32ValidAS"
  | _IMAGE_DOS_HEADER => "_IMAGE_DOS_HEADER" | _IMAGE_NT_HEADERS => "_IMAGE_NT_HEADERS"
  | _IMAGE_SECTION_HEADER => "_IMAGE_SECTION_HEADER" | _CM_KEY_BODY => "_CM_KEY_BODY"
  | _MMVAD_FLAGS => "_MMVAD_FLAGS" | _MMVAD_FLAGS2 => "_MMVAD_FLAGS2"
  | _MMSECTION_FLAGS => "_MMSECTION_FLAGS"
  end%string.

End Classes.
Import Classes.

(** ** [WindowsObjectClasses.modification]: [profile.object_classes.update] *)
Definition object_classes_l : list (string * obj_class) := [
  ("_UNICODE_STRING", _UNICODE_STRING); ("_LIST_ENTRY", _LIST_ENTRY);
  ("WinTimeStamp", WinTimeStamp); ("_EPROCESS", _EPROCESS); ("_ETHREAD", _ETHREAD);
  ("_HANDLE_TABLE", _HANDLE_TABLE); ("_OBJECT_HEADER", _OBJECT_HEADER);
  ("_FILE_OBJECT", _FILE_OBJECT); ("_MMVAD", _MMVAD); ("_MMVAD_SHORT", _MMVAD_SHORT);
  ("_MMVAD_LONG", _MMVAD_LONG); ("_EX_FAST_REF", _EX_FAST_REF);
  ("ThreadCreateTimeStamp", ThreadCreateTimeStamp); ("IpAddress", IpAddress);
  ("VolatilityKPCR", VolatilityKPCR); ("VolatilityKDBG", VolatilityKDBG);
  ("VolatilityIA32ValidAS", VolatilityIA32ValidAS);
  ("_IMAGE_DOS_HEADER", _IMAGE_DOS_HEADER); ("_IMAGE_NT_HEADERS", _IMAGE_NT_HEADERS);
  ("_IMAGE_SECTION_HEADER", _IMAGE_SECTION_HEADER); ("_CM_KEY_BODY", _CM_KEY_BODY);
  ("_MMVAD_FLAGS", _MMVAD_FLAGS); ("_MMVAD_FLAGS2", _MMVAD_FLAGS2);
  ("_MMSECTION_FLAGS", _MMSECTION_FLAGS); ("_TOKEN", _TOKEN)
].

(** [update] into the classes registered before: the Windows entries win. *)
Definition object_classes_update (base : gmap string obj_class) : gmap string obj_class :=
  list_to_map object_classes_l ∪ base.

(** ** Profile modifications *)

Record modification := mk_mod {
  mod_name : string;
  mod_conditions : list (string * (option string -> bool));
  mod_before : list string
}.

(** [conditions = {'os': lambda x: x == 'windows'}]. *)
Definition windows_os (x : option string) : bool := bool_decide (x = Some "windows").

Definition WindowsOverlay : modification :=
  mk_mod "WindowsOverlay" [("os", windows_os)] ["BasicObjectClasses"; "WindowsVTypes"].

Definition WindowsVTypes : modification :=
  mk_mod "WindowsVTypes" [("os", windows_os)] ["BasicObjectClasses"].

(** [constratints] is not [conditions]: the inherited default, [{}]. *)
Definition WindowsObjectClasses : modification :=
  mk_mod "WindowsObjectClasses" [] ["BasicObjectClasses"; "WindowsVTypes"; "WindowsOverlay"].

Definition AbstractKDBGMod : modification := mk_mod "AbstractKDBGMod" [] [].

(** [BasicObjectClasses] ([basic.py], outside the repository). *)
Definition BasicObjectClasses : modification := mk_mod "BasicObjectClasses" [] [].

(** [ProfileModification.check]: every condition holds of the metadata
    value of its key ([dict.get], [None] when absent). *)
Definition metadata_get (md : list (string * string)) (k : string) : option string :=
  (fun ikv : nat * (string * string) => snd (snd ikv)) <$> list_find (fun kv => fst kv = k) md.

Definition check_conditions (md : list (string * string)) (x : modification) : bool :=
  forallb (fun kf : string * (option string -> bool) => snd kf (metadata_get md (fst kf)))
    (mod_conditions x).

(** The catalogue in the order the classes are declared, after the basic
    classes. *)
Definition windows_catalogue : list modification :=
  [BasicObjectClasses; WindowsOverlay; WindowsVTypes; WindowsObjectClasses; AbstractKDBGMod].

(** The deprecated [AbstractWindows] profile: its metadata, [_md_os]. *)
Definition AbstractWindows_metadata : list (string * string) := [("os", "windows")].

(** [WindowsVTypes.modification]: [profile.vtypes.update] with the
    vtypes of five modules outside the repository, in this order;
    [dict.update] replaces a structure wholesale, so a later module's
    definition hides an earlier one. *)
Section VTypes.
Context (crash_vtypes hibernate_vtypes kdbg_vtypes tcpip_vtypes ssdt_vtypes : schema).

Definition windows_vtypes_modification (vtypes : schema) : schema :=
  ssdt_vtypes ∪ (tcpip_vtypes ∪ (kdbg_vtypes ∪ (hibernate_vtypes ∪ (crash_vtypes ∪ vtypes)))).

(** The structure [n] after the update: the last module that defines it
    wins, and its fields are not merged with the base's. *)
Lemma windows_vtypes_lookup vtypes n :
  windows_vtypes_modification vtypes !! n =
  ssdt_vtypes !! n ∪ (tcpip_vtypes !! n ∪ (kdbg_vtypes !! n ∪
    (hibernate_vtypes !! n ∪ (crash_vtypes !! n ∪ vtypes !! n)))).
Proof. unfold windows_vtypes_modification. by rewrite !lookup_union. Qed.
End VTypes.

(** ** Lemmas *)

Lemma object_classes_own_name c :
  list_to_map (M:=gmap string obj_class) object_classes_l !! class_name c = Some c.
Proof. destruct c; vm_compute; reflexivity. Qed.

(** ** Properties *)

(** C27: type-correct dispatch.  After [WindowsObjectClasses.modification],
    looking a class of [windows.py] up by its name in
    [profile.object_classes] gives that class, whatever was registered
    before. *)
Theorem object_classes_by_name base c :
  object_classes_update base !! class_name c = Some c.
Proof. unfold object_classes_update. apply lookup_union_Some_l, object_classes_own_name. Qed.

(** C29: [WindowsObjectClasses] misspells [conditions] as [constratints],
    so it applies to every profile: its conditions hold of any metadata,
    while [WindowsOverlay] and [WindowsVTypes] apply only when the [os] is
    ["windows"]. *)
Theorem windows_object_classes_any_os md :
  check_conditions md WindowsObjectClasses = true /\
  (metadata_get md "os" <> Some "windows" ->
   check_conditions md WindowsOverlay = false /\ check_conditions md WindowsVTypes = false).
Proof.
  split; [reflexivity|]. intros Hos.
  cbn [check_conditions forallb mod_conditions WindowsOverlay WindowsVTypes fst snd].
  unfold windows_os. by rewrite bool_decide_eq_false_2.
Qed.

(** ** Witnesses *)

Example abstract_windows_conditions :
  forallb (check_conditions AbstractWindows_metadata) windows_catalogue = true.
Proof. vm_compute. reflexivity. Qed.

