(* ===== verification/Scanners.v ===== *)
(** * Scanners: [VolatilityKPCR] and [VolatilityKDBG]

    [src/trunk/volatility/plugins/overlays/windows/windows.py], lines
    701-723.  Both are [obj.VolatilityMagic] values whose suggestions come
    from a signature scanner:
    - [VolatilityKPCR.__init__] drops the [value] keyword before
      [VolatilityMagic.__init__], so that a value overlaid on the type
      does not take precedence; [generate_suggestions] forwards
      [KPCRScanner().scan(self.obj_vm)];
    - [VolatilityKDBG.generate_suggestions] forwards
      [KDBGScanner(needles = [VolMagic(vm).KDBGHeader.v()]).scan(vm)]: it
      searches for the [KDBGHeader] of the profile's [VOLATILITY_MAGIC].

    The scanners ([kpcrscan], [kdbgscan]) are outside the repository: they
    are the interfaces [KPCRScanner] and [KDBGScanner], producers of
    candidate offsets (spec §6).  [obj.VolatilityMagic.v] is modelled from
    the spec as [magic_v]: the configuration value of [configname] when
    it is set and true, else [value] when it is not [None], else the first
    suggestion.

    The theorems: [VolatilityKPCR.v] ignores the overlaid value; on any
    schema [AbstractKDBGMod.modification] has patched, the KDBG scanner
    searches for the signature bytes of the memory model (eight zero bytes
    or [00 f8 ff ff] on 64 bits, then [KDBG] and the size [0x290] in
    little endian), unless a [KDBG] value is configured. *)

From S2P Require Import Prelude Memory Overlay.
Local Open Scope Z_scope.

(** The scanners' interfaces. *)
Class KPCRScanner := { kpcr_scan : mem -> list Z }.
Class KDBGScanner := { kdbg_scan : list magic_value -> mem -> list Z }.

(** The configuration value of [configname]: [getattr(config, name)],
    used when it is true. *)
Definition config_value (config : string -> option Z) (configname : option string) : option Z :=
  match configname with
  | Some n => match config n with Some v => if v =? 0 then None else Some v | None => None end
  | None => None
  end.

(** [obj.VolatilityMagic.v]. *)
Definition magic_v {A} (config : option A) (value : option A) (suggestions : list A) : maybe A :=
  match config with
  | Some c => Obj c
  | None =>
      match value with
      | Some v => Obj v
      | None => match suggestions with s :: _ => Obj s | [] => NoneObject "No suggestions available" end
      end
  end.

Section Scanners.
Context (config : string -> option Z).

(** [VolatilityKPCR(..., value = value, configname = configname).v()]:
    the [value] keyword is popped. *)
Definition kpcr_v `{KPCRScanner} (configname : option string) (value : option Z) (vm : mem) : maybe Z :=
  magic_v (config_value config configname) None (kpcr_scan vm).

(** [VolMagic(vm).KDBGHeader.v()]: the value of the [KDBGHeader] magic of
    the schema ([None]: the attribute is missing). *)
Definition kdbg_header (s : schema) : option magic_value :=
  match field_of s "VOLATILITY_MAGIC" "KDBGHeader" with
  | Some (_, VolatilityMagic v None) => Some v
  | _ => None
  end.

Definition kdbg_generate_suggestions `{KDBGScanner} (s : schema) (vm : mem) : option (list Z) :=
  (fun needle => kdbg_scan [needle] vm) <$> kdbg_header s.

(** [KDBG]'s [v()] ([configname = "KDBG"] in [windows_overlay]). *)
Definition kdbg_v `{KDBGScanner} (s : schema) (vm : mem) : option (maybe Z) :=
  match config_value config (Some "KDBG") with
  | Some c => Some (Obj c)
  | None => magic_v None None <$> kdbg_generate_suggestions s vm
  end.
End Scanners.

(** ** Properties *)

(** [VolatilityKPCR.v] without a configured value is the first offset
    the KPCR scanner finds, whatever value the overlay gives the type. *)
Lemma kpcr_v_ignores_value `{KPCRScanner} config configname value vm :
  config_value config configname = None ->
  kpcr_v config configname value vm = magic_v None None (kpcr_scan vm).
Proof. intros Hc. unfold kpcr_v. by rewrite Hc. Qed.

(** C19: composition of [AbstractKDBGMod.modification] with
    [VolatilityKDBG].  On any schema the KDBG patch has been merged into,
    [KDBG.v()] is the configured [KDBG] value when there is one (the
    scanner is not run); otherwise it is the first offset the scanner
    finds for the one needle [KDBGHeader.v()], the signature: eight zero
    bytes on a 32-bit memory model (the default), [00 f8 ff ff] otherwise,
    then ["KDBG"] and [0x290] as a little-endian 16-bit value. *)
Theorem kdbg_v_signature `{KDBGScanner} config mm s vm :
  kdbg_v config (kdbg_modification mm s) vm =
  match config_value config (Some "KDBG") with
  | Some c => Some (Obj c)
  | None =>
      Some (magic_v None None (kdbg_scan
        [MagicBytes ((match mm with
                      | Some mm' => if bool_decide (mm' = "32bit") then [0; 0; 0; 0; 0; 0; 0; 0]
                                    else [0; 0xf8; 0xff; 0xff]
                      | None => [0; 0; 0; 0; 0; 0; 0; 0]
                      end) ++ [0x4b; 0x44; 0x42; 0x47; 0x90; 0x02])] vm))
  end.
Proof.
  unfold kdbg_v, kdbg_generate_suggestions, kdbg_header, kdbg_modification.
  rewrite merge_overlay_field, kdbg_overlay_header.
  destruct (config_value config (Some "KDBG")); [done|].
  destruct (field_of s "VOLATILITY_MAGIC" "KDBGHeader") as [[? ?]|]; cbn [merge_field fmap option_fmap option_map];
    do 2 f_equal; unfold kdbg_signature; destruct mm as [mm'|]; cbn [default]; unfold id;
    try destruct (bool_decide (mm' = "32bit")); reflexivity.
Qed.

(** ** A scanner that finds the signature at [0x80545b60] *)
#[local] Instance sig_scanner : KDBGScanner :=
  {| kdbg_scan needles _ :=
       match needles with [MagicBytes _] => [0x80545b60] | _ => [] end |}.


Lemma kdbg_v_signature_witness :
  kdbg_v (fun _ => None) (kdbg_modification None (windows_overlay_modification ∅)) ∅
  = Some (magic_v None None (kdbg_scan
      [MagicBytes ([0; 0; 0; 0; 0; 0; 0; 0] ++ [0x4b; 0x44; 0x42; 0x47; 0x90; 0x02])] ∅)).
Proof. rewrite kdbg_v_signature. reflexivity. Defined.

Example kdbg_v_found :
  kdbg_v (fun _ => None) (kdbg_modification None (windows_overlay_modification ∅)) ∅
  = Some (Obj 0x80545b60).
Proof. vm_compute. reflexivity. Qed.
