(* ===== verification/Process.v ===== *)
(** * Process: [_EPROCESS] and [_ETHREAD]

    [src/trunk/volatility/plugins/overlays/windows/windows.py], lines
    294-397:
    - [_EPROCESS.get_process_address_space] builds the process's own
      address space from its [Pcb.DirectoryTableBase] with the class of
      the kernel space; the constructor's [AssertionError] is a
      [NoneObject];
    - [_EPROCESS.Peb] is the [_PEB] the [Peb] pointer names, in the
      process address space, when valid there;
    - [_EPROCESS._get_modules] and [get_init_modules], [get_mem_modules],
      [get_load_modules] walk the three module lists of [Peb.Ldr] with
      [_LIST_ENTRY.list_of_type] in the process address space, when the
      process has a nonzero [UniqueProcessId];
    - [_EPROCESS.get_vads] walks the VAD tree from [VadRoot], again in the
      process address space;
    - [_ETHREAD.owning_process] and [attached_process] dereference the
      thread's process pointers.

    The kernel space is [m]; the class of the kernel space is the
    interface [AddressSpaceClass] (its implementations, such as the IA32
    paged space, live in [addrspace.py], outside the repository).  The
    theorems: the module walks and the VAD walk read the process space,
    never the kernel one, and inherit the cycle safety of the walks. *)

From S2P Require Import Prelude Memory Primitives ListEntry VadTree.
Local Open Scope Z_scope.

(** [self.obj_vm.__class__(base, config, dtb = d)]: the space of the same
    class over the same physical layer with another directory table base,
    or [None] when the constructor's assertions fail. *)
Class AddressSpaceClass := { with_dtb : Z -> option mem }.

Section Process.
Context (m : mem) (p : Profile) `{AS : AddressSpaceClass}.

(** [self.Pcb.DirectoryTableBase.v()] ([unsigned long] in the overlay). *)
Definition directory_table_base (eproc : Z) : maybe Z :=
  field m (member p "_KPROCESS" "DirectoryTableBase" (member p "_EPROCESS" "Pcb" eproc)) 4.

(** An absent [DirectoryTableBase] fails the constructor's assertion too. *)
Definition get_process_address_space (eproc : Z) : maybe mem :=
  match directory_table_base eproc with
  | Obj dtb => of_option "Unable to get process AS" (with_dtb dtb)
  | NoneObject _ => NoneObject "Unable to get process AS"
  end.

(** [Peb]: [obj.Object("_PEB", offset, vm = process_ad)] then [is_valid()],
    both the validity of [offset] in the process space. *)
Definition Peb (eproc : Z) : maybe (mem * Z) :=
  match get_process_address_space eproc with
  | NoneObject _ => NoneObject "Peb not found"
  | Obj pas =>
      match pointer_value m (ptr_size p) (member p "_EPROCESS" "Peb" eproc) with
      | Obj off => if is_valid_address pas off then Obj (pas, off) else NoneObject "Peb not found"
      | NoneObject _ => NoneObject "Peb not found"
      end
  end.

(** [self.UniqueProcessId] is true ([unsigned int] in the overlay). *)
Definition pid_nonzero (eproc : Z) : bool :=
  match field m (member p "_EPROCESS" "UniqueProcessId" eproc) 4 with
  | Obj v => negb (v =? 0)
  | NoneObject _ => false
  end.

(** [_get_modules(self.Peb.Ldr.<list_member>, link_member)]: the module
    offsets, in the process space. *)
Definition get_modules (eproc : Z) (list_member link_member : string) : list Z :=
  match Peb eproc with
  | NoneObject _ => []
  | Obj (pas, peb) =>
      match deref pas (ptr_size p) (member p "_PEB" "Ldr" peb) with
      | NoneObject _ => []
      | Obj ldr =>
          let the_list := member p "_PEB_LDR_DATA" list_member ldr in
          if pid_nonzero eproc && list_entry_nonzero pas p the_list
          then list_of_type pas p the_list "_LDR_DATA_TABLE_ENTRY" link_member true
          else []
      end
  end.

Definition get_init_modules (eproc : Z) : list Z :=
  get_modules eproc "InInitializationOrderModuleList" "InInitializationOrderLinks".
Definition get_mem_modules (eproc : Z) : list Z :=
  get_modules eproc "InMemoryOrderModuleList" "InMemoryOrderLinks".
Definition get_load_modules (eproc : Z) : list Z :=
  get_modules eproc "InLoadOrderModuleList" "InLoadOrderLinks".

(** [get_vads]: [obj.Object('_MMVAD', offset = self.VadRoot, vm = procspace)]
    then [traverse]. *)
Definition get_vads (eproc : Z) : list Z :=
  match get_process_address_space eproc with
  | NoneObject _ => []
  | Obj pas =>
      match pointer_value m (ptr_size p) (member p "_EPROCESS" "VadRoot" eproc) with
      | NoneObject _ => []
      | Obj vr =>
          match mmvad_new pas p vr with
          | Obj root => traverse pas p root
          | NoneObject _ => []
          end
      end
  end.

(** ** [_ETHREAD] *)
Definition owning_process (ethread : Z) : maybe Z :=
  deref m (ptr_size p) (member p "_ETHREAD" "ThreadsProcess" ethread).

Definition attached_process (ethread : Z) : maybe Z :=
  deref m (ptr_size p)
    (member p "_KAPC_STATE" "Process"
       (member p "_KTHREAD" "ApcState" (member p "_ETHREAD" "Tcb" ethread))).

End Process.

(** ** Properties *)

(** C34: composition of the module walk.  Every module the three
    [get_*_modules] generators yield comes from the process address space
    that the process's own [DirectoryTableBase] builds: it is a valid
    address there, the [Peb] was found there, and the process has a
    nonzero [UniqueProcessId]; no module is yielded twice. *)
Theorem get_modules_process_space m p `{AddressSpaceClass} eproc lm lk :
  NoDup (get_modules m p eproc lm lk) /\
  forall x, x ∈ get_modules m p eproc lm lk ->
    exists dtb pas peb, directory_table_base m p eproc = Obj dtb /\ with_dtb dtb = Some pas /\
      Peb m p eproc = Obj (pas, peb) /\ pid_nonzero m p eproc = true /\ x ∈ dom pas.
Proof.
  unfold get_modules. destruct (Peb m p eproc) as [[pas peb]|] eqn:Ep;
    [|split; [constructor|inversion 1]].
  destruct (deref pas _ _) as [ldr|]; [|split; [constructor|inversion 1]].
  destruct (pid_nonzero m p eproc && _) eqn:Ec; [|split; [constructor|inversion 1]].
  apply andb_prop in Ec as [Hpid _].
  split; [apply list_of_type_walk_nodup|]. intros x Hx. pose proof Ep as Hpeb.
  unfold Peb, get_process_address_space in Ep.
  destruct (directory_table_base m p eproc) as [dtb|]; [|discriminate].
  destruct (with_dtb dtb) as [pas'|] eqn:Ew; simpl in Ep; [|discriminate].
  destruct (pointer_value _ _ _) as [off|]; [|discriminate].
  destruct (is_valid_address pas' off); [|discriminate]. injection Ep as <- <-.
  exists dtb, pas', off. repeat split; try done. by eapply list_of_type_valid.
Qed.

(** C35: composition of the VAD walk.  [get_vads] reads the tree in the
    process address space: every node it yields is a node [_MMVAD.__new__]
    recognizes there, the walk starts at the root [VadRoot] names, and no
    node below the root is yielded twice. *)
Theorem get_vads_process_space m p `{AddressSpaceClass} eproc :
  NoDup (tail (get_vads m p eproc)) /\
  forall x, x ∈ get_vads m p eproc ->
    exists dtb pas vr t t', directory_table_base m p eproc = Obj dtb /\ with_dtb dtb = Some pas /\
      pointer_value m (ptr_size p) (member p "_EPROCESS" "VadRoot" eproc) = Obj vr /\
      mmvad_new pas p vr = Obj (vr, t) /\ mmvad_new pas p x = Obj (x, t').
Proof.
  unfold get_vads, get_process_address_space.
  destruct (directory_table_base m p eproc) as [dtb|]; [|split; [constructor|inversion 1]].
  destruct (with_dtb dtb) as [pas|] eqn:Ew; simpl; [|split; [constructor|inversion 1]].
  destruct (pointer_value _ _ _) as [vr|]; [|split; [constructor|inversion 1]].
  destruct (mmvad_new pas p vr) as [[o t]|] eqn:Em; [|split; [constructor|inversion 1]].
  pose proof Em as Em'. apply mmvad_new_obj in Em' as (-> & _).
  split; [apply traverse_tail_nodup|]. intros x Hx.
  destruct (traverse_nodes_recognized pas p vr t x Em Hx) as [t' Ht'].
  exists dtb, pas, vr, t, t'. by repeat split.
Qed.

(** ** A concrete process

    The kernel space [kernel_image] holds an [_EPROCESS] at [0x81000]
    with directory table base [0x39000], process id 4, [Peb] at
    [0x7ffdf000] and [VadRoot] at [0x1000].  Its process space
    [process_image] holds the PEB, a loader list with two modules at
    [0x241ee0] and [0x241f78], and the VAD tree [vad_tree]. *)
Definition process_image : mem :=
  store32 vad_tree [(0x7ffdf000, 0); (0x7ffdf00c, 0x241e90); (0x241e90, 0);
                    (0x241e9c, 0x241ee0); (0x241ea0, 0x241f78);
                    (0x241ee0, 0x241f78); (0x241ee4, 0x241e9c);
                    (0x241f78, 0x241e9c); (0x241f7c, 0x241ee0)].

Definition kernel_image : mem :=
  store32 ∅ [(0x81000, 0); (0x81018, 0x39000); (0x81084, 4);
             (0x8111c, 0x1000); (0x811b0, 0x7ffdf000)].

#[local] Instance kernel_class : AddressSpaceClass :=
  {| with_dtb dtb := if dtb =? 0x39000 then Some process_image else None |}.

Example get_load_modules_process :
  get_load_modules kernel_image xp_x86 0x81000 = [0x241ee0; 0x241f78].
Proof. vm_compute. reflexivity. Qed.

Example get_vads_process :
  get_vads kernel_image xp_x86 0x81000 = [0x1000; 0x2000; 0x3000].
Proof. vm_compute. reflexivity. Qed.
